(** * Patient management system: a shallow embedding of [main.py]

    The development follows the layout of the program: the [Patient]
    class with its two validators and the age computation, the
    [FileManager] with its two storage backends, and the
    [PatientManagementSystem] that keeps the in-memory list in step with
    the file.

    Python text ([str]) is embedded as [string]; an [ascii] stands for the
    code point of the same number, so the embedding covers text whose
    code points lie below 256.  On that range the regular-expression class
    [\d] is exactly ['0'..'9']; texts with other code points, among them
    the decimal digits of other scripts that [\d] and [int] also accept,
    are outside the embedding.  Python integers are [Z]; their
    conversions to and from text are embedded as they are for integers
    of at most 4300 decimal digits, the limit beyond which the
    interpreter raises [ValueError], and the theorems that write
    arbitrary integers assume that limit ([ints_within]).  An exception is
    an explicit outcome, and code that mutates the list or the files is a
    function from the world to an outcome and a new world, so that what an
    operation leaves behind when it raises stays visible. *)

From Stdlib Require Import String Ascii List ZArith Bool Lia.
Import ListNotations.
Local Open Scope string_scope.
Local Open Scope list_scope.
Local Open Scope Z_scope.

Infix "+++" := String.append (right associativity, at level 60).

(** ** Exceptions and outcomes *)

Inductive exn : Type :=
| ValueError
| KeyError
| TypeError
| AttributeError
| FileNotFoundError
| JSONDecodeError
| CsvError
| NotModelled.

Inductive outcome (A : Type) : Type :=
| Ok (a : A)
| Raise (e : exn).

Arguments Ok {A} a.
Arguments Raise {A} e.

Definition obind {A B} (m : outcome A) (k : A -> outcome B) : outcome B :=
  match m with
  | Ok a => k a
  | Raise e => Raise e
  end.

Notation "x <- m ;; k" := (obind m (fun x => k))
  (at level 61, m at next level, right associativity).

Fixpoint omap {A B} (f : A -> outcome B) (l : list A) : outcome (list B) :=
  match l with
  | [] => Ok []
  | a :: t => b <- f a ;; bs <- omap f t ;; Ok (b :: bs)
  end.

(** ** Characters and text *)

Definition chr (n : nat) : ascii := ascii_of_nat n.
Definition LF : ascii := chr 10.
Definition CR : ascii := chr 13.
Definition DQ : ascii := chr 34.   (* the double quote *)

(** [\d], on the code points below 256. *)
Definition is_digit (c : ascii) : bool :=
  let n := nat_of_ascii c in (48 <=? n)%nat && (n <=? 57)%nat.

Definition digit_val (c : ascii) : Z := Z.of_nat (nat_of_ascii c) - 48.

Definition in_range (lo hi : ascii) (c : ascii) : bool :=
  let n := nat_of_ascii c in
  (nat_of_ascii lo <=? n)%nat && (n <=? nat_of_ascii hi)%nat.

(** [str.isspace] on the code points below 256. *)
Definition is_space (c : ascii) : bool :=
  let n := nat_of_ascii c in
  ((9 <=? n)%nat && (n <=? 13)%nat) || ((28 <=? n)%nat && (n <=? 32)%nat)
  || (n =? 133)%nat || (n =? 160)%nat.

Fixpoint string_rev_onto (s acc : string) : string :=
  match s with
  | EmptyString => acc
  | String c t => string_rev_onto t (String c acc)
  end.

Definition string_rev (s : string) : string := string_rev_onto s EmptyString.

Fixpoint lstrip (s : string) : string :=
  match s with
  | String c t => if is_space c then lstrip t else s
  | EmptyString => EmptyString
  end.

Definition strip (s : string) : string :=
  string_rev (lstrip (string_rev (lstrip s))).

Fixpoint contains_char (c : ascii) (s : string) : bool :=
  match s with
  | EmptyString => false
  | String a t => Ascii.eqb a c || contains_char c t
  end.

(** [s.split(sep)] for a separator of one character. *)
Fixpoint split_on (sep : ascii) (s : string) : list string :=
  match s with
  | EmptyString => [EmptyString]
  | String c t =>
      if Ascii.eqb c sep then EmptyString :: split_on sep t
      else match split_on sep t with
           | h :: r => String c h :: r
           | [] => [String c EmptyString]
           end
  end.

Fixpoint join (sep : string) (l : list string) : string :=
  match l with
  | [] => EmptyString
  | [x] => x
  | x :: t => x +++ sep +++ join sep t
  end.

Fixpoint repeat_string (n : nat) (s : string) : string :=
  match n with
  | O => EmptyString
  | S k => s +++ repeat_string k s
  end.

Definition strlen (s : string) : Z := Z.of_nat (String.length s).

(** ** The [re] module, as far as the program uses it

    A pattern is matched by backtracking; [rx r s] lists, in the order in
    which the engine tries them, the ways [r] matches a prefix of [s]:
    the text of the groups closed on the way and the text left over. *)

Inductive regex : Type :=
| Lit (c : ascii)
| Cls (p : ascii -> bool)
| Cat (r1 r2 : regex)
| Alt (r1 r2 : regex)
| Grp (r : regex)
| Eos.

Definition taken (s rest : string) : string :=
  substring 0 (String.length s - String.length rest) s.

Fixpoint rx (r : regex) (s : string) : list (list string * string) :=
  match r with
  | Lit c =>
      match s with
      | String a t => if Ascii.eqb a c then [([], t)] else []
      | EmptyString => []
      end
  | Cls p =>
      match s with
      | String a t => if p a then [([], t)] else []
      | EmptyString => []
      end
  | Cat r1 r2 =>
      flat_map (fun m1 =>
        map (fun m2 => (fst m1 ++ fst m2, snd m2)) (rx r2 (snd m1))) (rx r1 s)
  | Alt r1 r2 => rx r1 s ++ rx r2 s
  | Grp r1 => map (fun m => (taken s (snd m) :: fst m, snd m)) (rx r1 s)
  | Eos =>
      (* [$]: at the end, or just before a newline that ends the text *)
      match s with
      | EmptyString => [([], s)]
      | String c EmptyString => if Ascii.eqb c LF then [([], s)] else []
      | _ => []
      end
  end.

(** [re.match(pattern, s)]: the first match at the start of [s]. *)
Definition re_match (r : regex) (s : string) : option (list string * string) :=
  hd_error (rx r s).

Definition is_some {A} (o : option A) : bool :=
  match o with Some _ => true | None => false end.

Fixpoint cat_all (l : list regex) : regex :=
  match l with
  | [] => Cls (fun _ => false)
  | [r] => r
  | r :: t => Cat r (cat_all t)
  end.

Fixpoint times (n : nat) (r : regex) : list regex :=
  match n with
  | O => []
  | S k => r :: times k r
  end.

Definition d : regex := Cls is_digit.                  (* \d *)
Definition rng (lo hi : ascii) : regex := Cls (in_range lo hi).       (* [lo-hi] *)
Definition one_of (a b : ascii) : regex :=                            (* [ab] *)
  Cls (fun c => Ascii.eqb c a || Ascii.eqb c b).
Definition lit (a : ascii) : regex := Lit a.

Arguments rng (lo hi)%_char.
Arguments one_of (a b)%_char.
Arguments lit a%_char.

(** [r"^(0[1-9]|[12][0-9]|3[01])-(0[1-9]|1[0-2])-(\d{4})$"]; the leading
    [^] is what [re.match] does anyway. *)
Definition dob_pattern : regex :=
  cat_all
    [ Grp (Alt (Cat (lit "0") (rng "1" "9"))
          (Alt (Cat (one_of "1" "2") (rng "0" "9"))
               (Cat (lit "3") (one_of "0" "1"))));
      lit "-";
      Grp (Alt (Cat (lit "0") (rng "1" "9"))
               (Cat (lit "1") (rng "0" "2")));
      lit "-";
      Grp (cat_all (times 4 d));
      Eos ].

(** [r"^\d{3}-\d{3}-\d{4}$"] *)
Definition phone_pattern : regex :=
  cat_all
    [ cat_all (times 3 d); lit "-"; cat_all (times 3 d); lit "-";
      cat_all (times 4 d); Eos ].

(** ** [int(text)] in base ten

    Surrounding white space is dropped, one sign is allowed, and single
    underscores may separate digits.  (Beyond 4300 digits [int] raises
    [ValueError]; the embedding is for texts within that limit.) *)

Fixpoint int_digits (acc : Z) (s : string) : option Z :=
  match s with
  | EmptyString => Some acc
  | String c t =>
      if is_digit c then int_digits (10 * acc + digit_val c) t
      else if Ascii.eqb c "_"%char then
        match t with
        | String c' _ => if is_digit c' then int_digits acc t else None
        | EmptyString => None
        end
      else None
  end.

Definition int_unsigned (s : string) : option Z :=
  match s with
  | String c _ => if is_digit c then int_digits 0 s else None
  | EmptyString => None
  end.

Definition py_int (s : string) : outcome Z :=
  let body := strip s in
  let r :=
    match body with
    | String c t =>
        if Ascii.eqb c "-"%char then option_map Z.opp (int_unsigned t)
        else if Ascii.eqb c "+"%char then int_unsigned t
        else int_unsigned body
    | EmptyString => None
    end in
  match r with
  | Some z => Ok z
  | None => Raise ValueError
  end.

(** ** [datetime] *)

Record date : Type := mkdate { year : Z; month : Z; day : Z }.

Definition is_leap (y : Z) : bool :=
  (y mod 4 =? 0) && (negb (y mod 100 =? 0) || (y mod 400 =? 0)).

Definition days_in_month (y m : Z) : Z :=
  if m =? 2 then (if is_leap y then 29 else 28)
  else if (m =? 4) || (m =? 6) || (m =? 9) || (m =? 11) then 30
  else 31.

(** [datetime(year, month, day)]: [ValueError] unless the three numbers
    name a day between year 1 and year 9999. *)
Definition datetime (y m dd : Z) : outcome date :=
  if (1 <=? y) && (y <=? 9999) && (1 <=? m) && (m <=? 12)
     && (1 <=? dd) && (dd <=? days_in_month y m)
  then Ok (mkdate y m dd)
  else Raise ValueError.

(** The pattern [datetime.strptime] builds from ["%d-%m-%Y"]:
    [(3[0-1]|[1-2]\d|0[1-9]|[1-9]| [1-9])-(1[0-2]|0[1-9]|[1-9])-(\d\d\d\d)]. *)
Definition strptime_pattern : regex :=
  cat_all
    [ Grp (Alt (Cat (lit "3") (rng "0" "1"))
          (Alt (Cat (rng "1" "2") d)
          (Alt (Cat (lit "0") (rng "1" "9"))
          (Alt (rng "1" "9")
               (Cat (lit " ") (rng "1" "9"))))));
      lit "-";
      Grp (Alt (Cat (lit "1") (rng "0" "2"))
          (Alt (Cat (lit "0") (rng "1" "9"))
               (rng "1" "9")));
      lit "-";
      Grp (cat_all (times 4 d)) ].

(** [datetime.strptime(text, "%d-%m-%Y")] *)
Definition strptime (text : string) : outcome date :=
  match re_match strptime_pattern text with
  | Some ([gd; gm; gy], EmptyString) =>
      y <- py_int gy ;; m <- py_int gm ;; dd <- py_int gd ;;
      datetime y m dd
  | _ => Raise ValueError
  end.



(** ** Python values

    What the program stores and what the two file formats can hold:
    [None], booleans, integers, text, lists and dictionaries.  A
    dictionary keeps its entries in insertion order; its keys are field
    names, or [None], the key under which [csv.DictReader] files surplus
    cells. *)

Inductive key : Type :=
| KNone
| KStr (s : string).

#[warnings="-register-all"]
Inductive value : Type :=
| VNone
| VBool (b : bool)
| VInt (z : Z)
| VStr (s : string)
| VList (l : list value)
| VDict (entries : list (key * value)).

Definition dict : Type := list (key * value).

Definition key_eqb (a b : key) : bool :=
  match a, b with
  | KNone, KNone => true
  | KStr x, KStr y => String.eqb x y
  | _, _ => false
  end.

Fixpoint dict_get (dc : dict) (k : key) : option value :=
  match dc with
  | [] => None
  | (k', v) :: t => if key_eqb k' k then Some v else dict_get t k
  end.

(** [dc[k] = v]: an existing key keeps its place. *)
Fixpoint dict_set (dc : dict) (k : key) (v : value) : dict :=
  match dc with
  | [] => [(k, v)]
  | (k', v') :: t =>
      if key_eqb k' k then (k', v) :: t else (k', v') :: dict_set t k v
  end.

(** [dc.update(other)] *)
Definition dict_update (dc other : dict) : dict :=
  fold_left (fun acc kv => dict_set acc (fst kv) (snd kv)) other dc.

(** [dict(pairs)] *)
Definition dict_of_pairs (pairs : list (key * value)) : dict :=
  dict_update [] pairs.

(** *** [str] and [repr] *)

Definition digit_char (n : Z) : ascii := ascii_of_nat (Z.to_nat (48 + n)).

Fixpoint dec_digits (fuel : nat) (n : Z) (acc : string) : string :=
  match fuel with
  | O => acc
  | S f =>
      let acc' := String (digit_char (n mod 10)) acc in
      if n <? 10 then acc' else dec_digits f (n / 10) acc'
  end.

Definition str_of_nonneg (n : Z) : string :=
  dec_digits (S (Z.to_nat (Z.log2 n))) n EmptyString.

(** [str(z)], for an integer of at most 4300 decimal digits. *)
Definition str_of_Z (z : Z) : string :=
  if z <? 0 then String "-" (str_of_nonneg (- z)) else str_of_nonneg z.

Definition hex_char (n : Z) : ascii :=
  if n <? 10 then ascii_of_nat (Z.to_nat (48 + n))
  else ascii_of_nat (Z.to_nat (87 + n)).

Definition code (c : ascii) : Z := Z.of_nat (nat_of_ascii c).

Definition hex2 (c : ascii) : string :=
  String (hex_char (code c / 16)) (String (hex_char (code c mod 16)) EmptyString).

(** [str.isprintable] on the code points below 256. *)
Definition is_printable (c : ascii) : bool :=
  let n := code c in
  ((32 <=? n) && (n <=? 126)) || ((161 <=? n) && negb (n =? 173)).

Fixpoint repr_chars (q : ascii) (s : string) : string :=
  match s with
  | EmptyString => EmptyString
  | String c t =>
      let rest := repr_chars q t in
      if Ascii.eqb c q || Ascii.eqb c "\"%char then String "\" (String c rest)
      else if Ascii.eqb c (chr 9) then "\t" +++ rest
      else if Ascii.eqb c LF then "\n" +++ rest
      else if Ascii.eqb c CR then "\r" +++ rest
      else if is_printable c then String c rest
      else "\x" +++ hex2 c +++ rest
  end.

Definition repr_str (s : string) : string :=
  let q := if contains_char "'" s && negb (contains_char DQ s)
           then DQ else "'"%char in
  String q (repr_chars q s +++ String q EmptyString).

Definition repr_key (k : key) : string :=
  match k with
  | KNone => "None"
  | KStr s => repr_str s
  end.

Fixpoint py_repr (v : value) : string :=
  match v with
  | VNone => "None"
  | VBool true => "True"
  | VBool false => "False"
  | VInt z => str_of_Z z
  | VStr s => repr_str s
  | VList l => "[" +++ join ", " (map py_repr l) +++ "]"
  | VDict dc =>
      "{" +++ join ", " (map (fun kv => repr_key (fst kv) +++ ": " +++ py_repr (snd kv)) dc)
      +++ "}"
  end.

(** [str(v)] *)
Definition py_str (v : value) : string :=
  match v with
  | VStr s => s
  | _ => py_repr v
  end.

(** [iter(v)]: the items a [for] loop or a comprehension visits. *)
Fixpoint chars_of (s : string) : list value :=
  match s with
  | EmptyString => []
  | String c t => VStr (String c EmptyString) :: chars_of t
  end.

Definition value_of_key (k : key) : value :=
  match k with
  | KNone => VNone
  | KStr s => VStr s
  end.

Definition py_iter (v : value) : outcome (list value) :=
  match v with
  | VList l => Ok l
  | VDict dc => Ok (map (fun kv => value_of_key (fst kv)) dc)
  | VStr s => Ok (chars_of s)
  | _ => Raise TypeError
  end.

(** [len(v)] *)
Definition py_len (v : value) : outcome Z :=
  match v with
  | VList l => Ok (Z.of_nat (List.length l))
  | VDict dc => Ok (Z.of_nat (List.length dc))
  | VStr s => Ok (strlen s)
  | _ => Raise TypeError
  end.

(** [v[name]] for a text subscript. *)
Definition subscript (v : value) (name : string) : outcome value :=
  match v with
  | VDict dc =>
      match dict_get dc (KStr name) with
      | Some x => Ok x
      | None => Raise KeyError
      end
  | _ => Raise TypeError
  end.

(** ** The [csv] module: the [excel] dialect

    Comma as delimiter, double quote as quote character, doubled inside
    a quoted cell, minimal quoting, rows ended by CR LF. *)

Definition CRLF : string := String CR (String LF EmptyString).

(** [csv.field_size_limit()] *)
Definition field_limit : Z := 131072.

Definition special (c : ascii) : bool :=
  Ascii.eqb c ","%char || Ascii.eqb c DQ || Ascii.eqb c CR || Ascii.eqb c LF.

Fixpoint needs_quote (s : string) : bool :=
  match s with
  | EmptyString => false
  | String c t => special c || needs_quote t
  end.

Fixpoint double_quotes (s : string) : string :=
  match s with
  | EmptyString => EmptyString
  | String c t =>
      if Ascii.eqb c DQ then String c (String c (double_quotes t))
      else String c (double_quotes t)
  end.

Definition csv_cell (s : string) : string :=
  if needs_quote s then String DQ (double_quotes s +++ String DQ EmptyString)
  else s.

(** The text a writer puts in a cell for a value. *)
Definition cell_text (v : value) : string :=
  match v with
  | VNone => EmptyString
  | VStr s => s
  | _ => py_str v
  end.

(** [writer.writerow(cells)]; a row of one empty cell is written quoted. *)
Definition csv_row (cells : list string) : string :=
  match cells with
  | [EmptyString] => String DQ (String DQ CRLF)
  | _ => join "," (map csv_cell cells) +++ CRLF
  end.

(** Iterating a file opened with [newline] set to the empty text: lines end at LF, at CR
    or at CR LF, and keep their ending. *)
Fixpoint split_lines (s : string) : list string :=
  match s with
  | EmptyString => []
  | String c t =>
      if Ascii.eqb c LF then String c EmptyString :: split_lines t
      else if Ascii.eqb c CR then
        match t with
        | String c' t' =>
            if Ascii.eqb c' LF then CRLF :: split_lines t'
            else String c EmptyString :: split_lines t
        | EmptyString => [String c EmptyString]
        end
      else
        match split_lines t with
        | [] => [String c EmptyString]
        | l :: ls => String c l :: ls
        end
  end.

(** The reader is the state machine of [_csv.c]; the states of the
    escape character are left out, the dialect has none. *)
Inductive pstate : Type :=
| START_RECORD
| START_FIELD
| IN_FIELD
| IN_QUOTED_FIELD
| QUOTE_IN_QUOTED_FIELD
| EAT_CRNL.

Record reader : Type := mkreader {
  state : pstate;
  fields : list string;     (* the cells of the row so far *)
  field : string;           (* the cell being read, last character first *)
  field_len : Z
}.

Definition parse_reset : reader := mkreader START_RECORD [] EmptyString 0.

Definition parse_save_field (r : reader) : reader :=
  mkreader (state r) (fields r ++ [string_rev (field r)]) EmptyString 0.

Definition parse_add_char (r : reader) (c : ascii) : outcome reader :=
  if field_limit <=? field_len r then Raise CsvError
  else Ok (mkreader (state r) (fields r) (String c (field r)) (field_len r + 1)).

Definition set_state (st : pstate) (r : reader) : reader :=
  mkreader st (fields r) (field r) (field_len r).

Definition is_newline (c : ascii) : bool := Ascii.eqb c LF || Ascii.eqb c CR.

(** [parse_process_char]; [None] is the end-of-line mark the reader
    feeds after each line. *)
Definition start_field (r : reader) (c : option ascii) : outcome reader :=
  match c with
  | None => Ok (set_state START_RECORD (parse_save_field r))
  | Some a =>
      if is_newline a then Ok (set_state EAT_CRNL (parse_save_field r))
      else if Ascii.eqb a DQ then Ok (set_state IN_QUOTED_FIELD r)
      else if Ascii.eqb a ","%char then Ok (parse_save_field r)
      else r' <- parse_add_char r a ;; Ok (set_state IN_FIELD r')
  end.

Definition parse_process_char (r : reader) (c : option ascii) : outcome reader :=
  match state r with
  | START_RECORD =>
      match c with
      | None => Ok r
      | Some a =>
          if is_newline a then Ok (set_state EAT_CRNL r)
          else start_field (set_state START_FIELD r) c
      end
  | START_FIELD => start_field r c
  | IN_FIELD =>
      match c with
      | None => Ok (set_state START_RECORD (parse_save_field r))
      | Some a =>
          if is_newline a then Ok (set_state EAT_CRNL (parse_save_field r))
          else if Ascii.eqb a ","%char then Ok (set_state START_FIELD (parse_save_field r))
          else parse_add_char r a
      end
  | IN_QUOTED_FIELD =>
      match c with
      | None => Ok r
      | Some a =>
          if Ascii.eqb a DQ then Ok (set_state QUOTE_IN_QUOTED_FIELD r)
          else parse_add_char r a
      end
  | QUOTE_IN_QUOTED_FIELD =>
      match c with
      | None => Ok (set_state START_RECORD (parse_save_field r))
      | Some a =>
          if Ascii.eqb a DQ then
            r' <- parse_add_char r a ;; Ok (set_state IN_QUOTED_FIELD r')
          else if Ascii.eqb a ","%char then Ok (set_state START_FIELD (parse_save_field r))
          else if is_newline a then Ok (set_state EAT_CRNL (parse_save_field r))
          else r' <- parse_add_char r a ;; Ok (set_state IN_FIELD r')
      end
  | EAT_CRNL =>
      match c with
      | None => Ok (set_state START_RECORD r)
      | Some a => if is_newline a then Ok r else Raise CsvError
      end
  end.

Fixpoint feed_chars (r : reader) (line : string) : outcome reader :=
  match line with
  | EmptyString => Ok r
  | String c t => r' <- parse_process_char r (Some c) ;; feed_chars r' t
  end.

Definition feed_line (r : reader) (line : string) : outcome reader :=
  r' <- feed_chars r line ;; parse_process_char r' None.

Definition pstate_eqb (a b : pstate) : bool :=
  match a, b with
  | START_RECORD, START_RECORD | START_FIELD, START_FIELD
  | IN_FIELD, IN_FIELD | IN_QUOTED_FIELD, IN_QUOTED_FIELD
  | QUOTE_IN_QUOTED_FIELD, QUOTE_IN_QUOTED_FIELD | EAT_CRNL, EAT_CRNL => true
  | _, _ => false
  end.

(** All the rows [csv.reader] yields from the lines: a row is complete
    when a line ends in state [START_RECORD]; when the lines run out
    inside a row, what was read is yielded if a cell is open. *)
Fixpoint reader_rows (r : reader) (lines : list string) : outcome (list (list string)) :=
  match lines with
  | [] =>
      if negb (field_len r =? 0) || pstate_eqb (state r) IN_QUOTED_FIELD
      then Ok [fields (parse_save_field r)]
      else Ok []
  | line :: rest =>
      r' <- feed_line r line ;;
      if pstate_eqb (state r') START_RECORD
      then rows <- reader_rows parse_reset rest ;; Ok (fields r' :: rows)
      else reader_rows r' rest
  end.

Definition csv_reader (text : string) : outcome (list (list string)) :=
  reader_rows parse_reset (split_lines text).

(** One row of [csv.DictReader]: cells paired with the field names, the
    surplus cells under [None], the missing ones as [None]. *)
Definition row_dict (names : list string) (row : list string) : value :=
  let zipped :=
    dict_of_pairs (map (fun p => (KStr (fst p), VStr (snd p))) (combine names row)) in
  let lf := List.length names in
  let lr := List.length row in
  if (lf <? lr)%nat then
    VDict (dict_set zipped KNone (VList (map VStr (skipn lf row))))
  else
    VDict (fold_left (fun acc k => dict_set acc (KStr k) VNone) (skipn lr names) zipped).

Definition is_nil {A} (l : list A) : bool :=
  match l with [] => true | _ => false end.

(** [[row for row in csv.DictReader(file)]]: the first row names the
    fields, blank rows are skipped. *)
Definition dict_reader (text : string) : outcome (list value) :=
  rows <- csv_reader text ;;
  match rows with
  | [] => Ok []
  | names :: rest =>
      Ok (map (row_dict names) (filter (fun row => negb (is_nil row)) rest))
  end.

(** The eight columns of [write_file]. *)
Definition fieldnames : list string :=
  ["id"; "first_name"; "last_name"; "date_of_birth"; "age"; "hometown";
   "house_number"; "phone_number"].

Definition known_field (k : key) : bool :=
  match k with
  | KStr s => existsb (String.eqb s) fieldnames
  | KNone => false
  end.

(** [DictWriter._dict_to_list]: a key outside the columns is an error,
    a missing column is written empty. *)
Definition dict_to_list (row : value) : outcome (list string) :=
  match row with
  | VDict dc =>
      if forallb (fun kv => known_field (fst kv)) dc then
        Ok (map (fun f => match dict_get dc (KStr f) with
                          | Some v => cell_text v
                          | None => EmptyString
                          end) fieldnames)
      else Raise ValueError
  | _ => Raise AttributeError
  end.

(** [writer.writerows(rows)]: the text written, and the exception that
    stopped the writing, if any. *)
Fixpoint writerows (rows : list value) : string * option exn :=
  match rows with
  | [] => (EmptyString, None)
  | row :: rest =>
      match dict_to_list row with
      | Ok cells =>
          let w := writerows rest in (csv_row cells +++ fst w, snd w)
      | Raise e => (EmptyString, Some e)
      end
  end.

(** [writeheader()] and [writerows(data)] on a fresh file. *)
Definition csv_dump (data : value) : string * option exn :=
  let header := csv_row fieldnames in
  match py_iter data with
  | Ok rows => let w := writerows rows in (header +++ fst w, snd w)
  | Raise e => (header, Some e)
  end.

(** ** The [json] module *)

(** *** [json.dump(data, file, indent=4)] *)

Definition hex4 (c : ascii) : string := "00" +++ hex2 c.

Fixpoint json_escape (s : string) : string :=
  match s with
  | EmptyString => EmptyString
  | String c t =>
      let rest := json_escape t in
      if Ascii.eqb c DQ then String "\" (String DQ rest)
      else if Ascii.eqb c "\"%char then "\\" +++ rest
      else if Ascii.eqb c (chr 8) then "\b" +++ rest
      else if Ascii.eqb c (chr 12) then "\f" +++ rest
      else if Ascii.eqb c LF then "\n" +++ rest
      else if Ascii.eqb c CR then "\r" +++ rest
      else if Ascii.eqb c (chr 9) then "\t" +++ rest
      else if (32 <=? code c) && (code c <=? 126) then String c rest
      else "\u" +++ hex4 c +++ rest
  end.

Definition json_string (s : string) : string :=
  String DQ (json_escape s +++ String DQ EmptyString).

Definition json_key (k : key) : string :=
  match k with
  | KNone => json_string "null"
  | KStr s => json_string s
  end.

Definition newline_indent (level : nat) : string :=
  String LF (repeat_string level "    ").

Fixpoint json_encode (level : nat) (v : value) : string :=
  match v with
  | VNone => "null"
  | VBool true => "true"
  | VBool false => "false"
  | VInt z => str_of_Z z
  | VStr s => json_string s
  | VList [] => "[]"
  | VList l =>
      "[" +++ newline_indent (S level)
      +++ join ("," +++ newline_indent (S level)) (map (json_encode (S level)) l)
      +++ newline_indent level +++ "]"
  | VDict [] => "{}"
  | VDict dc =>
      "{" +++ newline_indent (S level)
      +++ join ("," +++ newline_indent (S level))
            (map (fun kv => json_key (fst kv) +++ ": " +++ json_encode (S level) (snd kv)) dc)
      +++ newline_indent level +++ "}"
  end.

Definition json_dump (data : value) : string := json_encode 0 data.

(** *** [json.load(file)]

    The scanner of [json.decoder] and [json.scanner].  Number literals
    with a fraction or an exponent, [NaN] and [Infinity] would become
    floats, and an escape can name a code point above 255: these leave
    the embedded fragment and are reported as [NotModelled]. *)

Definition is_ws (c : ascii) : bool :=
  Ascii.eqb c " "%char || Ascii.eqb c (chr 9) || Ascii.eqb c LF || Ascii.eqb c CR.

Fixpoint skip_ws (s : string) : string :=
  match s with
  | String c t => if is_ws c then skip_ws t else s
  | EmptyString => EmptyString
  end.

Definition hex_val (c : ascii) : option Z :=
  let n := code c in
  if (48 <=? n) && (n <=? 57) then Some (n - 48)
  else if (97 <=? n) && (n <=? 102) then Some (n - 87)
  else if (65 <=? n) && (n <=? 70) then Some (n - 55)
  else None.

(** The four hexadecimal digits after [\u]. *)
Definition decode_uXXXX (s : string) : outcome (Z * string) :=
  match s with
  | String a (String b (String c (String e t))) =>
      match hex_val a, hex_val b, hex_val c, hex_val e with
      | Some x, Some y, Some z, Some w => Ok (((x * 16 + y) * 16 + z) * 16 + w, t)
      | _, _, _, _ => Raise JSONDecodeError
      end
  | _ => Raise JSONDecodeError
  end.

Definition backslash (c : ascii) : option ascii :=
  if Ascii.eqb c DQ then Some DQ
  else if Ascii.eqb c "\"%char then Some "\"%char
  else if Ascii.eqb c "/"%char then Some "/"%char
  else if Ascii.eqb c "b"%char then Some (chr 8)
  else if Ascii.eqb c "f"%char then Some (chr 12)
  else if Ascii.eqb c "n"%char then Some LF
  else if Ascii.eqb c "r"%char then Some CR
  else if Ascii.eqb c "t"%char then Some (chr 9)
  else None.

(** [scanstring], strict, from just after the opening quote; the text
    read so far is kept last character first. *)
Fixpoint scanstring (fuel : nat) (s : string) (acc : string) : outcome (string * string) :=
  match fuel with
  | O => Raise NotModelled
  | S f =>
      match s with
      | EmptyString => Raise JSONDecodeError
      | String c t =>
          if Ascii.eqb c DQ then Ok (string_rev acc, t)
          else if Ascii.eqb c "\"%char then
            match t with
            | EmptyString => Raise JSONDecodeError
            | String e t' =>
                if Ascii.eqb e "u"%char then
                  r <- decode_uXXXX t' ;;
                  if fst r <? 256
                  then scanstring f (snd r) (String (chr (Z.to_nat (fst r))) acc)
                  else Raise NotModelled
                else
                  match backslash e with
                  | Some x => scanstring f t' (String x acc)
                  | None => Raise JSONDecodeError
                  end
            end
          else if code c <? 32 then Raise JSONDecodeError
          else scanstring f t (String c acc)
      end
  end.

Fixpoint span_digits (s : string) : string * string :=
  match s with
  | String c t =>
      if is_digit c then let r := span_digits t in (String c (fst r), snd r)
      else (EmptyString, s)
  | EmptyString => (EmptyString, EmptyString)
  end.

Definition starts_digit (s : string) : bool :=
  match s with
  | String c _ => is_digit c
  | EmptyString => false
  end.

Fixpoint starts_with (p s : string) : bool :=
  match p, s with
  | EmptyString, _ => true
  | String a p', String b s' => Ascii.eqb a b && starts_with p' s'
  | _, _ => false
  end.

Fixpoint drop (n : nat) (s : string) : string :=
  match n, s with
  | S k, String _ t => drop k t
  | _, _ => s
  end.

(** The integer part of [NUMBER_RE], an optional minus sign and then
    either [0] or a digit from 1 to 9 with any digits after it: the text
    matched and the text after it. *)
Definition match_integer (s : string) : option (string * string) :=
  let minus := starts_with "-" s in
  let body := if minus then drop 1 s else s in
  let sign := if minus then "-" else EmptyString in
  match body with
  | String c t =>
      if Ascii.eqb c "0"%char then Some (sign +++ "0", t)
      else if is_digit c then
        let r := span_digits t in Some (sign +++ String c (fst r), snd r)
      else None
  | EmptyString => None
  end.

(** Whether the fraction or the exponent of [NUMBER_RE] matches here. *)
Definition float_tail (s : string) : bool :=
  match s with
  | String c t =>
      if Ascii.eqb c "."%char then starts_digit t
      else if Ascii.eqb c "e"%char || Ascii.eqb c "E"%char then
        match t with
        | String g t' =>
            if Ascii.eqb g "-"%char || Ascii.eqb g "+"%char then starts_digit t'
            else is_digit g
        | EmptyString => false
        end
      else false
  | EmptyString => false
  end.

Definition scan_number (s : string) : outcome (value * string) :=
  match match_integer s with
  | Some (text, rest) =>
      if float_tail rest then Raise NotModelled
      else z <- py_int text ;; Ok (VInt z, rest)
  | None =>
      if starts_with "NaN" s || starts_with "Infinity" s || starts_with "-Infinity" s
      then Raise NotModelled
      else Raise JSONDecodeError
  end.

(** [scan_once], [JSONArray] and [JSONObject].  The fuel bounds the
    number of nested calls; [json_loads] gives more than any text needs,
    so that [NotModelled] stands for what leaves the embedded fragment
    only. *)
Fixpoint scan_once (fuel : nat) (s : string) : outcome (value * string) :=
  match fuel with
  | O => Raise NotModelled
  | S f =>
      match s with
      | EmptyString => Raise JSONDecodeError
      | String c t =>
          if Ascii.eqb c DQ then
            r <- scanstring (S (String.length t)) t EmptyString ;;
            Ok (VStr (fst r), snd r)
          else if Ascii.eqb c "{"%char then
            let t1 := skip_ws t in
            if starts_with "}" t1 then Ok (VDict [], drop 1 t1)
            else r <- json_object f t1 [] ;; Ok (VDict (dict_of_pairs (fst r)), snd r)
          else if Ascii.eqb c "["%char then
            let t1 := skip_ws t in
            if starts_with "]" t1 then Ok (VList [], drop 1 t1)
            else r <- json_array f t1 [] ;; Ok (VList (fst r), snd r)
          else if starts_with "null" s then Ok (VNone, drop 4 s)
          else if starts_with "true" s then Ok (VBool true, drop 4 s)
          else if starts_with "false" s then Ok (VBool false, drop 5 s)
          else scan_number s
      end
  end

(** The loop of [JSONArray], at the start of an item. *)
with json_array (fuel : nat) (s : string) (acc : list value)
  : outcome (list value * string) :=
  match fuel with
  | O => Raise NotModelled
  | S f =>
      r <- scan_once f s ;;
      let acc' := acc ++ [fst r] in
      match skip_ws (snd r) with
      | String c t =>
          if Ascii.eqb c "]"%char then Ok (acc', t)
          else if Ascii.eqb c ","%char then json_array f (skip_ws t) acc'
          else Raise JSONDecodeError
      | EmptyString => Raise JSONDecodeError
      end
  end

(** The loop of [JSONObject], at the quote that opens a key. *)
with json_object (fuel : nat) (s : string) (acc : list (key * value))
  : outcome (list (key * value) * string) :=
  match fuel with
  | O => Raise NotModelled
  | S f =>
      if starts_with (String DQ EmptyString) s then
        k <- scanstring (String.length s) (drop 1 s) EmptyString ;;
        let s1 := skip_ws (snd k) in
        if starts_with ":" s1 then
          r <- scan_once f (skip_ws (drop 1 s1)) ;;
          let acc' := acc ++ [(KStr (fst k), fst r)] in
          match skip_ws (snd r) with
          | String c t2 =>
              if Ascii.eqb c "}"%char then Ok (acc', t2)
              else if Ascii.eqb c ","%char then json_object f (skip_ws t2) acc'
              else Raise JSONDecodeError
          | EmptyString => Raise JSONDecodeError
          end
        else Raise JSONDecodeError
      else Raise JSONDecodeError
  end.

(** [json.loads(text)].  A nested value takes two calls and at least one
    character, an item of a list or of an object one call and at least
    one character, so twice the length of the text, and one, is more
    fuel than the scanner uses ([scan_once_fuel]). *)
Definition json_loads (text : string) : outcome value :=
  r <- scan_once (S (2 * String.length text)) (skip_ws text) ;;
  match skip_ws (snd r) with
  | EmptyString => Ok (fst r)
  | _ => Raise JSONDecodeError
  end.

(** Reading a file opened in text mode without [newline]: CR LF and CR
    arrive as LF. *)
Fixpoint universal_newlines (s : string) : string :=
  match s with
  | EmptyString => EmptyString
  | String c t =>
      if Ascii.eqb c CR then
        match t with
        | String c' t' =>
            if Ascii.eqb c' LF then String LF (universal_newlines t')
            else String LF (universal_newlines t)
        | EmptyString => String LF EmptyString
        end
      else String c (universal_newlines t)
  end.

Definition json_load (file_text : string) : outcome value :=
  json_loads (universal_newlines file_text).

(** ** class Patient *)

Module Patient.

Record t : Type := mk {
  id : Z;
  first_name : string;
  last_name : string;
  date_of_birth : string;
  age : Z;
  hometown : string;
  house_number : string;
  phone_number : string
}.

(** [(a, b) < (c, e)] on pairs of integers. *)
Definition pair_lt (a b c e : Z) : bool :=
  (a <? c) || ((a =? c) && (b <? e)).

(** [calculate_age]; [today] is what [datetime.today()] returns. *)
Definition calculate_age (today : date) (date_of_birth : string) : outcome Z :=
  dob <- strptime date_of_birth ;;
  Ok (year today - year dob
      - (if pair_lt (month today) (day today) (month dob) (day dob) then 1 else 0)).

(** [Patient(patient_id, first_name, ..., phone_number)] *)
Definition init (today : date) (patient_id : Z)
    (first_name last_name date_of_birth hometown house_number phone_number : string)
  : outcome t :=
  a <- calculate_age today date_of_birth ;;
  Ok (mk patient_id first_name last_name date_of_birth a hometown house_number
         phone_number).

Definition to_dict (p : t) : value :=
  VDict
    [ (KStr "id", VInt (id p));
      (KStr "first_name", VStr (first_name p));
      (KStr "last_name", VStr (last_name p));
      (KStr "date_of_birth", VStr (date_of_birth p));
      (KStr "age", VInt (age p));
      (KStr "hometown", VStr (hometown p));
      (KStr "house_number", VStr (house_number p));
      (KStr "phone_number", VStr (phone_number p)) ].


(** [validate_date_of_birth(date_str)].  The conversion of the three
    parts sits before the [try] and its [ValueError] would reach the
    caller; the [try] turns only the one of [datetime] into [False]. *)
Definition validate_date_of_birth (date_str : string) : outcome bool :=
  match re_match dob_pattern date_str with
  | None => Ok false
  | Some _ =>
      parts <- omap py_int (split_on "-" date_str) ;;
      match parts with
      | [dd; m; y] =>
          match datetime y m dd with
          | Ok _ => Ok true
          | Raise ValueError => Ok false
          | Raise e => Raise e
          end
      | _ => Raise ValueError
      end
  end.

(** [validate_phone_number(phone_str)] *)
Definition validate_phone_number (phone_str : string) : bool :=
  is_some (re_match phone_pattern phone_str).

End Patient.

(** ** class FileManager

    The two files the program names; [None] is a file that does not
    exist. *)

Record files : Type := mkfiles {
  patients_csv : option string;
  patients_json : option string
}.

Module FileManager.

(** [read_file(storage_type)].  The csv branch catches
    [FileNotFoundError] alone, the json branch also [JSONDecodeError];
    another storage type falls through both tests and yields [None]. *)
Definition read_file (storage_type : string) (fs : files) : outcome value :=
  if String.eqb storage_type "csv" then
    match patients_csv fs with
    | None => Ok (VList [])
    | Some text => rows <- dict_reader text ;; Ok (VList rows)
    end
  else if String.eqb storage_type "json" then
    match patients_json fs with
    | None => Ok (VList [])
    | Some text =>
        match json_load text with
        | Ok v => Ok v
        | Raise JSONDecodeError => Ok (VList [])
        | Raise e => Raise e
        end
    end
  else Ok VNone.

(** [write_file(storage_type, data)]: the file is opened for writing,
    which empties it, and holds what was written when an exception
    stops the writer. *)
Definition write_file (storage_type : string) (data : value) (fs : files)
  : outcome unit * files :=
  if String.eqb storage_type "csv" then
    let w := csv_dump data in
    (match snd w with None => Ok tt | Some e => Raise e end,
     mkfiles (Some (fst w)) (patients_json fs))
  else if String.eqb storage_type "json" then
    (Ok tt, mkfiles (patients_csv fs) (Some (json_dump data)))
  else (Ok tt, fs).

Definition update_file (storage_type : string) (data : value) (fs : files)
  : outcome unit * files :=
  write_file storage_type data fs.

(** [[patient for patient in data if str(patient["id"]) != str(patient_id)]] *)
Fixpoint without_id (data : list value) (patient_id : value) : outcome (list value) :=
  match data with
  | [] => Ok []
  | patient :: rest =>
      i <- subscript patient "id" ;;
      kept <- without_id rest patient_id ;;
      Ok (if negb (String.eqb (py_str i) (py_str patient_id))
          then patient :: kept else kept)
  end.

(** [delete_from_file(storage_type, patient_id)] *)
Definition delete_from_file (storage_type : string) (patient_id : value) (fs : files)
  : outcome unit * files :=
  match read_file storage_type fs with
  | Raise e => (Raise e, fs)
  | Ok data =>
      match (items <- py_iter data ;; without_id items patient_id) with
      | Raise e => (Raise e, fs)
      | Ok new_data => write_file storage_type (VList new_data) fs
      end
  end.

End FileManager.

(** ** class PatientManagementSystem *)

Module PMS.

Record system : Type := mksystem {
  storage_type : string;
  patients : value
}.

(** The object together with the files. *)
Record world : Type := mkworld {
  self : system;
  disk : files
}.

(** [PatientManagementSystem(storage_type)] *)
Definition init (storage_type : string) (fs : files) : outcome system :=
  data <- FileManager.read_file storage_type fs ;;
  Ok (mksystem storage_type data).

(** [add_patient(first_name, ..., phone_number)] *)
Definition add_patient (today : date)
    (first_name last_name date_of_birth hometown house_number phone_number : string)
    (w : world) : outcome unit * world :=
  match py_len (patients (self w)) with
  | Raise e => (Raise e, w)
  | Ok n =>
      let patient_id := n + 1 in
      match Patient.init today patient_id first_name last_name date_of_birth
              hometown house_number phone_number with
      | Raise e => (Raise e, w)
      | Ok new_patient =>
          match patients (self w) with
          | VList l =>
              let l' := VList (l ++ [Patient.to_dict new_patient]) in
              let r := FileManager.write_file (storage_type (self w)) l' (disk w) in
              (fst r, mkworld (mksystem (storage_type (self w)) l') (snd r))
          | _ => (Raise AttributeError, w)
          end
      end
  end.

Definition get_all_patients (w : world) : value := patients (self w).

(** The loop of [search_patient_by_id]. *)
Fixpoint find_by_id (items : list value) (patient_id : value) : outcome (option value) :=
  match items with
  | [] => Ok None
  | patient :: rest =>
      i <- subscript patient "id" ;;
      if String.eqb (py_str i) (py_str patient_id) then Ok (Some patient)
      else find_by_id rest patient_id
  end.

(** [search_patient_by_id(patient_id)] *)
Definition search_patient_by_id (patient_id : value) (w : world) : outcome (option value) :=
  items <- py_iter (patients (self w)) ;;
  find_by_id items patient_id.

(** [patient.update(updated_info)] on the object the loop holds. *)
Definition updated (patient : value) (updated_info : dict) : value :=
  match patient with
  | VDict dc => VDict (dict_update dc updated_info)
  | _ => patient
  end.

(** The loop of [update_patient_by_id]: the list with its first match
    updated in place, or [None] when the loop runs to its end. *)
Fixpoint update_first (items : list value) (patient_id : value) (updated_info : dict)
  : outcome (option (list value)) :=
  match items with
  | [] => Ok None
  | patient :: rest =>
      i <- subscript patient "id" ;;
      if String.eqb (py_str i) (py_str patient_id)
      then Ok (Some (updated patient updated_info :: rest))
      else r <- update_first rest patient_id updated_info ;;
           Ok (option_map (cons patient) r)
  end.

(** [update_patient_by_id(patient_id, updated_info)] *)
Definition update_patient_by_id (patient_id : value) (updated_info : dict) (w : world)
  : outcome bool * world :=
  match (items <- py_iter (patients (self w)) ;;
         update_first items patient_id updated_info) with
  | Raise e => (Raise e, w)
  | Ok None => (Ok false, w)
  | Ok (Some l') =>
      (* a match was subscripted with a name, so the items are those of a list *)
      let r := FileManager.write_file (storage_type (self w)) (VList l') (disk w) in
      (match fst r with Ok _ => Ok true | Raise e => Raise e end,
       mkworld (mksystem (storage_type (self w)) (VList l')) (snd r))
  end.

(** [delete_patient_by_id(patient_id)] *)
Definition delete_patient_by_id (patient_id : value) (w : world) : outcome unit * world :=
  let r := FileManager.delete_from_file (storage_type (self w)) patient_id (disk w) in
  match fst r with
  | Raise e => (Raise e, mkworld (self w) (snd r))
  | Ok _ =>
      match FileManager.read_file (storage_type (self w)) (snd r) with
      | Raise e => (Raise e, mkworld (self w) (snd r))
      | Ok data => (Ok tt, mkworld (mksystem (storage_type (self w)) data) (snd r))
      end
  end.

End PMS.

(** ** The validators, as the specification words them

    [shape ps s] reads one character of [s] for each class of [ps] and
    returns what is left; a text has the shape exactly when nothing is
    left. *)

Fixpoint shape (ps : list (ascii -> bool)) (s : string) : option string :=
  match ps with
  | [] => Some s
  | p :: ps' =>
      match s with
      | String a t => if p a then shape ps' t else None
      | EmptyString => None
      end
  end.

Definition exactly (ps : list (ascii -> bool)) (s : string) : bool :=
  match shape ps s with
  | Some EmptyString => true
  | _ => false
  end.

Definition dash (c : ascii) : bool := Ascii.eqb c "-"%char.

(** Three digits, a dash, three digits, a dash, four digits. *)
Definition phone_shape : list (ascii -> bool) :=
  [is_digit; is_digit; is_digit; dash; is_digit; is_digit; is_digit; dash;
   is_digit; is_digit; is_digit; is_digit].

Definition phone_text (s : string) : bool := exactly phone_shape s.

(** The number a run of decimal digits writes. *)
Fixpoint dec_val (acc : Z) (s : string) : Z :=
  match s with
  | EmptyString => acc
  | String c t => dec_val (10 * acc + digit_val c) t
  end.

(** A day that exists, from year 1 on. *)
Definition real_date (y m dd : Z) : bool :=
  (1 <=? y) && (y <=? 9999) && (1 <=? m) && (m <=? 12)
  && (1 <=? dd) && (dd <=? days_in_month y m).

(** DD-MM-YYYY: two digits, a dash, two digits, a dash, four digits,
    the day from 01 to 31, the month from 01 to 12, and the three
    together a real date. *)
Definition dob_shape : list (ascii -> bool) :=
  [is_digit; is_digit; dash; is_digit; is_digit; dash;
   is_digit; is_digit; is_digit; is_digit].

Definition dob_text (s : string) : bool :=
  exactly dob_shape s
  && (let dd := dec_val 0 (substring 0 2 s) in
      let m := dec_val 0 (substring 3 2 s) in
      let y := dec_val 0 (substring 6 4 s) in
      (1 <=? dd) && (dd <=? 31) && (1 <=? m) && (m <=? 12) && real_date y m dd).

(** The text without the newline that ends it, if one does. *)
Fixpoint chomp (s : string) : option string :=
  match s with
  | EmptyString => None
  | String c EmptyString => if Ascii.eqb c LF then Some EmptyString else None
  | String c t => option_map (String c) (chomp t)
  end.

Definition rests (r : regex) (s : string) : list string := map snd (rx r s).

(** A pattern that reads like a scanner: at most one way to match. *)
Definition scans (r : regex) (f : string -> option string) : Prop :=
  forall s, rests r s = match f s with Some t => [t] | None => [] end.

Definition then_scan (f g : string -> option string) (s : string) : option string :=
  match f s with Some t => g t | None => None end.

Definition or_scan (f g : string -> option string) (s : string) : option string :=
  match f s with Some t => Some t | None => g s end.

Definition eos (s : string) : option string :=
  match s with
  | EmptyString => Some s
  | String c EmptyString => if Ascii.eqb c LF then Some s else None
  | _ => None
  end.

Definition day_rx (a b : ascii) : bool :=
  (Ascii.eqb a "0" && in_range "1" "9" b)
  || ((Ascii.eqb a "1" || Ascii.eqb a "2") && in_range "0" "9" b)
  || (Ascii.eqb a "3" && (Ascii.eqb b "0" || Ascii.eqb b "1")).

Definition month_rx (a b : ascii) : bool :=
  (Ascii.eqb a "0" && in_range "1" "9" b)
  || (Ascii.eqb a "1" && in_range "0" "2" b).

Definition two (p : ascii -> ascii -> bool) (s : string) : option string :=
  match s with
  | String a (String b t) => if p a b then Some t else None
  | _ => None
  end.

Definition day_re : regex :=
  Grp (Alt (Cat (lit "0") (rng "1" "9"))
      (Alt (Cat (one_of "1" "2") (rng "0" "9"))
           (Cat (lit "3") (one_of "0" "1")))).

Definition month_re : regex :=
  Grp (Alt (Cat (lit "0") (rng "1" "9"))
           (Cat (lit "1") (rng "0" "2"))).

Definition year_eos : string -> option string :=
  then_scan (shape [is_digit; is_digit; is_digit; is_digit]) eos.

Definition dob_scan : string -> option string :=
  then_scan (two day_rx) (then_scan (shape [dash])
    (then_scan (two month_rx) (then_scan (shape [dash]) year_eos))).

Definition num2 (a b : ascii) : Z := 10 * digit_val a + digit_val b.

Definition num4 (a b c e : ascii) : Z :=
  10 * (10 * (10 * digit_val a + digit_val b) + digit_val c) + digit_val e.

Definition ten (a b h1 c e h2 y1 y2 y3 y4 : ascii) (u : string) : string :=
  String a (String b (String h1 (String c (String e (String h2
    (String y1 (String y2 (String y3 (String y4 u))))))))).

(** ** Sequences of operations

    The two storage types the command line lets through, a fresh
    manager on a disk without files, and requests run one after the
    other; a request that raises leaves the world as the exception left
    it. *)

Inductive backend : Type :=
| CSV
| JSON.

Definition backend_name (b : backend) : string :=
  match b with
  | CSV => "csv"
  | JSON => "json"
  end.

Definition no_files : files := mkfiles None None.

Definition fresh (b : backend) : PMS.world :=
  PMS.mkworld (PMS.mksystem (backend_name b) (VList [])) no_files.

(** The text the backend's file holds. *)
Definition stored (b : backend) (fs : files) : option string :=
  match b with
  | CSV => patients_csv fs
  | JSON => patients_json fs
  end.

Record form : Type := mkform {
  f_first_name : string;
  f_last_name : string;
  f_date_of_birth : string;
  f_hometown : string;
  f_house_number : string;
  f_phone_number : string
}.

Definition add (today : date) (f : form) (w : PMS.world) : outcome unit * PMS.world :=
  PMS.add_patient today (f_first_name f) (f_last_name f) (f_date_of_birth f)
    (f_hometown f) (f_house_number f) (f_phone_number f) w.

Inductive request : Type :=
| Add (f : form)
| Delete (patient_id : value).

Definition serve (today : date) (w : PMS.world) (r : request) : PMS.world :=
  match r with
  | Add f => snd (add today f w)
  | Delete i => snd (PMS.delete_patient_by_id i w)
  end.

Definition run (today : date) (rs : list request) (w : PMS.world) : PMS.world :=
  fold_left (serve today) rs w.

(** The identifiers of the records of a list, as the searches read
    them: as text. *)
Definition id_text (patient : value) : string :=
  match subscript patient "id" with
  | Ok i => py_str i
  | Raise _ => EmptyString
  end.

Definition id_texts (v : value) : list string :=
  match v with
  | VList l => map id_text l
  | _ => []
  end.

(** The record [add_patient] builds from the fields, with the
    identifier and the age it computed. *)
Definition record_of (i a : Z) (f : form) : value :=
  Patient.to_dict
    (Patient.mk i (f_first_name f) (f_last_name f) (f_date_of_birth f) a
       (f_hometown f) (f_house_number f) (f_phone_number f)).

(** A text of [n] times the character [c]. *)
Definition run_of (n : N) (c : ascii) : string := N.iter n (String c) EmptyString.

(** The text [write_file] leaves in the backend's file. *)
Definition dumped (b : backend) (data : value) : string :=
  match b with
  | CSV => fst (csv_dump data)
  | JSON => json_dump data
  end.

(** The disk after the backend's file was rewritten with [text]. *)
Definition store (b : backend) (text : string) (fs : files) : files :=
  match b with
  | CSV => mkfiles (Some text) (patients_json fs)
  | JSON => mkfiles (patients_csv fs) (Some text)
  end.

(** Rows [csv.DictWriter] accepts: dictionaries with no key outside
    the eight columns. *)
Definition row_ok (row : value) : bool :=
  match dict_to_list row with
  | Ok _ => true
  | Raise _ => false
  end.

Definition writable (b : backend) (l : list value) : bool :=
  match b with
  | CSV => forallb row_ok l
  | JSON => true
  end.

Definition patients_of (w : PMS.world) : value := PMS.patients (PMS.self w).

Definition numbers (n : nat) : list Z := map Z.of_nat (seq 1 n).

(** The age [calculate_age] computes from a parsed date of birth. *)
Definition age_on (today dob : date) : Z :=
  year today - year dob
  - (if Patient.pair_lt (month today) (day today) (month dob) (day dob) then 1 else 0).

Definition with_patients (w : PMS.world) (l : list value) (fs : files) : PMS.world :=
  PMS.mkworld (PMS.mksystem (PMS.storage_type (PMS.self w)) (VList l)) fs.

(** A day and three forms, for the examples. *)
Definition new_year_2024 : date := mkdate 2024 1 1.

Definition form_a : form :=
  mkform "Ama" "Mensah" "15-06-1990" "Accra" "12" "024-000-0000".
Definition form_b : form :=
  mkform "Kofi" "Boateng" "01-01-2000" "Kumasi" "7" "024-111-1111".
Definition form_c : form :=
  mkform "Esi" "Owusu" "29-02-2020" "Tamale" "3" "024-222-2222".

(** A form neither validator accepts, whose date [strptime] reads. *)
Definition form_loose : form :=
  mkform "Yaw" "Addo" "1-1-2020" "Ho" "5" "no phone".

(** A form with the date the specification gives as not existing. *)
Definition form_bad_date : form :=
  mkform "Yaw" "Addo" "31-02-2020" "Ho" "5" "024-333-3333".

(** Two records in a csv-backed manager, and an update of one field. *)
Definition world_ab : PMS.world :=
  snd (add new_year_2024 form_b (snd (add new_year_2024 form_a (fresh CSV)))).

Definition list_ab : list value := [record_of 1 33 form_a; record_of 2 24 form_b].

Definition info_town : dict := [(KStr "hometown", VStr "Cape Coast")].

Definition plain (c : ascii) : bool := negb (special c).

Definition is_record (r : value) : Prop := exists i a f, r = record_of i a f.

(** What additions keep true of the world. *)
Definition numbered (b : backend) (w : PMS.world) (l : list value) : Prop :=
  PMS.storage_type (PMS.self w) = backend_name b
  /\ patients_of w = VList l
  /\ Forall is_record l
  /\ map id_text l = map str_of_Z (numbers (List.length l)).

Definition R (r : reader) (s : string) : outcome (list (list string)) :=
  reader_rows r (split_lines s).

Definition after (r : reader) (t : string) : outcome (list (list string)) :=
  if pstate_eqb (state r) START_RECORD
  then rows <- R parse_reset t ;; Ok (fields r :: rows)
  else R r t.

(** The reader after the characters of [s] joined the open cell. *)
Definition push (r : reader) (s : string) : reader :=
  mkreader (state r) (fields r) (string_rev_onto s (field r)) (field_len r + strlen s).

(** A reader between cells. *)
Definition at_cell (r : reader) : Prop :=
  state r = START_FIELD /\ field r = EmptyString /\ field_len r = 0.

(** The states in which a cell can end. *)
Definition cell_end (st : pstate) : Prop :=
  st = START_FIELD \/ st = IN_FIELD \/ st = QUOTE_IN_QUOTED_FIELD.

Definition row_fits (cells : list string) : Prop :=
  (2 <= List.length cells)%nat /\ Forall (fun s => strlen s <= field_limit) cells.

Fixpoint rows_text (rows : list (list string)) : string :=
  match rows with
  | [] => EmptyString
  | cells :: rest => csv_row cells +++ rows_text rest
  end.

(** The cells [DictWriter] writes for a dictionary, in column order. *)
Definition cells_of (dc : dict) : list string :=
  map (fun f => match dict_get dc (KStr f) with
                | Some v => cell_text v
                | None => EmptyString
                end) fieldnames.

(** A record as the csv file gives it back: the eight columns in their
    order, every value as the text that was written for it. *)
Definition csv_view (v : value) : value :=
  match v with
  | VDict dc => VDict (combine (map KStr fieldnames) (map VStr (cells_of dc)))
  | _ => v
  end.

(** A record the csv backend can hold: a dictionary with no key outside
    the eight columns, whose cells stay within the reader's field size
    limit. *)
Definition fits (v : value) : bool :=
  match v with
  | VDict dc =>
      forallb known_field (map fst dc)
      && forallb (fun s => strlen s <=? field_limit) (cells_of dc)
  | _ => false
  end.

(** The escape of one character. *)
Definition esc (c : ascii) : string := json_escape (String c EmptyString).

Fixpoint all_digits (s : string) : bool :=
  match s with
  | EmptyString => true
  | String c t => is_digit c && all_digits t
  end.

Fixpoint no_space (s : string) : bool :=
  match s with
  | EmptyString => true
  | String c t => negb (is_space c) && no_space t
  end.

Definition scalar (v : value) : bool :=
  match v with
  | VNone | VBool _ | VInt _ | VStr _ => true
  | _ => false
  end.

(** What follows a value in the encoder's text: a comma or a newline. *)
Definition value_ends (rest : string) : bool :=
  match rest with
  | String c _ => Ascii.eqb c "," || Ascii.eqb c LF
  | EmptyString => false
  end.

Definition starts_plain (s : string) : bool :=
  match s with
  | String c _ => negb (is_ws c)
  | EmptyString => false
  end.

(** An entry the decoder gives back as it was: a text key and a scalar. *)
Definition entry_ok (kv : key * value) : bool :=
  match fst kv with
  | KStr _ => scalar (snd kv)
  | KNone => false
  end.

Definition entry_text (level : nat) (kv : key * value) : string :=
  json_key (fst kv) +++ ": " +++ json_encode level (snd kv).

Definition entries_text (level : nat) (dc : dict) : string :=
  join ("," +++ newline_indent level) (map (entry_text level) dc).

(** A record the json file gives back as it was: a dictionary with
    distinct text keys and scalar values. *)
Definition flat (v : value) : Prop :=
  exists dc, v = VDict dc /\ forallb entry_ok dc = true /\ NoDup (map fst dc).

Definition width (v : value) : nat :=
  match v with
  | VDict dc => List.length dc
  | _ => O
  end.

Definition items_text (level : nat) (l : list value) : string :=
  join ("," +++ newline_indent level) (map (json_encode level) l).

Definition total (l : list value) : nat := list_sum (map width l).

Definition cr_free (s : string) : Prop := contains_char CR s = false.

(** A form with a given first name. *)
Definition form_named (name : string) : form :=
  mkform name "Mensah" "15-06-1990" "Accra" "12" "024-000-0000".

(** A form whose first name is longer than any cell the csv reader
    accepts. *)
Definition form_long : form := form_named (run_of 131073 "a").

(** A record of eight fields: the eight columns in their order, each
    with a value that is [None], a boolean, an integer or a text. *)
Definition eight_fields (v : value) : Prop :=
  exists dc, v = VDict dc
             /\ map fst dc = map KStr fieldnames
             /\ forallb scalar (map snd dc) = true.

(** A record with every value as the text the csv writer gives it. *)
Definition as_text (v : value) : value :=
  match v with
  | VDict dc => VDict (map (fun kv => (fst kv, VStr (cell_text (snd kv)))) dc)
  | _ => v
  end.

(** Every value of the record, as text, stays within the csv reader's
    field size limit. *)
Definition within_limit (v : value) : bool :=
  match v with
  | VDict dc => forallb (fun kv => strlen (cell_text (snd kv)) <=? field_limit) dc
  | _ => true
  end.

(** What [read_file] gives back for a list that was written. *)
Definition read_back (b : backend) (l : list value) : list value :=
  match b with
  | CSV => map as_text l
  | JSON => l
  end.

(** A record as the backend's file holds it: with the csv backend, the
    eight columns with text values within the field size limit, as the
    reader returns them; with the json backend, a dictionary with
    distinct text keys, scalar values and an [id]. *)
Definition stored_record (b : backend) (v : value) : Prop :=
  match b with
  | CSV => fits v = true /\ csv_view v = v
  | JSON => flat v /\ exists i, subscript v "id" = Ok i
  end.

(** [str(patient["id"]) != str(patient_id)] *)
Definition keeps (patient_id patient : value) : bool :=
  negb (String.eqb (id_text patient) (py_str patient_id)).

(** The same two records in a json store. *)
Definition world_ab_json : PMS.world :=
  snd (add new_year_2024 form_b (snd (add new_year_2024 form_a (fresh JSON)))).

(** A record with an [id] entry. *)
Definition has_id (v : value) : Prop := exists i, subscript v "id" = Ok i.

(** The day [a] comes before the day [b]. *)
Definition before (a b : date) : Prop :=
  year a < year b
  \/ (year a = year b
      /\ (month a < month b \/ (month a = month b /\ day a < day b))).

(** A text followed by one newline. *)
Definition with_newline (t : string) : string := t +++ String LF EmptyString.

(** The alternatives [strptime] tries for the day and for the month. *)
Definition strptime_day : regex :=
  Alt (Cat (lit "3") (rng "0" "1"))
 (Alt (Cat (rng "1" "2") d)
 (Alt (Cat (lit "0") (rng "1" "9"))
 (Alt (rng "1" "9")
      (Cat (lit " ") (rng "1" "9"))))).

Definition strptime_month : regex :=
  Alt (Cat (lit "1") (rng "0" "2"))
 (Alt (Cat (lit "0") (rng "1" "9"))
      (rng "1" "9")).

(** The file the backend does not use. *)
Definition other_file (b : backend) (fs : files) : option string :=
  match b with
  | CSV => patients_json fs
  | JSON => patients_csv fs
  end.

(** ** The command-line interface

    The script under [if __name__ == "__main__"].  The lines typed are
    a list of texts (what [input] returns, without the newline), the
    output is the list of the texts written, prompts included; [today]
    is what [datetime.today()] returns during the session. *)

(** [str.lower] on the code points below 256. *)
Definition lower_char (c : ascii) : ascii :=
  let n := nat_of_ascii c in
  if ((65 <=? n)%nat && (n <=? 90)%nat)
     || ((192 <=? n)%nat && (n <=? 214)%nat)
     || ((216 <=? n)%nat && (n <=? 222)%nat)
  then ascii_of_nat (n + 32) else c.

Fixpoint lower (s : string) : string :=
  match s with
  | EmptyString => EmptyString
  | String c t => String (lower_char c) (lower t)
  end.

Record console : Type := mkconsole {
  pending : list string;   (* the lines not read yet *)
  shown : list string      (* what was written, oldest first *)
}.

(** [print(text)] *)
Definition py_print (text : string) (c : console) : console :=
  mkconsole (pending c) (shown c ++ [text +++ String LF EmptyString]).

(** [input(prompt)]: the prompt is written, a line is read; [None]
    stands for the [EOFError] raised when no line is left. *)
Definition py_input (prompt : string) (c : console) : option string * console :=
  match pending c with
  | [] => (None, mkconsole [] (shown c ++ [prompt]))
  | line :: rest => (Some line, mkconsole rest (shown c ++ [prompt]))
  end.

(** How the script ends: after [break] or the message on the storage
    type, by an [EOFError] of [input], or by an exception of the
    manager; [Running] is the loop that has not ended. *)
Inductive ending : Type :=
| Finished
| EndOfInput
| Uncaught (e : exn)
| Running.

(** The six questions of choice 1, in their order. *)
Definition input_form (c : console) : option form * console :=
  match py_input "First Name: " c with
  | (None, c1) => (None, c1)
  | (Some first_name, c1) =>
  match py_input "Last Name: " c1 with
  | (None, c2) => (None, c2)
  | (Some last_name, c2) =>
  match py_input "Date of Birth (dd-mm-yyyy): " c2 with
  | (None, c3) => (None, c3)
  | (Some date_of_birth, c3) =>
  match py_input "Hometown: " c3 with
  | (None, c4) => (None, c4)
  | (Some hometown, c4) =>
  match py_input "House Number: " c4 with
  | (None, c5) => (None, c5)
  | (Some house_number, c5) =>
  match py_input "Phone Number (024-000-0000): " c5 with
  | (None, c6) => (None, c6)
  | (Some phone_number, c6) =>
      (Some (mkform first_name last_name date_of_birth hometown house_number phone_number),
       c6)
  end end end end end end.

Definition print_menu (c : console) : console :=
  py_print "6. Exit"
    (py_print "5. Delete Patient by ID"
      (py_print "4. Update Patient by ID"
        (py_print "3. Search Patient by ID"
          (py_print "2. Get All Patients"
            (py_print (String LF "1. Add New Patient") c))))).

(** [print(system.search_patient_by_id(pid))] *)
Definition found_text (r : option value) : string :=
  match r with
  | Some patient => py_str patient
  | None => "None"
  end.

(** The [while True] loop; every turn reads a line, so a number of
    turns above the number of lines left is never reached. *)
Fixpoint menu (turns : nat) (today : date) (w : PMS.world) (c : console)
  : ending * PMS.world * console :=
  match turns with
  | O => (Running, w, c)
  | S k =>
      match py_input "Enter choice: " (print_menu c) with
      | (None, c1) => (EndOfInput, w, c1)
      | (Some choice, c1) =>
          if String.eqb choice "1" then
            match input_form c1 with
            | (None, c2) => (EndOfInput, w, c2)
            | (Some f, c2) =>
                match add today f w with
                | (Ok _, w') => menu k today w' c2
                | (Raise e, w') => (Uncaught e, w', c2)
                end
            end
          else if String.eqb choice "2" then
            menu k today w (py_print (py_str (PMS.get_all_patients w)) c1)
          else if String.eqb choice "3" then
            match py_input "Enter Patient ID: " c1 with
            | (None, c2) => (EndOfInput, w, c2)
            | (Some pid, c2) =>
                match PMS.search_patient_by_id (VStr pid) w with
                | Ok r => menu k today w (py_print (found_text r) c2)
                | Raise e => (Uncaught e, w, c2)
                end
            end
          else if String.eqb choice "4" then
            menu k today w (py_print "Feature not implemented yet." c1)
          else if String.eqb choice "5" then
            match py_input "Enter Patient ID to delete: " c1 with
            | (None, c2) => (EndOfInput, w, c2)
            | (Some pid, c2) =>
                match PMS.delete_patient_by_id (VStr pid) w with
                | (Ok _, w') => menu k today w' c2
                | (Raise e, w') => (Uncaught e, w', c2)
                end
            end
          else if String.eqb choice "6" then (Finished, w, c1)
          else menu k today w (py_print "Invalid choice. Try again." c1)
      end
  end.

(** The script, run on the files [fs] with the lines [lines] typed:
    how it ends, the files it leaves and what it wrote. *)
Definition main (today : date) (fs : files) (lines : list string)
  : ending * files * list string :=
  match py_input "Choose storage type (csv/json): " (mkconsole lines []) with
  | (None, c) => (EndOfInput, fs, shown c)
  | (Some line, c) =>
      let storage_type := lower (strip line) in
      if negb (existsb (String.eqb storage_type) ["csv"; "json"]) then
        (Finished, fs, shown (py_print "Invalid storage type." c))
      else
        match PMS.init storage_type fs with
        | Raise e => (Uncaught e, fs, shown c)
        | Ok system =>
            let r := menu (S (List.length (pending c))) today (PMS.mkworld system fs) c in
            (fst (fst r), PMS.disk (snd (fst r)), shown (snd r))
        end
  end.

(** The console after the menu and the question for the choice. *)
Definition asked (c : console) (rest : list string) : console :=
  mkconsole rest (shown (print_menu c) ++ ["Enter choice: "]).

(** The console after the six questions of choice 1. *)
Definition asked_form (c : console) (rest : list string) : console :=
  mkconsole rest
    (shown c ++ ["First Name: "] ++ ["Last Name: "] ++ ["Date of Birth (dd-mm-yyyy): "]
     ++ ["Hometown: "] ++ ["House Number: "] ++ ["Phone Number (024-000-0000): "]).

(** The lines of a session that adds one patient and leaves. *)
Definition add_session (line : string) (f : form) : list string :=
  [line; "1"; f_first_name f; f_last_name f; f_date_of_birth f; f_hometown f;
   f_house_number f; f_phone_number f; "6"].

(** A row of exactly the eight cells. *)
Definition eight_cells (row : list string) : Prop :=
  List.length row = 8%nat /\ Forall (fun s => strlen s <= field_limit) row.

(** A record as [add_patient] builds it on the day [today]: its date of
    birth is one [strptime] reads, and its age is the one computed from
    it. *)
Definition aged (today : date) (r : value) : Prop :=
  exists i f dt,
    r = record_of i (age_on today dt) f /\ strptime (f_date_of_birth f) = Ok dt.

(** The file holds the list, as the backend writes it; no file for the
    list that was never written. *)
Definition in_step (b : backend) (l : list value) (fs : files) : Prop :=
  stored b fs = match l with
                | [] => None
                | _ => Some (dumped b (VList l))
                end.

(** A form whose date of birth [strptime] reads: the additions that
    succeed. *)
Definition readable (f : form) : bool :=
  match strptime (f_date_of_birth f) with
  | Ok _ => true
  | Raise _ => false
  end.

(** [sys.get_int_max_str_digits()]: [str], [repr], [json.dump] and the
    csv writer raise [ValueError] on an integer of more decimal digits,
    and [int] on a text of more digits. *)
Definition int_max_str_digits : Z := 4300.

(** An integer that [str] writes. *)
Definition writes_int (z : Z) : bool :=
  strlen (str_of_Z (Z.abs z)) <=? int_max_str_digits.

(** A record whose integers [str] writes. *)
Definition ints_within (v : value) : bool :=
  match v with
  | VDict dc =>
      forallb (fun kv => match snd kv with VInt z => writes_int z | _ => true end) dc
  | _ => true
  end.


(** * Properties *)

Local Arguments Z.mul : simpl never.
Local Arguments Z.add : simpl never.
Local Arguments Z.sub : simpl never.

(** *** Characters, by enumeration *)

Lemma ascii_forallb (P : ascii -> bool) :
  forallb (fun n => P (ascii_of_nat n)) (seq 0 256) = true -> forall c, P c = true.
Proof.
  intros H c. rewrite forallb_forall in H.
  specialize (H (nat_of_ascii c)). rewrite ascii_nat_embedding in H.
  apply H, in_seq. pose proof (nat_ascii_bounded c). lia.
Qed.

Ltac by_enum := apply ascii_forallb; vm_compute; reflexivity.

Lemma digit_facts c :
  implb (is_digit c)
    (negb (is_space c) && negb (Ascii.eqb c "-") && negb (Ascii.eqb c "+")
     && negb (Ascii.eqb c "_") && negb (Ascii.eqb c LF)
     && (0 <=? digit_val c) && (digit_val c <=? 9)) = true.
Proof. revert c. by_enum. Qed.

(** *** The matcher *)

Lemma rests_cat r1 r2 s :
  rests (Cat r1 r2) s = flat_map (rests r2) (rests r1 s).
Proof.
  unfold rests; simpl. induction (rx r1 s) as [|m l IH]; simpl; [reflexivity|].
  rewrite map_app, IH, map_map. reflexivity.
Qed.

Lemma rests_alt r1 r2 s : rests (Alt r1 r2) s = rests r1 s ++ rests r2 s.
Proof. unfold rests; simpl. apply map_app. Qed.

Lemma rests_grp r s : rests (Grp r) s = rests r s.
Proof. unfold rests; simpl. rewrite map_map. reflexivity. Qed.

Lemma is_some_match r s : is_some (re_match r s) = negb (is_nil (rests r s)).
Proof. unfold re_match, rests. destruct (rx r s); reflexivity. Qed.

Lemma scans_cls p : scans (Cls p) (shape [p]).
Proof. intros [|a t]; cbn; [reflexivity|]. destruct (p a); reflexivity. Qed.

Lemma scans_lit c : scans (Lit c) (shape [fun a => Ascii.eqb a c]).
Proof. intros [|a t]; cbn; [reflexivity|]. destruct (Ascii.eqb a c); reflexivity. Qed.

Lemma scans_cat r1 r2 f g : scans r1 f -> scans r2 g -> scans (Cat r1 r2) (then_scan f g).
Proof.
  intros H1 H2 s. rewrite rests_cat, H1. unfold then_scan.
  destruct (f s); simpl; [|reflexivity]. rewrite app_nil_r. apply H2.
Qed.

Lemma scans_grp r f : scans r f -> scans (Grp r) f.
Proof. intros H s. rewrite rests_grp. apply H. Qed.

Lemma scans_alt r1 r2 f g :
  scans r1 f -> scans r2 g -> (forall s t, f s = Some t -> g s = None) ->
  scans (Alt r1 r2) (or_scan f g).
Proof.
  intros H1 H2 D s. rewrite rests_alt, H1, H2. unfold or_scan.
  destruct (f s) eqn:E; simpl; [|reflexivity]. rewrite (D _ _ E). reflexivity.
Qed.

Lemma scans_eos : scans Eos eos.
Proof.
  intros [|c [|c' t]]; unfold rests; simpl; try reflexivity.
  destruct (Ascii.eqb c LF); reflexivity.
Qed.

Lemma scans_ext r f g : scans r f -> (forall s, f s = g s) -> scans r g.
Proof. intros H E s. rewrite <- E. apply H. Qed.

Lemma shape_app ps qs s : shape (ps ++ qs) s = then_scan (shape ps) (shape qs) s.
Proof.
  unfold then_scan. revert s; induction ps as [|p ps IH]; intros s; simpl; [reflexivity|].
  destruct s as [|a t]; [reflexivity|]. destruct (p a); [apply IH|reflexivity].
Qed.

Lemma scans_shapes r1 r2 ps qs :
  scans r1 (shape ps) -> scans r2 (shape qs) -> scans (Cat r1 r2) (shape (ps ++ qs)).
Proof.
  intros H1 H2. eapply scans_ext; [apply scans_cat; eassumption|].
  intros s. symmetry. apply shape_app.
Qed.

Lemma scans_digits4 : scans (cat_all (times 4 d)) (shape [is_digit; is_digit; is_digit; is_digit]).
Proof.
  change (cat_all (times 4 d)) with (Cat d (Cat d (Cat d d))).
  apply (scans_shapes _ _ [_] [_; _; _]); [apply scans_cls|].
  apply (scans_shapes _ _ [_] [_; _]); [apply scans_cls|].
  apply (scans_shapes _ _ [_] [_]); apply scans_cls.
Qed.

Lemma scans_digits3 : scans (cat_all (times 3 d)) (shape [is_digit; is_digit; is_digit]).
Proof.
  change (cat_all (times 3 d)) with (Cat d (Cat d d)).
  apply (scans_shapes _ _ [_] [_; _]); [apply scans_cls|].
  apply (scans_shapes _ _ [_] [_]); apply scans_cls.
Qed.

Lemma scans_shape_then r1 r2 ps qs g :
  scans r1 (shape ps) -> scans r2 (then_scan (shape qs) g) ->
  scans (Cat r1 r2) (then_scan (shape (ps ++ qs)) g).
Proof.
  intros H1 H2. eapply scans_ext; [apply scans_cat; eassumption|].
  intros s. unfold then_scan. rewrite shape_app. unfold then_scan.
  destruct (shape ps s); reflexivity.
Qed.

Lemma scans_phone :
  scans phone_pattern (then_scan (shape phone_shape) eos).
Proof.
  apply (scans_shape_then _ _ [_; _; _] (_ :: _)); [apply scans_digits3|].
  apply (scans_shape_then _ _ [_] (_ :: _)); [apply scans_lit|].
  apply (scans_shape_then _ _ [_; _; _] (_ :: _)); [apply scans_digits3|].
  apply (scans_shape_then _ _ [_] [_; _; _; _]); [apply scans_lit|].
  apply scans_cat; [apply scans_digits4|apply scans_eos].
Qed.

Lemma shape_tail ps s u :
  shape ps s = Some u -> exists p, s = p +++ u /\ shape ps p = Some EmptyString.
Proof.
  revert s; induction ps as [|q ps IH]; intros s H; simpl in H.
  - injection H as <-. exists EmptyString. split; reflexivity.
  - destruct s as [|a t]; [discriminate|]. destruct (q a) eqn:Q; [|discriminate].
    destruct (IH _ H) as (p & -> & Hp). exists (String a p). split; [reflexivity|].
    simpl. rewrite Q. exact Hp.
Qed.

Lemma shape_append ps p u :
  shape ps p = Some EmptyString -> shape ps (p +++ u) = Some u.
Proof.
  revert p; induction ps as [|q ps IH]; intros p H; simpl in H.
  - injection H as ->. reflexivity.
  - destruct p as [|a t]; [discriminate|]. simpl. destruct (q a); [apply IH, H|discriminate].
Qed.

Lemma chomp_spec s t : chomp s = Some t <-> s = t +++ String LF EmptyString.
Proof.
  revert t; induction s as [|c s IH]; intros t.
  - simpl. split; [discriminate|]. destruct t; discriminate.
  - destruct s as [|c' s'].
    + simpl. destruct t as [|x t'].
      * destruct (Ascii.eqb_spec c LF) as [->|N]; simpl.
        -- split; reflexivity.
        -- split; [discriminate|]. intros [= E]. contradiction.
      * split.
        -- destruct (Ascii.eqb c LF); discriminate.
        -- simpl. intros H. injection H as _ E. destruct t'; discriminate E.
    + change (chomp (String c (String c' s')))
        with (option_map (String c) (chomp (String c' s'))).
      remember (chomp (String c' s')) as k eqn:K. clear K.
      destruct t as [|x t'].
      * split; [destruct k; discriminate|].
        simpl. intros [= _ E].
      * specialize (IH t'). simpl. split.
        -- destruct k as [r|]; [|discriminate].
           simpl. intros [= -> ->]. f_equal. apply IH. reflexivity.
        -- intros [= -> E]. apply IH in E. rewrite E. reflexivity.
Qed.

Lemma eos_spec s u : eos s = Some u <-> u = s /\ (s = EmptyString \/ s = String LF EmptyString).
Proof.
  destruct s as [|c [|c' t]]; simpl.
  - split; [intros [= <-]; auto|intros [-> _]; reflexivity].
  - destruct (Ascii.eqb_spec c LF) as [->|N].
    + split; [intros [= <-]; auto|intros [-> _]; reflexivity].
    + split; [discriminate|]. intros [_ [H|H]]; [discriminate|]. injection H as H. contradiction.
  - split; [discriminate|]. intros [_ [H|H]]; discriminate.
Qed.

Lemma exactly_true ps s : exactly ps s = true <-> shape ps s = Some EmptyString.
Proof.
  unfold exactly. destruct (shape ps s) as [[|c u]|]; split; congruence.
Qed.

Lemma exactly_chomp ps s :
  match chomp s with Some t => exactly ps t | None => false end = true
  <-> shape ps s = Some (String LF EmptyString).
Proof.
  split.
  - destruct (chomp s) as [t|] eqn:C; [|discriminate].
    apply chomp_spec in C. subst s. intros E. apply exactly_true in E.
    apply shape_append, E.
  - intros E. destruct (shape_tail _ _ _ E) as (p & -> & Hp).
    assert (C : chomp (p +++ String LF EmptyString) = Some p) by (apply chomp_spec; reflexivity).
    rewrite C. apply exactly_true, Hp.
Qed.

(** What [then_scan (shape ps) eos] accepts: the shape, or the shape and
    one newline. *)
Lemma shape_eos ps s :
  is_some (then_scan (shape ps) eos s)
  = exactly ps s || match chomp s with Some t => exactly ps t | None => false end.
Proof.
  apply eq_true_iff_eq. rewrite orb_true_iff, exactly_true, exactly_chomp.
  unfold then_scan. destruct (shape ps s) as [[|c [|c' u]]|]; simpl.
  - split; auto.
  - destruct (Ascii.eqb_spec c LF) as [->|N]; simpl.
    + split; auto.
    + split; [discriminate|]. intros [H|H]; congruence.
  - split; [discriminate|]. intros [H|H]; congruence.
  - split; [discriminate|]. intros [H|H]; congruence.
Qed.

Theorem validate_phone_number_spec s :
  Patient.validate_phone_number s
  = phone_text s || match chomp s with Some t => phone_text t | None => false end.
Proof.
  unfold Patient.validate_phone_number, phone_text.
  rewrite is_some_match, scans_phone, <- shape_eos.
  destruct (then_scan _ _ s); reflexivity.
Qed.

(** *** The date pattern *)

Lemma scans_day : scans day_re (two day_rx).
Proof.
  intros s. unfold day_re. rewrite rests_grp, !rests_alt, !rests_cat.
  destruct s as [|a [|b t]]; unfold rests, two, day_rx; simpl.
  - reflexivity.
  - destruct (Ascii.eqb a "0"), (Ascii.eqb a "1"), (Ascii.eqb a "2"), (Ascii.eqb a "3");
      reflexivity.
  - destruct (Ascii.eqb_spec a "0") as [->|N0]; simpl.
    { destruct (in_range "1" "9" b); reflexivity. }
    destruct (Ascii.eqb_spec a "1") as [->|N1]; simpl.
    { destruct (in_range "0" "9" b); reflexivity. }
    destruct (Ascii.eqb_spec a "2") as [->|N2]; simpl.
    { destruct (in_range "0" "9" b); reflexivity. }
    destruct (Ascii.eqb_spec a "3") as [->|N3]; simpl.
    { destruct (Ascii.eqb b "0"), (Ascii.eqb b "1"); reflexivity. }
    reflexivity.
Qed.

Lemma scans_month : scans month_re (two month_rx).
Proof.
  intros s. unfold month_re. rewrite rests_grp, !rests_alt, !rests_cat.
  destruct s as [|a [|b t]]; unfold rests, two, month_rx; simpl.
  - reflexivity.
  - destruct (Ascii.eqb a "0"), (Ascii.eqb a "1"); reflexivity.
  - destruct (Ascii.eqb_spec a "0") as [->|N0]; simpl.
    { destruct (in_range "1" "9" b); reflexivity. }
    destruct (Ascii.eqb_spec a "1") as [->|N1]; simpl.
    { destruct (in_range "0" "2" b); reflexivity. }
    reflexivity.
Qed.

Lemma scans_dob : scans dob_pattern dob_scan.
Proof.
  change dob_pattern with
    (Cat day_re (Cat (lit "-") (Cat month_re (Cat (lit "-")
       (Cat (Grp (cat_all (times 4 d))) Eos))))).
  apply scans_cat; [apply scans_day|].
  apply scans_cat; [apply scans_lit|].
  apply scans_cat; [apply scans_month|].
  apply scans_cat; [apply scans_lit|].
  apply scans_cat; [apply scans_grp, scans_digits4|apply scans_eos].
Qed.

Lemma digit_cases c :
  is_digit c = true ->
  In c ["0"; "1"; "2"; "3"; "4"; "5"; "6"; "7"; "8"; "9"]%char.
Proof.
  intros H.
  assert (E : implb (is_digit c)
                (existsb (Ascii.eqb c) ["0"; "1"; "2"; "3"; "4"; "5"; "6"; "7"; "8"; "9"]%char)
              = true) by (revert c H; intros c _; revert c; by_enum).
  rewrite H in E. cbn [implb] in E. apply existsb_exists in E.
  destruct E as (x & I & E). apply Ascii.eqb_eq in E. subst x. exact I.
Qed.

Lemma nondigit_facts c :
  implb (negb (is_digit c))
    (negb (Ascii.eqb c "0") && negb (Ascii.eqb c "1") && negb (Ascii.eqb c "2")
     && negb (Ascii.eqb c "3") && negb (in_range "1" "9" c)
     && negb (in_range "0" "9" c) && negb (in_range "0" "2" c)) = true.
Proof. revert c. by_enum. Qed.

Lemma nondigit_inv c :
  is_digit c = false ->
  Ascii.eqb c "0" = false /\ Ascii.eqb c "1" = false /\ Ascii.eqb c "2" = false
  /\ Ascii.eqb c "3" = false /\ in_range "1" "9" c = false
  /\ in_range "0" "9" c = false /\ in_range "0" "2" c = false.
Proof.
  intros H. pose proof (nondigit_facts c) as F. rewrite H in F. simpl in F.
  repeat (apply andb_prop in F; destruct F as [F ?]).
  repeat match goal with H : negb _ = true |- _ => apply negb_true_iff in H end.
  repeat split; assumption.
Qed.

Ltac ten_cases H :=
  apply digit_cases in H; simpl in H;
  repeat (destruct H as [H|H]; [subst|]); [..|contradiction].

Ltac rw_facts :=
  repeat match goal with
  | H : ?x = false |- context [?x] => rewrite H
  | H : ?x = true |- context [?x] => rewrite H
  end.

Lemma day_rx_num a b :
  day_rx a b = is_digit a && is_digit b && (1 <=? num2 a b) && (num2 a b <=? 31).
Proof.
  destruct (is_digit a) eqn:A.
  - destruct (is_digit b) eqn:B.
    + ten_cases A; ten_cases B; vm_compute; reflexivity.
    + destruct (nondigit_inv b B) as (? & ? & ? & ? & ? & ? & ?).
      unfold day_rx. rw_facts. rewrite !andb_false_r. reflexivity.
  - destruct (nondigit_inv a A) as (? & ? & ? & ? & ? & ? & ?).
    unfold day_rx. rw_facts. reflexivity.
Qed.

Lemma month_rx_num a b :
  month_rx a b = is_digit a && is_digit b && (1 <=? num2 a b) && (num2 a b <=? 12).
Proof.
  destruct (is_digit a) eqn:A.
  - destruct (is_digit b) eqn:B.
    + ten_cases A; ten_cases B; vm_compute; reflexivity.
    + destruct (nondigit_inv b B) as (? & ? & ? & ? & ? & ? & ?).
      unfold month_rx. rw_facts. rewrite !andb_false_r. reflexivity.
  - destruct (nondigit_inv a A) as (? & ? & ? & ? & ? & ? & ?).
    unfold month_rx. rw_facts. reflexivity.
Qed.

Lemma digit_inv c :
  is_digit c = true ->
  is_space c = false /\ Ascii.eqb c "-" = false /\ Ascii.eqb c "+" = false
  /\ Ascii.eqb c "_" = false /\ Ascii.eqb c LF = false.
Proof.
  intros H. pose proof (digit_facts c) as F. rewrite H in F. simpl in F.
  repeat (apply andb_prop in F; destruct F as [F ?]).
  repeat match goal with H : negb _ = true |- _ => apply negb_true_iff in H end.
  auto.
Qed.

Ltac digits :=
  repeat match goal with
  | H : is_digit ?c = true |- _ =>
      lazymatch goal with
      | _ : is_space c = false |- _ => fail
      | _ => let H1 := fresh in let H2 := fresh in let H3 := fresh in
             let H4 := fresh in let H5 := fresh in
             destruct (digit_inv c H) as (H1 & H2 & H3 & H4 & H5)
      end
  end.

Ltac crush := repeat (simpl; rw_facts).

Lemma py_int_2 a b :
  is_digit a = true -> is_digit b = true ->
  py_int (String a (String b EmptyString)) = Ok (num2 a b).
Proof.
  intros Ha Hb. digits. unfold py_int, strip, string_rev, int_unsigned, num2.
  crush. reflexivity.
Qed.

Lemma py_int_4 a b c e u :
  is_digit a = true -> is_digit b = true -> is_digit c = true -> is_digit e = true ->
  u = EmptyString \/ u = String LF EmptyString ->
  py_int (String a (String b (String c (String e u)))) = Ok (num4 a b c e).
Proof.
  intros Ha Hb Hc He Hu. digits. unfold py_int, strip, string_rev, int_unsigned, num4.
  destruct Hu as [->| ->]; crush; reflexivity.
Qed.

Lemma re_match_dob s : is_some (re_match dob_pattern s) = is_some (dob_scan s).
Proof. rewrite is_some_match, scans_dob. destruct (dob_scan s); reflexivity. Qed.

Ltac open_scan H :=
  repeat (cbn -[eos] in H;
    match type of H with
    | context [match ?s with EmptyString => _ | String _ _ => _ end] =>
        is_var s; destruct s; try discriminate H
    | context [if ?c then _ else _] => destruct c eqn:?; try discriminate H
    end).

Lemma dob_scan_inv s u :
  dob_scan s = Some u ->
  exists a b h1 c e h2 y1 y2 y3 y4,
    s = ten a b h1 c e h2 y1 y2 y3 y4 u
    /\ day_rx a b = true /\ dash h1 = true /\ month_rx c e = true /\ dash h2 = true
    /\ is_digit y1 = true /\ is_digit y2 = true /\ is_digit y3 = true
    /\ is_digit y4 = true /\ (u = EmptyString \/ u = String LF EmptyString).
Proof.
  unfold dob_scan, year_eos, then_scan, two. intros H.
  destruct s as [|a [|b [|h1 [|c [|e [|h2 [|y1 [|y2 [|y3 [|y4 r]]]]]]]]]];
    open_scan H; try discriminate H.
  apply eos_spec in H. destruct H as [-> H].
  exists a, b, h1, c, e, h2, y1, y2, y3, y4. unfold dash. repeat split; assumption.
Qed.

Lemma dob_scan_ten a b h1 c e h2 y1 y2 y3 y4 u :
  day_rx a b = true -> dash h1 = true -> month_rx c e = true -> dash h2 = true ->
  is_digit y1 = true -> is_digit y2 = true -> is_digit y3 = true -> is_digit y4 = true ->
  u = EmptyString \/ u = String LF EmptyString ->
  dob_scan (ten a b h1 c e h2 y1 y2 y3 y4 u) = Some u.
Proof.
  intros. unfold dob_scan, year_eos, then_scan, two, ten, dash in *. crush.
  destruct H7 as [->| ->]; reflexivity.
Qed.

Lemma rx_num_day a b :
  day_rx a b = true <->
  is_digit a = true /\ is_digit b = true /\ 1 <= num2 a b <= 31.
Proof.
  rewrite day_rx_num, !andb_true_iff, Z.leb_le, Z.leb_le. tauto.
Qed.

Lemma rx_num_month a b :
  month_rx a b = true <->
  is_digit a = true /\ is_digit b = true /\ 1 <= num2 a b <= 12.
Proof.
  rewrite month_rx_num, !andb_true_iff, Z.leb_le, Z.leb_le. tauto.
Qed.

(** A text of the ten characters, with or without the newline: what
    the conversion and [datetime] make of it. *)
Lemma validate_ten a b h1 c e h2 y1 y2 y3 y4 u :
  day_rx a b = true -> dash h1 = true -> month_rx c e = true -> dash h2 = true ->
  is_digit y1 = true -> is_digit y2 = true -> is_digit y3 = true -> is_digit y4 = true ->
  u = EmptyString \/ u = String LF EmptyString ->
  Patient.validate_date_of_birth (ten a b h1 c e h2 y1 y2 y3 y4 u)
  = Ok (real_date (num4 y1 y2 y3 y4) (num2 c e) (num2 a b)).
Proof.
  intros D H1 M H2 Y1 Y2 Y3 Y4 U.
  unfold Patient.validate_date_of_birth.
  pose proof (re_match_dob (ten a b h1 c e h2 y1 y2 y3 y4 u)) as R.
  rewrite (dob_scan_ten _ _ _ _ _ _ _ _ _ _ _ D H1 M H2 Y1 Y2 Y3 Y4 U) in R.
  destruct (re_match dob_pattern _) as [m|]; [clear R|discriminate R].
  apply rx_num_day in D. destruct D as (Da & Db & _).
  apply rx_num_month in M. destruct M as (Mc & Me & _).
  assert (S : split_on "-" (ten a b h1 c e h2 y1 y2 y3 y4 u)
              = [String a (String b EmptyString); String c (String e EmptyString);
                 String y1 (String y2 (String y3 (String y4 u)))]).
  { unfold ten, dash in *. digits. destruct U as [->| ->]; crush; reflexivity. }
  rewrite S. simpl omap.
  rewrite (py_int_2 _ _ Da Db), (py_int_2 _ _ Mc Me), (py_int_4 _ _ _ _ _ Y1 Y2 Y3 Y4 U).
  simpl. unfold datetime, real_date.
  destruct (_ && _); reflexivity.
Qed.

Lemma dec_val_2 a b : dec_val 0 (String a (String b EmptyString)) = num2 a b.
Proof. unfold num2. simpl. lia. Qed.

Lemma dec_val_4 a b c e :
  dec_val 0 (String a (String b (String c (String e EmptyString)))) = num4 a b c e.
Proof. unfold num4. simpl. lia. Qed.

Lemma dob_text_ten a b h1 c e h2 y1 y2 y3 y4 :
  day_rx a b = true -> dash h1 = true -> month_rx c e = true -> dash h2 = true ->
  is_digit y1 = true -> is_digit y2 = true -> is_digit y3 = true -> is_digit y4 = true ->
  dob_text (ten a b h1 c e h2 y1 y2 y3 y4 EmptyString)
  = real_date (num4 y1 y2 y3 y4) (num2 c e) (num2 a b)
  /\ dob_text (ten a b h1 c e h2 y1 y2 y3 y4 (String LF EmptyString)) = false
  /\ chomp (ten a b h1 c e h2 y1 y2 y3 y4 EmptyString) = None
  /\ chomp (ten a b h1 c e h2 y1 y2 y3 y4 (String LF EmptyString))
     = Some (ten a b h1 c e h2 y1 y2 y3 y4 EmptyString).
Proof.
  intros D H1 M H2 Y1 Y2 Y3 Y4.
  apply rx_num_day in D. destruct D as (Da & Db & D1 & D2).
  apply rx_num_month in M. destruct M as (Mc & Me & M1 & M2).
  apply Z.leb_le in D1, D2, M1, M2.
  digits. unfold dob_text, exactly, dob_shape, ten.
  split; [|split; [|split]].
  - cbn [shape substring]. rw_facts. rewrite !dec_val_2, dec_val_4. rw_facts. reflexivity.
  - cbn [shape]. rw_facts. reflexivity.
  - crush. reflexivity.
  - crush. reflexivity.
Qed.

Lemma dob_text_inv t :
  dob_text t = true ->
  exists a b h1 c e h2 y1 y2 y3 y4,
    t = ten a b h1 c e h2 y1 y2 y3 y4 EmptyString
    /\ day_rx a b = true /\ dash h1 = true /\ month_rx c e = true /\ dash h2 = true
    /\ is_digit y1 = true /\ is_digit y2 = true /\ is_digit y3 = true
    /\ is_digit y4 = true.
Proof.
  unfold dob_text. intros H. apply andb_prop in H. destruct H as [E R].
  unfold exactly, dob_shape in E.
  destruct t as [|a [|b [|h1 [|c [|e [|h2 [|y1 [|y2 [|y3 [|y4 r]]]]]]]]]];
    open_scan E; try discriminate E.
  exists a, b, h1, c, e, h2, y1, y2, y3, y4.
  cbn [substring] in R. rewrite !dec_val_2 in R.
  repeat (apply andb_prop in R; destruct R as [R ?]).
  repeat match goal with H : (_ <=? _) = true |- _ => apply Z.leb_le in H end.
  repeat split; try assumption.
  - apply rx_num_day. auto.
  - apply rx_num_month. auto.
Qed.

(** What [validate_date_of_birth] computes, on every text. *)
Theorem validate_date_of_birth_spec s :
  Patient.validate_date_of_birth s
  = Ok (dob_text s || match chomp s with Some t => dob_text t | None => false end).
Proof.
  destruct (dob_scan s) as [u|] eqn:F.
  - apply dob_scan_inv in F.
    destruct F as (a & b & h1 & c & e & h2 & y1 & y2 & y3 & y4 & -> & D & H1 & M & H2
                   & Y1 & Y2 & Y3 & Y4 & U).
    rewrite (validate_ten _ _ _ _ _ _ _ _ _ _ _ D H1 M H2 Y1 Y2 Y3 Y4 U).
    destruct (dob_text_ten _ _ _ _ _ _ _ _ _ _ D H1 M H2 Y1 Y2 Y3 Y4) as (T1 & T2 & C1 & C2).
    destruct U as [->| ->].
    + rewrite T1, C1, orb_false_r. reflexivity.
    + rewrite T2, C2, T1. reflexivity.
  - assert (N : re_match dob_pattern s = None).
    { pose proof (re_match_dob s) as R. rewrite F in R.
      destruct (re_match dob_pattern s); [discriminate R|reflexivity]. }
    unfold Patient.validate_date_of_birth. rewrite N. f_equal. symmetry.
    apply orb_false_iff. split.
    + destruct (dob_text s) eqn:T; [|reflexivity]. exfalso.
      apply dob_text_inv in T.
      destruct T as (a & b & h1 & c & e & h2 & y1 & y2 & y3 & y4 & -> & D & H1 & M & H2
                     & Y1 & Y2 & Y3 & Y4).
      rewrite (dob_scan_ten _ _ _ _ _ _ _ _ _ _ EmptyString D H1 M H2 Y1 Y2 Y3 Y4) in F;
        [discriminate F|auto].
    + destruct (chomp s) as [t|] eqn:C; [|reflexivity].
      destruct (dob_text t) eqn:T; [|reflexivity]. exfalso.
      apply chomp_spec in C. apply dob_text_inv in T.
      destruct T as (a & b & h1 & c & e & h2 & y1 & y2 & y3 & y4 & -> & D & H1 & M & H2
                     & Y1 & Y2 & Y3 & Y4).
      subst s.
      change (ten a b h1 c e h2 y1 y2 y3 y4 EmptyString +++ String LF EmptyString)
        with (ten a b h1 c e h2 y1 y2 y3 y4 (String LF EmptyString)) in F.
      rewrite (dob_scan_ten _ _ _ _ _ _ _ _ _ _ _ D H1 M H2 Y1 Y2 Y3 Y4) in F;
        [discriminate F|auto].
Qed.

(** C2.  The date ["01-01-2020"] followed by a newline is not a
    DD-MM-YYYY text, and [validate_date_of_birth] accepts it. *)
Theorem validate_date_of_birth_accepts_trailing_newline :
  dob_text ("01-01-2020" +++ String LF EmptyString) = false
  /\ Patient.validate_date_of_birth ("01-01-2020" +++ String LF EmptyString) = Ok true.
Proof. split; vm_compute; reflexivity. Qed.

(** C3.  The number ["024-000-0000"] followed by a newline has thirteen
    characters, and [validate_phone_number] accepts it. *)
Theorem validate_phone_number_accepts_trailing_newline :
  phone_text ("024-000-0000" +++ String LF EmptyString) = false
  /\ Patient.validate_phone_number ("024-000-0000" +++ String LF EmptyString) = true.
Proof. split; vm_compute; reflexivity. Qed.

(** [validate_date_of_birth] raises on no text. *)
Theorem validate_date_of_birth_total s :
  exists b, Patient.validate_date_of_birth s = Ok b.
Proof. eexists. apply validate_date_of_birth_spec. Qed.

(** *** The field size limit of the csv reader *)

Lemma run_of_succ n c : run_of (N.succ n) c = String c (run_of n c).
Proof. unfold run_of. rewrite N.iter_succ. reflexivity. Qed.

Lemma plain_inv c : plain c = true ->
  is_newline c = false /\ Ascii.eqb c ","%char = false /\ Ascii.eqb c DQ = false.
Proof.
  unfold plain, special, is_newline. intros H. apply negb_true_iff in H.
  repeat (apply orb_false_iff in H; destruct H as [H ?]).
  repeat split; try assumption. apply orb_false_iff. split; assumption.
Qed.

Lemma feed_too_long c (P : plain c = true) n :
  forall r, state r = IN_FIELD -> field_len r <= field_limit ->
  field_limit < field_len r + Z.of_N n ->
  feed_chars r (run_of n c) = Raise CsvError.
Proof.
  destruct (plain_inv c P) as (Hn & Hc & Hq).
  induction n as [|n IH] using N.peano_ind; intros r S B L.
  - simpl in L. lia.
  - rewrite run_of_succ. cbn [feed_chars]. unfold parse_process_char. rewrite S, Hn, Hc.
    unfold parse_add_char. destruct (field_limit <=? field_len r) eqn:E; [reflexivity|].
    apply Z.leb_gt in E. cbn [obind]. rewrite N2Z.inj_succ in L.
    apply IH; cbn [state field_len]; [exact S|lia|lia].
Qed.

Lemma split_lines_plain c (P : plain c = true) n :
  split_lines (run_of (N.succ n) c) = [run_of (N.succ n) c].
Proof.
  destruct (plain_inv c P) as (Hn & _ & _). unfold is_newline in Hn.
  apply orb_false_iff in Hn. destruct Hn as [Hl Hr].
  induction n as [|n IH] using N.peano_ind.
  - rewrite run_of_succ. change (run_of 0 c) with EmptyString.
    cbn [split_lines]. rewrite Hl, Hr. reflexivity.
  - rewrite run_of_succ. cbn [split_lines]. rewrite Hl, Hr, IH. reflexivity.
Qed.

(** A file of one cell longer than the limit: the reader raises. *)
Lemma csv_reader_too_long c (P : plain c = true) n :
  field_limit < Z.of_N n -> csv_reader (run_of n c) = Raise CsvError.
Proof.
  intros L. destruct (plain_inv c P) as (Hn & Hc & Hq).
  destruct n as [|p] using N.peano_ind; [simpl in L; unfold field_limit in L; lia|].
  clear IHp. rewrite N2Z.inj_succ in L. unfold csv_reader. rewrite (split_lines_plain c P).
  cbn [reader_rows]. unfold feed_line. rewrite run_of_succ. cbn [feed_chars].
  unfold parse_process_char at 1. cbn [state parse_reset]. rewrite Hn.
  unfold start_field. rewrite Hn, Hq, Hc.
  unfold parse_add_char, set_state, parse_reset.
  cbn [field_len obind state fields field].
  change (field_limit <=? 0) with false. cbn [field_len obind state fields field].
  rewrite feed_too_long; try assumption; cbn [state field_len obind]; try reflexivity.
  all: unfold field_limit in *. all: try lia.
Qed.

(** C7.  A [patients.csv] whose only cell is longer than the csv
    module's field size limit: the csv branch of [read_file] lets the
    reader's error through to the caller, where the json branch turns
    its decoder's error into the empty list. *)
Theorem read_file_csv_raises :
  FileManager.read_file "csv" (mkfiles (Some (run_of 131073 "a")) None) = Raise CsvError.
Proof.
  unfold FileManager.read_file. cbn [String.eqb Ascii.eqb Bool.eqb patients_csv].
  unfold dict_reader. rewrite csv_reader_too_long; [reflexivity|reflexivity|].
  unfold field_limit. lia.
Qed.

(** A file that is not there reads as the empty list, with both
    backends, and so does a [patients.json] the decoder rejects. *)
Theorem read_file_absent b fs :
  stored b fs = None -> FileManager.read_file (backend_name b) fs = Ok (VList []).
Proof.
  destruct b; simpl; unfold FileManager.read_file; simpl; intros ->; reflexivity.
Qed.


(** *** Integers and their decimal text *)

Lemma digit_char_ok m :
  0 <= m <= 9 -> is_digit (digit_char m) = true /\ digit_val (digit_char m) = m.
Proof.
  intros H.
  assert (C : m = 0 \/ m = 1 \/ m = 2 \/ m = 3 \/ m = 4 \/ m = 5 \/ m = 6 \/ m = 7
             \/ m = 8 \/ m = 9) by lia.
  repeat (destruct C as [->|C]; [split; reflexivity|]). subst m. split; reflexivity.
Qed.

Lemma int_digits_dec fuel :
  forall n acc, 0 <= n < 2 ^ Z.of_nat fuel ->
  int_digits 0 (dec_digits fuel n acc) = int_digits n acc.
Proof.
  induction fuel as [|f IH]; intros n acc B.
  - simpl in B. assert (n = 0) by lia. subst n. reflexivity.
  - cbn [dec_digits].
    assert (M : 0 <= n mod 10 <= 9) by (pose proof (Z.mod_pos_bound n 10); lia).
    destruct (digit_char_ok _ M) as [D V].
    destruct (n <? 10) eqn:E.
    + apply Z.ltb_lt in E. rewrite Z.mod_small by lia. 
      rewrite Z.mod_small in D, V by lia.
      cbn [int_digits]. rewrite D, V. f_equal.
    + apply Z.ltb_ge in E. rewrite IH.
      * cbn [int_digits]. rewrite D, V. f_equal.
        pose proof (Z.div_mod n 10). lia.
      * rewrite Nat2Z.inj_succ, Z.pow_succ_r in B by lia.
        split; [apply Z.div_pos; lia|]. apply Z.div_lt_upper_bound; lia.
Qed.

Lemma int_digits_str n : 0 <= n -> int_digits 0 (str_of_nonneg n) = Some n.
Proof.
  intros H. unfold str_of_nonneg. rewrite int_digits_dec; [reflexivity|].
  split; [exact H|]. rewrite Nat2Z.inj_succ, Z2Nat.id by apply Z.log2_nonneg.
  destruct (Z.eq_dec n 0) as [->|N]; [reflexivity|].
  apply Z.log2_spec. lia.
Qed.

Lemma str_of_nonneg_inj n m :
  0 <= n -> 0 <= m -> str_of_nonneg n = str_of_nonneg m -> n = m.
Proof.
  intros Hn Hm E. pose proof (int_digits_str n Hn) as A.
  rewrite E, int_digits_str in A by exact Hm. congruence.
Qed.

Lemma str_of_Z_nonneg n : 0 <= n -> str_of_Z n = str_of_nonneg n.
Proof. intros H. unfold str_of_Z. destruct (n <? 0) eqn:E; [apply Z.ltb_lt in E; lia|reflexivity]. Qed.

(** *** Writing *)

Lemma writerows_ok l : forallb row_ok l = true -> snd (writerows l) = None.
Proof.
  induction l as [|r l IH]; simpl; [reflexivity|]. unfold row_ok at 1.
  destruct (dict_to_list r); simpl; [|discriminate]. exact IH.
Qed.

Lemma write_file_ok b l fs :
  writable b l = true ->
  FileManager.write_file (backend_name b) (VList l) fs
  = (Ok tt, store b (dumped b (VList l)) fs).
Proof.
  destruct b; simpl; intros W; unfold FileManager.write_file; simpl; [|reflexivity].
  unfold csv_dump. simpl. rewrite (writerows_ok _ W). reflexivity.
Qed.

Lemma record_row_ok i a f : row_ok (record_of i a f) = true.
Proof. reflexivity. Qed.

Lemma writable_app b l r : writable b l = true -> row_ok r = true -> writable b (l ++ [r]) = true.
Proof.
  destruct b; simpl; [|reflexivity]. intros A B. rewrite forallb_app, A. simpl. rewrite B. reflexivity.
Qed.

(** *** [add_patient] *)

Lemma add_patient_ok b today f w l dt :
  PMS.storage_type (PMS.self w) = backend_name b ->
  patients_of w = VList l ->
  writable b l = true ->
  strptime (f_date_of_birth f) = Ok dt ->
  let r := record_of (Z.of_nat (List.length l) + 1) (age_on today dt) f in
  add today f w
  = (Ok tt, with_patients w (l ++ [r]) (store b (dumped b (VList (l ++ [r]))) (PMS.disk w))).
Proof.
  intros S P W D r. unfold add, PMS.add_patient. unfold patients_of in P. rewrite P.
  cbn [py_len]. unfold Patient.init, Patient.calculate_age. rewrite D. cbn [obind].
  rewrite S. fold (age_on today dt). 
  change (Patient.to_dict _) with r.
  rewrite (write_file_ok b (l ++ [r])) by (apply writable_app; [exact W|apply record_row_ok]).
  unfold with_patients. rewrite S. reflexivity.
Qed.

Lemma add_patient_bad_date today f w l e :
  patients_of w = VList l ->
  strptime (f_date_of_birth f) = Raise e ->
  add today f w = (Raise e, w).
Proof.
  intros P D. unfold add, PMS.add_patient. unfold patients_of in P. rewrite P.
  cbn [py_len]. unfold Patient.init, Patient.calculate_age. rewrite D. reflexivity.
Qed.

Lemma add_patient_appends today f w l :
  patients_of w = VList l ->
  fst (add today f w) = Ok tt ->
  exists dt, strptime (f_date_of_birth f) = Ok dt
    /\ patients_of (snd (add today f w))
       = VList (l ++ [record_of (Z.of_nat (List.length l) + 1) (age_on today dt) f]).
Proof.
  intros P. unfold add, PMS.add_patient. unfold patients_of in *. rewrite P.
  cbn [py_len]. unfold Patient.init, Patient.calculate_age.
  destruct (strptime (f_date_of_birth f)) as [dt|e]; cbn [obind fst snd]; [|discriminate].
  intros _. exists dt. split; reflexivity.
Qed.

(** *** Searching *)

Lemma find_by_id_app l r i :
  PMS.find_by_id l i = Ok None -> PMS.find_by_id (l ++ r) i = PMS.find_by_id r i.
Proof.
  induction l as [|p l IH]; simpl; [reflexivity|].
  destruct (subscript p "id") as [x|e]; simpl; [|discriminate].
  destruct (String.eqb (py_str x) (py_str i)); [discriminate|exact IH].
Qed.

Lemma find_record i a f :
  PMS.find_by_id [record_of i a f] (VInt i) = Ok (Some (record_of i a f)).
Proof.
  cbn [PMS.find_by_id record_of Patient.to_dict subscript dict_get key_eqb String.eqb
       Ascii.eqb Bool.eqb obind Patient.id].
  rewrite String.eqb_refl. reflexivity.
Qed.

(** C4, as stated, fails: after two additions and the deletion of the
    first record, the third addition is given identifier 2 again, and
    the search for 2 returns the older record. *)
Lemma add_then_search_finds_older_record :
  ~ (forall (rs : list request) (f : form),
       let w := run new_year_2024 rs (fresh JSON) in
       fst (add new_year_2024 f w) = Ok tt ->
       exists l a,
         patients_of w = VList l
         /\ PMS.search_patient_by_id (VInt (Z.of_nat (List.length l) + 1))
              (snd (add new_year_2024 f w))
            = Ok (Some (record_of (Z.of_nat (List.length l) + 1) a f))).
Proof.
  intros H.
  specialize (H [Add form_a; Add form_b; Delete (VStr "1")] form_c).
  destruct H as (l & a & P & S); [vm_compute; reflexivity|].
  vm_compute in P. injection P as <-. vm_compute in S. discriminate S.
Qed.

(** C4, amended.  When no record of the list carries the identifier
    that the count gives, an addition that succeeds followed by the
    search for that identifier returns the record just added. *)
Theorem add_then_search today f w l :
  patients_of w = VList l ->
  PMS.find_by_id l (VInt (Z.of_nat (List.length l) + 1)) = Ok None ->
  fst (add today f w) = Ok tt ->
  exists a,
    PMS.search_patient_by_id (VInt (Z.of_nat (List.length l) + 1)) (snd (add today f w))
    = Ok (Some (record_of (Z.of_nat (List.length l) + 1) a f)).
Proof.
  intros P N A. destruct (add_patient_appends today f w l P A) as (dt & _ & P').
  exists (age_on today dt). unfold PMS.search_patient_by_id.
  unfold patients_of in P'. rewrite P'. cbn [py_iter obind].
  rewrite (find_by_id_app _ _ _ N). apply find_record.
Qed.

Lemma add_then_search_witness :
  exists a,
    PMS.search_patient_by_id (VInt (Z.of_nat (List.length [record_of 1 33 form_a]) + 1))
      (snd (add new_year_2024 form_b (snd (add new_year_2024 form_a (fresh CSV)))))
    = Ok (Some (record_of (Z.of_nat (List.length [record_of 1 33 form_a]) + 1) a form_b)).
Proof.
  apply (add_then_search new_year_2024 form_b
           (snd (add new_year_2024 form_a (fresh CSV))) [record_of 1 33 form_a]);
    vm_compute; reflexivity.
Defined.

(** C9, as stated, fails: with the date 31-02-2020, which
    [validate_date_of_birth] rejects, the age computation of the
    constructor raises, and nothing is added or written. *)
Lemma add_patient_raises_on_bad_date :
  ~ (forall f : form,
       exists w, add new_year_2024 f (fresh JSON) = (Ok tt, w)
                 /\ patients_json (PMS.disk w) <> None).
Proof.
  intros H. destruct (H form_bad_date) as (w & A & _).
  vm_compute in A. discriminate A.
Qed.

(** C9, amended.  [add_patient] consults neither validator: whenever
    [strptime] can read the date of birth, whatever the validators say
    of the date and of the phone number, the record is built, appended
    and written to the file. *)
Theorem add_patient_skips_validators b today f w l dt :
  PMS.storage_type (PMS.self w) = backend_name b ->
  patients_of w = VList l ->
  writable b l = true ->
  strptime (f_date_of_birth f) = Ok dt ->
  let r := record_of (Z.of_nat (List.length l) + 1) (age_on today dt) f in
  add today f w
  = (Ok tt, with_patients w (l ++ [r]) (store b (dumped b (VList (l ++ [r]))) (PMS.disk w))).
Proof. exact (add_patient_ok b today f w l dt). Qed.

Lemma add_patient_skips_validators_witness :
  Patient.validate_date_of_birth (f_date_of_birth form_loose) = Ok false
  /\ Patient.validate_phone_number (f_phone_number form_loose) = false
  /\ add new_year_2024 form_loose (fresh CSV)
     = (Ok tt,
        with_patients (fresh CSV) ([] ++ [record_of (Z.of_nat (List.length (@nil value)) + 1)
                                             (age_on new_year_2024 (mkdate 2020 1 1)) form_loose])
          (store CSV (dumped CSV (VList ([] ++ [record_of (Z.of_nat (List.length (@nil value)) + 1)
                                             (age_on new_year_2024 (mkdate 2020 1 1)) form_loose])))
             (PMS.disk (fresh CSV)))).
Proof.
  split; [vm_compute; reflexivity|]. split; [vm_compute; reflexivity|].
  apply (add_patient_skips_validators CSV new_year_2024 form_loose (fresh CSV) []
           (mkdate 2020 1 1)); vm_compute; reflexivity.
Defined.

(** *** Additions alone *)

Lemma records_writable b l : Forall is_record l -> writable b l = true.
Proof.
  destruct b; simpl; [|reflexivity].
  induction 1 as [|r l (i & a & f & ->) _ IH]; cbn [forallb].
  - reflexivity.
  - rewrite record_row_ok. exact IH.
Qed.

Lemma id_text_record i a f : id_text (record_of i a f) = str_of_Z i.
Proof. reflexivity. Qed.

Lemma numbers_succ n : numbers (S n) = numbers n ++ [Z.of_nat n + 1].
Proof.
  unfold numbers. rewrite seq_S, map_app. simpl. do 2 f_equal. lia.
Qed.

Lemma numbered_fresh b : numbered b (fresh b) [].
Proof. repeat split. constructor. Qed.

Lemma numbers_texts_NoDup n : NoDup (map str_of_Z (numbers n)).
Proof.
  unfold numbers. rewrite map_map. apply NoDup_map_NoDup_ForallPairs; [|apply seq_NoDup].
  intros x y _ _ E. rewrite !str_of_Z_nonneg in E by lia.
  apply str_of_nonneg_inj in E; lia.
Qed.

(** C1, as stated, fails: after two additions and the deletion of the
    first record the count is 1 again, and the next addition assigns
    identifier 2 a second time. *)
Lemma identifiers_repeat_after_delete :
  ~ (forall rs : list request,
       NoDup (id_texts (patients_of (run new_year_2024 rs (fresh JSON))))).
Proof.
  intros H.
  specialize (H [Add form_a; Add form_b; Delete (VStr "1"); Add form_c]).
  vm_compute in H. inversion H as [|x l N _]. apply N. left. reflexivity.
Qed.

Lemma numbered_add_count b today f w l :
  numbered b w l ->
  exists l', numbered b (snd (add today f w)) l'
             /\ List.length l' = (List.length l + (if readable f then 1 else 0))%nat.
Proof.
  intros (S & P & R & I). unfold readable.
  destruct (strptime (f_date_of_birth f)) as [dt|e] eqn:D.
  - rewrite (add_patient_ok b today f w l dt S P (records_writable b l R) D).
    exists (l ++ [record_of (Z.of_nat (List.length l) + 1) (age_on today dt) f]).
    split; [|rewrite length_app; reflexivity]. unfold with_patients, numbered, patients_of.
    cbn [snd PMS.self PMS.storage_type PMS.patients]. repeat split.
    + exact S.
    + apply Forall_app. split; [exact R|]. constructor; [|constructor].
      eexists _, _, _. reflexivity.
    + rewrite length_app, Nat.add_1_r, numbers_succ, !map_app, I. simpl.
      rewrite id_text_record. reflexivity.
  - rewrite (add_patient_bad_date today f w l e P D). exists l. split; [|lia].
    repeat split; assumption.
Qed.

Lemma numbered_run_count b today fs :
  forall w l, numbered b w l ->
  exists l', numbered b (run today (map Add fs) w) l'
             /\ List.length l' = (List.length l + List.length (filter readable fs))%nat.
Proof.
  induction fs as [|f fs IH]; intros w l N.
  - exists l. split; [exact N|simpl; lia].
  - destruct (numbered_add_count b today f w l N) as (l1 & N1 & L1).
    destruct (IH _ _ N1) as (l2 & N2 & L2). exists l2. split; [exact N2|].
    rewrite L2, L1. cbn [filter]. destruct (readable f); cbn [List.length]; lia.
Qed.

(** C1, amended.  Every addition that succeeds numbers the new record
    with the count plus one; so from the empty record set, additions
    alone leave one record for each form whose date of birth [strptime]
    reads, numbered 1, 2, ... in order, without a repeated identifier.
    (The numbering consults the count only: once a record was deleted
    an identifier can be assigned again.) *)
Theorem identifiers_of_additions b today fs :
  (forall w l f dt,
     PMS.storage_type (PMS.self w) = backend_name b ->
     patients_of w = VList l ->
     writable b l = true ->
     strptime (f_date_of_birth f) = Ok dt ->
     exists r,
       patients_of (snd (add today f w)) = VList (l ++ [r])
       /\ id_text r = str_of_Z (Z.of_nat (List.length l) + 1))
  /\ exists l,
       patients_of (run today (map Add fs) (fresh b)) = VList l
       /\ List.length l = List.length (filter readable fs)
       /\ id_texts (VList l) = map str_of_Z (numbers (List.length l))
       /\ NoDup (id_texts (VList l)).
Proof.
  split.
  - intros w l f dt S P W D. rewrite (add_patient_ok b today f w l dt S P W D).
    eexists. split; [reflexivity|]. apply id_text_record.
  - destruct (numbered_run_count b today fs _ _ (numbered_fresh b))
      as (l & (S & P & R & I) & L).
    exists l. cbn [id_texts]. rewrite I. repeat split; try assumption.
    apply numbers_texts_NoDup.
Qed.

Lemma identifiers_of_additions_witness :
  (forall w l f dt,
     PMS.storage_type (PMS.self w) = backend_name JSON ->
     patients_of w = VList l ->
     writable JSON l = true ->
     strptime (f_date_of_birth f) = Ok dt ->
     exists r,
       patients_of (snd (add new_year_2024 f w)) = VList (l ++ [r])
       /\ id_text r = str_of_Z (Z.of_nat (List.length l) + 1))
  /\ exists l,
       patients_of (run new_year_2024 (map Add [form_a; form_bad_date; form_b]) (fresh JSON))
       = VList l
       /\ List.length l = List.length (filter readable [form_a; form_bad_date; form_b])
       /\ id_texts (VList l) = map str_of_Z (numbers (List.length l))
       /\ NoDup (id_texts (VList l)).
Proof. exact (identifiers_of_additions JSON new_year_2024 [form_a; form_bad_date; form_b]). Defined.

(** *** Dictionaries *)

Lemma key_eqb_eq a b : key_eqb a b = true <-> a = b.
Proof.
  destruct a as [|x], b as [|y]; simpl; split; try congruence; try reflexivity.
  - intros E. apply String.eqb_eq in E. congruence.
  - intros [= ->]. apply String.eqb_refl.
Qed.

Lemma key_eqb_refl a : key_eqb a a = true.
Proof. apply key_eqb_eq. reflexivity. Qed.

Lemma key_eqb_neq a b : a <> b -> key_eqb a b = false.
Proof.
  intros N. destruct (key_eqb a b) eqn:E; [|reflexivity].
  apply key_eqb_eq in E. contradiction.
Qed.

Lemma dict_get_set_same dc k v : dict_get (dict_set dc k v) k = Some v.
Proof.
  induction dc as [|[k' v'] dc IH]; simpl.
  - rewrite key_eqb_refl. reflexivity.
  - destruct (key_eqb k' k) eqn:E; simpl; rewrite E; [reflexivity|exact IH].
Qed.

Lemma dict_get_set_other dc k v k' :
  k <> k' -> dict_get (dict_set dc k v) k' = dict_get dc k'.
Proof.
  intros N. induction dc as [|[k1 v1] dc IH]; simpl.
  - rewrite (key_eqb_neq _ _ N). reflexivity.
  - destruct (key_eqb k1 k) eqn:E; simpl.
    + apply key_eqb_eq in E. subst k1. rewrite (key_eqb_neq _ _ N). reflexivity.
    + destruct (key_eqb k1 k'); [reflexivity|exact IH].
Qed.

Lemma dict_update_other info : forall dc k,
  ~ In k (map fst info) -> dict_get (dict_update dc info) k = dict_get dc k.
Proof.
  unfold dict_update. induction info as [|[k1 v1] info IH]; intros dc k N; simpl.
  - reflexivity.
  - rewrite IH by (intros I; apply N; right; exact I).
    apply dict_get_set_other. intros ->. apply N. left. reflexivity.
Qed.

Lemma dict_update_given info : forall dc k v,
  NoDup (map fst info) -> In (k, v) info -> dict_get (dict_update dc info) k = Some v.
Proof.
  induction info as [|[k1 v1] info IH]; intros dc k v D I; [destruct I|].
  simpl in D. inversion D as [|? ? N D']. subst.
  change (dict_update dc ((k1, v1) :: info)) with (dict_update (dict_set dc k1 v1) info).
  destruct I as [[= -> ->]|I].
  - rewrite dict_update_other by exact N. apply dict_get_set_same.
  - apply IH; assumption.
Qed.

Lemma keys_set (P : key -> bool) dc k v :
  forallb P (map fst dc) = true -> P k = true ->
  forallb P (map fst (dict_set dc k v)) = true.
Proof.
  intros A B. induction dc as [|[k1 v1] dc IH]; simpl in *.
  - rewrite B. reflexivity.
  - apply andb_prop in A. destruct A as [A1 A2].
    destruct (key_eqb k1 k); simpl; rewrite A1; [exact A2|apply IH, A2].
Qed.

Lemma keys_update (P : key -> bool) info : forall dc,
  forallb P (map fst dc) = true -> forallb P (map fst info) = true ->
  forallb P (map fst (dict_update dc info)) = true.
Proof.
  unfold dict_update. induction info as [|[k1 v1] info IH]; intros dc A B; simpl in *.
  - exact A.
  - apply andb_prop in B. destruct B as [B1 B2]. apply IH; [|exact B2].
    apply keys_set; assumption.
Qed.

Lemma row_ok_dict dc : row_ok (VDict dc) = forallb known_field (map fst dc).
Proof.
  unfold row_ok, dict_to_list.
  assert (E : forallb (fun kv : key * value => known_field (fst kv)) dc
              = forallb known_field (map fst dc)).
  { induction dc as [|kv dc IH]; simpl; [reflexivity|]. rewrite IH. reflexivity. }
  rewrite E. destruct (forallb known_field (map fst dc)); reflexivity.
Qed.

(** *** [update_patient_by_id] *)

Lemma update_first_none l i info :
  PMS.find_by_id l i = Ok None -> PMS.update_first l i info = Ok None.
Proof.
  induction l as [|p l IH]; simpl; [reflexivity|].
  destruct (subscript p "id") as [x|e]; simpl; [|discriminate].
  destruct (String.eqb (py_str x) (py_str i)); [discriminate|].
  intros N. rewrite (IH N). reflexivity.
Qed.

Lemma update_first_app l1 rest i info :
  PMS.find_by_id l1 i = Ok None ->
  PMS.update_first (l1 ++ rest) i info
  = (r <- PMS.update_first rest i info ;; Ok (option_map (app l1) r)).
Proof.
  induction l1 as [|p l IH]; simpl.
  - intros _. destruct (PMS.update_first rest i info) as [[r|]|e]; reflexivity.
  - destruct (subscript p "id") as [x|e]; simpl; [|discriminate].
    destruct (String.eqb (py_str x) (py_str i)); [discriminate|].
    intros N. rewrite (IH N).
    destruct (PMS.update_first rest i info) as [[r|]|e]; reflexivity.
Qed.

(** C5.  An update that finds no record answers [False] and leaves the
    list and the files as they were; an update whose first match is the
    record [dc] answers [True], gives that record the values of
    [updated_info] under its keys and leaves its other entries, leaves
    the records before and after it untouched, and rewrites the file
    with the new list. *)
Theorem update_patient_by_id_frame b w l patient_id updated_info :
  PMS.storage_type (PMS.self w) = backend_name b ->
  patients_of w = VList l ->
  writable b l = true ->
  forallb known_field (map fst updated_info) = true ->
  NoDup (map fst updated_info) ->
  (PMS.find_by_id l patient_id = Ok None ->
   PMS.update_patient_by_id patient_id updated_info w = (Ok false, w))
  /\ (forall l1 dc l2 i,
        l = l1 ++ VDict dc :: l2 ->
        PMS.find_by_id l1 patient_id = Ok None ->
        dict_get dc (KStr "id") = Some i ->
        py_str i = py_str patient_id ->
        let dc' := dict_update dc updated_info in
        let l' := l1 ++ VDict dc' :: l2 in
        PMS.update_patient_by_id patient_id updated_info w
        = (Ok true, with_patients w l' (store b (dumped b (VList l')) (PMS.disk w)))
        /\ (forall k v, In (k, v) updated_info -> dict_get dc' k = Some v)
        /\ (forall k, ~ In k (map fst updated_info) -> dict_get dc' k = dict_get dc k)).
Proof.
  intros S P W K D. unfold patients_of in P. split.
  - intros N. unfold PMS.update_patient_by_id. rewrite P. cbn [py_iter obind].
    rewrite (update_first_none _ _ _ N). reflexivity.
  - intros l1 dc l2 i -> N I E dc' l'. split; [|split].
    + unfold PMS.update_patient_by_id. rewrite P. cbn [py_iter obind].
      rewrite (update_first_app _ _ _ _ N). cbn [PMS.update_first subscript].
      rewrite I. cbn [obind]. rewrite E, String.eqb_refl. cbn [obind option_map PMS.updated].
      fold dc'. change (l1 ++ VDict dc' :: l2) with l'. rewrite S.
      rewrite (write_file_ok b l').
      * unfold with_patients. rewrite S. reflexivity.
      * destruct b; [|reflexivity]. simpl in W |- *. unfold l'.
        rewrite forallb_app in W |- *. apply andb_prop in W. destruct W as [W1 W2].
        rewrite W1. simpl in W2 |- *. apply andb_prop in W2. destruct W2 as [W2 W3].
        rewrite W3, andb_true_r. rewrite row_ok_dict in W2 |- *.
        apply keys_update; assumption.
    + intros k v In'. apply dict_update_given; assumption.
    + intros k N'. apply dict_update_other; assumption.
Qed.

Lemma update_patient_by_id_frame_witness :
  (PMS.find_by_id list_ab (VStr "2") = Ok None ->
   PMS.update_patient_by_id (VStr "2") info_town world_ab = (Ok false, world_ab))
  /\ (forall l1 dc l2 i,
        list_ab = l1 ++ VDict dc :: l2 ->
        PMS.find_by_id l1 (VStr "2") = Ok None ->
        dict_get dc (KStr "id") = Some i ->
        py_str i = py_str (VStr "2") ->
        let dc' := dict_update dc info_town in
        let l' := l1 ++ VDict dc' :: l2 in
        PMS.update_patient_by_id (VStr "2") info_town world_ab
        = (Ok true, with_patients world_ab l' (store CSV (dumped CSV (VList l')) (PMS.disk world_ab)))
        /\ (forall k v, In (k, v) info_town -> dict_get dc' k = Some v)
        /\ (forall k, ~ In k (map fst info_town) -> dict_get dc' k = dict_get dc k)).
Proof.
  apply (update_patient_by_id_frame CSV world_ab list_ab (VStr "2") info_town).
  - reflexivity.
  - reflexivity.
  - reflexivity.
  - reflexivity.
  - constructor; [simpl; tauto|constructor].
Defined.

(** The update of the second record of a store of two, run. *)
Example update_patient_by_id_run :
  PMS.update_patient_by_id (VStr "2") info_town world_ab
  = (Ok true,
     with_patients world_ab
       [record_of 1 33 form_a;
        VDict (dict_set (match record_of 2 24 form_b with VDict dc => dc | _ => [] end)
                 (KStr "hometown") (VStr "Cape Coast"))]
       (store CSV
          (dumped CSV
             (VList [record_of 1 33 form_a;
                     VDict (dict_set (match record_of 2 24 form_b with VDict dc => dc | _ => [] end)
                              (KStr "hometown") (VStr "Cape Coast"))]))
          (PMS.disk world_ab))).
Proof. vm_compute. reflexivity. Qed.

(** *** Text *)

Lemma append_assoc (a b c : string) : (a +++ b) +++ c = a +++ b +++ c.
Proof. induction a as [|x a IH]; simpl; [reflexivity|]. rewrite IH. reflexivity. Qed.

Lemma append_nil_r (a : string) : a +++ EmptyString = a.
Proof. induction a as [|x a IH]; simpl; [reflexivity|]. rewrite IH. reflexivity. Qed.

Lemma strlen_cons c s : strlen (String c s) = strlen s + 1.
Proof. unfold strlen. cbn [String.length]. lia. Qed.

Lemma strlen_nonneg s : 0 <= strlen s.
Proof. unfold strlen. lia. Qed.

Lemma rev_onto_append s acc : string_rev_onto s acc = string_rev s +++ acc.
Proof.
  unfold string_rev. revert acc. induction s as [|c s IH]; intros acc; simpl; [reflexivity|].
  rewrite IH, (IH (String c EmptyString)), append_assoc. reflexivity.
Qed.

Lemma string_rev_append a b : string_rev (a +++ b) = string_rev b +++ string_rev a.
Proof.
  induction a as [|c a IH]; simpl.
  - change (string_rev EmptyString) with EmptyString. rewrite append_nil_r. reflexivity.
  - change (string_rev (String c (a +++ b)))
      with (string_rev_onto (a +++ b) (String c EmptyString)).
    rewrite rev_onto_append, IH.
    change (string_rev (String c a)) with (string_rev_onto a (String c EmptyString)).
    rewrite (rev_onto_append a). apply append_assoc.
Qed.

Lemma string_rev_involutive s : string_rev (string_rev s) = s.
Proof.
  induction s as [|c s IH]; [reflexivity|].
  change (string_rev (String c s)) with (string_rev_onto s (String c EmptyString)).
  rewrite rev_onto_append, string_rev_append, IH. reflexivity.
Qed.

(** *** The reader, character by character *)

Lemma split_lines_nonempty c t : split_lines (String c t) <> [].
Proof.
  cbn [split_lines]. destruct (Ascii.eqb c LF); [discriminate|].
  destruct (Ascii.eqb c CR).
  - destruct t as [|c' t']; [discriminate|]. destruct (Ascii.eqb c' LF); discriminate.
  - destruct (split_lines t); discriminate.
Qed.

Lemma newline_inv c : is_newline c = false -> Ascii.eqb c LF = false /\ Ascii.eqb c CR = false.
Proof. unfold is_newline. intros H. apply orb_false_iff in H. exact H. Qed.

Lemma R_plain r c t :
  is_newline c = false -> t <> EmptyString ->
  R r (String c t) = (r1 <- parse_process_char r (Some c) ;; R r1 t).
Proof.
  intros N T. destruct (newline_inv c N) as [NL NC]. unfold R. cbn [split_lines].
  rewrite NL, NC. destruct t as [|c' t']; [contradiction|].
  pose proof (split_lines_nonempty c' t') as E.
  destruct (split_lines (String c' t')) as [|l ls]; [contradiction|].
  cbn [reader_rows]. unfold feed_line. cbn [feed_chars].
  destruct (parse_process_char r (Some c)); reflexivity.
Qed.

Lemma R_LF r t :
  R r (String LF t)
  = (r1 <- parse_process_char r (Some LF) ;; r2 <- parse_process_char r1 None ;; after r2 t).
Proof.
  unfold R at 1. cbn [split_lines]. rewrite Ascii.eqb_refl.
  cbn [reader_rows]. unfold feed_line. cbn [feed_chars].
  destruct (parse_process_char r (Some LF)) as [r1|]; [|reflexivity]. cbn [obind].
  destruct (parse_process_char r1 None); reflexivity.
Qed.

Lemma R_CRLF r t :
  R r (String CR (String LF t))
  = (r1 <- parse_process_char r (Some CR) ;; r2 <- parse_process_char r1 (Some LF) ;;
     r3 <- parse_process_char r2 None ;; after r3 t).
Proof.
  unfold R at 1. cbn [split_lines].
  change (Ascii.eqb CR LF) with false. change (Ascii.eqb CR CR) with true.
  rewrite Ascii.eqb_refl. cbv iota.
  cbn [reader_rows]. unfold feed_line, CRLF. cbn [feed_chars].
  destruct (parse_process_char r (Some CR)) as [r1|]; [|reflexivity]. cbn [obind].
  destruct (parse_process_char r1 (Some LF)) as [r2|]; [|reflexivity]. cbn [obind].
  destruct (parse_process_char r2 None); reflexivity.
Qed.

Lemma R_CR r t :
  starts_with (String LF EmptyString) t = false ->
  R r (String CR t)
  = (r1 <- parse_process_char r (Some CR) ;; r2 <- parse_process_char r1 None ;; after r2 t).
Proof.
  intros S. unfold R at 1. cbn [split_lines].
  change (Ascii.eqb CR LF) with false. change (Ascii.eqb CR CR) with true. cbv iota.
  destruct t as [|c' t'].
  - cbn [reader_rows]. unfold feed_line. cbn [feed_chars].
    destruct (parse_process_char r (Some CR)) as [r1|]; [|reflexivity]. cbn [obind].
    destruct (parse_process_char r1 None); reflexivity.
  - cbn [starts_with] in S. rewrite andb_true_r, Ascii.eqb_sym in S. rewrite S.
    cbn [reader_rows]. unfold feed_line. cbn [feed_chars].
    destruct (parse_process_char r (Some CR)) as [r1|]; [|reflexivity]. cbn [obind].
    destruct (parse_process_char r1 None); reflexivity.
Qed.

Lemma add_char_ok r c :
  field_len r < field_limit ->
  parse_add_char r c = Ok (push r (String c EmptyString)).
Proof.
  intros L. unfold parse_add_char. apply Z.leb_gt in L. rewrite L. reflexivity.
Qed.

Lemma set_state_push st r s : set_state st (push r s) = push (set_state st r) s.
Proof. reflexivity. Qed.

Lemma set_state_set st st' r : set_state st (set_state st' r) = set_state st r.
Proof. reflexivity. Qed.

Lemma push_nil r : push r EmptyString = r.
Proof. destruct r. unfold push. cbn. f_equal. change (strlen EmptyString) with 0. lia. Qed.

Lemma append_cons_nonempty a c b : a +++ String c b <> EmptyString.
Proof. destruct a; discriminate. Qed.

Lemma step_quoted r c :
  state r = IN_QUOTED_FIELD -> Ascii.eqb c DQ = false ->
  parse_process_char r (Some c) = parse_add_char r c.
Proof. intros S Q. unfold parse_process_char. rewrite S, Q. reflexivity. Qed.

Lemma add_char_state r c r1 : parse_add_char r c = Ok r1 -> state r1 = state r.
Proof.
  unfold parse_add_char. destruct (field_limit <=? field_len r); [discriminate|].
  intros [= <-]. reflexivity.
Qed.

Lemma eol_quoted r : state r = IN_QUOTED_FIELD -> parse_process_char r None = Ok r.
Proof. intros S. unfold parse_process_char. rewrite S. reflexivity. Qed.

Lemma after_quoted r t : state r = IN_QUOTED_FIELD -> after r t = R r t.
Proof. intros S. unfold after. rewrite S. reflexivity. Qed.

(** Inside a quoted cell every character but the quote joins the cell,
    line breaks included. *)
Lemma R_in_quotes r c t :
  state r = IN_QUOTED_FIELD -> Ascii.eqb c DQ = false -> t <> EmptyString ->
  R r (String c t) = (r1 <- parse_add_char r c ;; R r1 t).
Proof.
  intros S Q T. destruct (is_newline c) eqn:N.
  - unfold is_newline in N. apply orb_true_iff in N.
    destruct N as [N|N]; apply Ascii.eqb_eq in N; subst c.
    + rewrite R_LF, (step_quoted _ _ S Q).
      destruct (parse_add_char r LF) as [r1|] eqn:A; [|reflexivity]. cbn [obind].
      pose proof (add_char_state _ _ _ A) as S1. rewrite S in S1.
      rewrite (eol_quoted _ S1). cbn [obind]. apply after_quoted, S1.
    + destruct t as [|c' t']; [contradiction|].
      destruct (Ascii.eqb_spec c' LF) as [->|NL].
      * rewrite R_CRLF, (step_quoted _ _ S Q).
        destruct (parse_add_char r CR) as [r1|] eqn:A; [|reflexivity]. cbn [obind].
        pose proof (add_char_state _ _ _ A) as S1. rewrite S in S1.
        rewrite R_LF. reflexivity.
      * rewrite R_CR, (step_quoted _ _ S Q).
        -- destruct (parse_add_char r CR) as [r1|] eqn:A; [|reflexivity]. cbn [obind].
           pose proof (add_char_state _ _ _ A) as S1. rewrite S in S1.
           rewrite (eol_quoted _ S1). cbn [obind]. apply after_quoted, S1.
        -- cbn [starts_with]. rewrite andb_true_r. apply Ascii.eqb_neq. congruence.
  - rewrite (R_plain _ _ _ N T), (step_quoted _ _ S Q). reflexivity.
Qed.

(** The content of a quoted cell, up to and with the closing quote. *)
Lemma R_quoted s : forall r rest,
  state r = IN_QUOTED_FIELD -> field_len r + strlen s <= field_limit ->
  rest <> EmptyString ->
  R r (double_quotes s +++ String DQ rest)
  = R (set_state QUOTE_IN_QUOTED_FIELD (push r s)) rest.
Proof.
  induction s as [|c s IH]; intros r rest S L T.
  - cbn [double_quotes append]. rewrite R_plain by (try reflexivity; exact T).
    unfold parse_process_char. rewrite S, Ascii.eqb_refl. cbn [obind].
    rewrite push_nil. reflexivity.
  - rewrite strlen_cons in L. pose proof (strlen_nonneg s).
    cbn [double_quotes]. destruct (Ascii.eqb_spec c DQ) as [->|NQ].
    + cbn [append]. rewrite R_plain by (try reflexivity; discriminate).
      unfold parse_process_char at 1. rewrite S, Ascii.eqb_refl. cbn [obind].
      rewrite R_plain by (try reflexivity; apply append_cons_nonempty).
      unfold parse_process_char. cbn [state set_state]. rewrite Ascii.eqb_refl.
      rewrite add_char_ok by (unfold set_state; cbn [field_len]; lia). cbn [obind].
      rewrite IH; [|reflexivity|unfold push, set_state; cbn [field_len]; change (strlen (String DQ EmptyString)) with 1; lia|exact T].
      f_equal. unfold push, set_state. cbn [state fields field field_len string_rev_onto].
      f_equal. rewrite !strlen_cons. change (strlen EmptyString) with 0. lia.
    + cbn [append]. apply Ascii.eqb_neq in NQ.
      rewrite R_in_quotes by (try assumption; apply append_cons_nonempty).
      rewrite add_char_ok by lia. cbn [obind].
      rewrite IH; [|exact S|unfold push; cbn [field_len]; change (strlen (String c EmptyString)) with 1; lia|exact T].
      f_equal. unfold push, set_state. cbn [state fields field field_len string_rev_onto].
      f_equal. rewrite !strlen_cons. change (strlen EmptyString) with 0. lia.
Qed.

(** *** Cells without quotes *)

Lemma append_nonempty_r a b : b <> EmptyString -> a +++ b <> EmptyString.
Proof. destruct a; [trivial|discriminate]. Qed.

Lemma special_inv c :
  special c = false ->
  is_newline c = false /\ Ascii.eqb c ","%char = false /\ Ascii.eqb c DQ = false.
Proof.
  unfold special, is_newline. intros H.
  repeat (apply orb_false_iff in H; destruct H as [H ?]).
  repeat split; try assumption. apply orb_false_iff. split; assumption.
Qed.

Lemma R_in_field s : forall r rest,
  needs_quote s = false -> state r = IN_FIELD ->
  field_len r + strlen s <= field_limit -> rest <> EmptyString ->
  R r (s +++ rest) = R (push r s) rest.
Proof.
  induction s as [|c s IH]; intros r rest Q S L T.
  - rewrite push_nil. reflexivity.
  - cbn [needs_quote] in Q. apply orb_false_iff in Q. destruct Q as [Qc Q].
    destruct (special_inv c Qc) as (N & C & D).
    rewrite strlen_cons in L. pose proof (strlen_nonneg s).
    cbn [append]. rewrite R_plain by (assumption || (apply append_nonempty_r; exact T)).
    unfold parse_process_char. rewrite S, N, C.
    rewrite add_char_ok by lia. cbn [obind].
    rewrite IH; [|exact Q|exact S|unfold push; cbn [field_len]; change (strlen (String c EmptyString)) with 1; lia|exact T].
    f_equal. unfold push. cbn [state fields field field_len string_rev_onto].
    f_equal. rewrite !strlen_cons. change (strlen EmptyString) with 0. lia.
Qed.

(** A written cell is read back into the open cell of the reader. *)
Lemma R_cell s r rest :
  at_cell r -> strlen s <= field_limit -> rest <> EmptyString ->
  exists st, cell_end st
    /\ R r (csv_cell s +++ rest) = R (mkreader st (fields r) (string_rev s) (strlen s)) rest.
Proof.
  intros (S & F & L) B T. unfold csv_cell. destruct (needs_quote s) eqn:Q.
  - exists QUOTE_IN_QUOTED_FIELD. split; [right; right; reflexivity|].
    cbn [append]. rewrite append_assoc. cbn [append].
    rewrite R_plain by (try reflexivity; apply append_cons_nonempty).
    unfold parse_process_char, start_field. rewrite S.
    change (is_newline DQ) with false. rewrite Ascii.eqb_refl. cbn [obind].
    rewrite R_quoted; [|reflexivity|unfold set_state; cbn [field_len]; lia|exact T].
    f_equal. unfold push, set_state. cbn [state fields field field_len].
    rewrite F, L. f_equal.
  - destruct s as [|c s].
    + exists START_FIELD. split; [left; reflexivity|]. cbn [append].
      f_equal. destruct r. cbn in *. subst. reflexivity.
    + exists IN_FIELD. split; [right; left; reflexivity|].
      cbn [needs_quote] in Q. apply orb_false_iff in Q. destruct Q as [Qc Q].
      destruct (special_inv c Qc) as (N & C & D).
      rewrite strlen_cons in B. pose proof (strlen_nonneg s).
      cbn [append]. rewrite R_plain by (assumption || (apply append_nonempty_r; exact T)).
      unfold parse_process_char, start_field. rewrite S, N, D, C.
      rewrite add_char_ok by lia. cbn [obind].
      rewrite R_in_field; [|exact Q|reflexivity|unfold push, set_state; cbn [field_len]; change (strlen (String c EmptyString)) with 1; lia|exact T].
      f_equal. unfold push, set_state. cbn [state fields field field_len string_rev_onto].
      rewrite F, L. f_equal. rewrite !strlen_cons. change (strlen EmptyString) with 0. lia.
Qed.

Lemma step_comma st fs f n :
  cell_end st ->
  parse_process_char (mkreader st fs f n) (Some ","%char)
  = Ok (mkreader START_FIELD (fs ++ [string_rev f]) EmptyString 0).
Proof. intros [->|[->| ->]]; reflexivity. Qed.

Lemma step_CR st fs f n :
  cell_end st ->
  parse_process_char (mkreader st fs f n) (Some CR)
  = Ok (mkreader EAT_CRNL (fs ++ [string_rev f]) EmptyString 0).
Proof. intros [->|[->| ->]]; reflexivity. Qed.

Lemma cell_comma s r rest :
  at_cell r -> strlen s <= field_limit -> rest <> EmptyString ->
  R r (csv_cell s +++ String "," rest)
  = R (mkreader START_FIELD (fields r ++ [s]) EmptyString 0) rest.
Proof.
  intros A B T. destruct (R_cell s r (String "," rest) A B) as (st & E & ->); [discriminate|].
  rewrite R_plain by (try reflexivity; exact T).
  rewrite (step_comma _ _ _ _ E). cbn [obind]. rewrite string_rev_involutive. reflexivity.
Qed.

Lemma cell_crlf s r rest :
  at_cell r -> strlen s <= field_limit ->
  R r (csv_cell s +++ CRLF +++ rest)
  = (rows <- R parse_reset rest ;; Ok ((fields r ++ [s]) :: rows)).
Proof.
  intros A B. destruct (R_cell s r (CRLF +++ rest) A B) as (st & E & ->); [discriminate|].
  unfold CRLF. cbn [append]. rewrite R_CRLF, (step_CR _ _ _ _ E). cbn [obind].
  rewrite string_rev_involutive. reflexivity.
Qed.

(** *** Rows and files *)

Lemma R_cells cells : forall r rest,
  at_cell r -> cells <> [] -> Forall (fun s => strlen s <= field_limit) cells ->
  R r (join "," (map csv_cell cells) +++ CRLF +++ rest)
  = (rows <- R parse_reset rest ;; Ok ((fields r ++ cells) :: rows)).
Proof.
  induction cells as [|c cells IH]; intros r rest A N B; [contradiction|].
  inversion B as [|? ? Bc B']. subst. destruct cells as [|c' cells].
  - cbn [map join]. apply cell_crlf; assumption.
  - change (join "," (map csv_cell (c :: c' :: cells)))
      with (csv_cell c +++ "," +++ join "," (map csv_cell (c' :: cells))).
    rewrite !append_assoc. cbn [append].
    rewrite cell_comma; [|exact A|exact Bc|].
    + rewrite IH; [|repeat split|discriminate|exact B'].
      cbn [fields]. rewrite <- app_assoc. reflexivity.
    + destruct (join "," (map csv_cell (c' :: cells))); discriminate.
Qed.

Lemma R_start r c t :
  state r = START_RECORD -> is_newline c = false -> t <> EmptyString ->
  R r (String c t) = R (set_state START_FIELD r) (String c t).
Proof.
  intros S N T. rewrite !R_plain by assumption.
  unfold parse_process_char. rewrite S. cbn [state set_state]. rewrite N. reflexivity.
Qed.

Lemma cell_first_char s u :
  u <> EmptyString ->
  exists c t, csv_cell s +++ String "," u = String c t
              /\ is_newline c = false /\ t <> EmptyString.
Proof.
  intros U. unfold csv_cell. destruct (needs_quote s) eqn:Q.
  - eexists _, _. cbn [append]. split; [reflexivity|]. split; [reflexivity|].
    rewrite append_assoc. apply append_cons_nonempty.
  - destruct s as [|c s].
    + exists ","%char, u. repeat split. exact U.
    + cbn [needs_quote] in Q. apply orb_false_iff in Q. destruct Q as [Qc Q].
      destruct (special_inv c Qc) as (N & _ & _).
      exists c, (s +++ String "," u). repeat split; [exact N|apply append_cons_nonempty].
Qed.

Lemma csv_row_two c1 c2 cells :
  csv_row (c1 :: c2 :: cells) = join "," (map csv_cell (c1 :: c2 :: cells)) +++ CRLF.
Proof. destruct c1; reflexivity. Qed.

Lemma R_row cells rest :
  row_fits cells ->
  R parse_reset (csv_row cells +++ rest)
  = (rows <- R parse_reset rest ;; Ok (cells :: rows)).
Proof.
  intros [L B]. destruct cells as [|c1 [|c2 cells]]; try (simpl in L; lia).
  rewrite csv_row_two, append_assoc.
  assert (E : R parse_reset (join "," (map csv_cell (c1 :: c2 :: cells)) +++ CRLF +++ rest)
              = R (set_state START_FIELD parse_reset)
                  (join "," (map csv_cell (c1 :: c2 :: cells)) +++ CRLF +++ rest)).
  { change (join "," (map csv_cell (c1 :: c2 :: cells)))
      with (csv_cell c1 +++ "," +++ join "," (map csv_cell (c2 :: cells))).
    rewrite !append_assoc. cbn [append].
    destruct (cell_first_char c1 (join "," (map csv_cell (c2 :: cells)) +++ CRLF +++ rest))
      as (c & t & -> & N & T).
    - apply append_nonempty_r. discriminate.
    - apply R_start; [reflexivity|exact N|exact T]. }
  rewrite E. rewrite R_cells; [reflexivity|repeat split|discriminate|exact B].
Qed.

Lemma csv_reader_rows_text rows :
  Forall row_fits rows -> csv_reader (rows_text rows) = Ok rows.
Proof.
  unfold csv_reader. change (reader_rows parse_reset (split_lines ?s)) with (R parse_reset s).
  induction 1 as [|cells rows F _ IH]; [reflexivity|].
  cbn [rows_text]. rewrite (R_row _ _ F), IH. reflexivity.
Qed.

(** *** Records through the csv file *)

Lemma fits_inv v :
  fits v = true ->
  exists dc, v = VDict dc /\ dict_to_list v = Ok (cells_of dc) /\ row_fits (cells_of dc).
Proof.
  destruct v as [| | | | |dc]; try discriminate. cbn [fits]. intros H.
  apply andb_prop in H. destruct H as [K B]. exists dc. split; [reflexivity|]. split.
  - assert (E : forallb (fun kv : key * value => known_field (fst kv)) dc = true).
    { clear B. induction dc as [|kv dc IH]; simpl in *; [reflexivity|].
      apply andb_prop in K. destruct K as [K1 K2]. rewrite K1. apply IH, K2. }
    unfold dict_to_list. rewrite E. reflexivity.
  - split; [unfold cells_of; rewrite length_map; simpl; lia|].
    apply Forall_forall. intros s I.
    rewrite forallb_forall in B. apply Z.leb_le, B, I.
Qed.

Lemma writerows_fits l :
  forallb fits l = true ->
  writerows l = (rows_text (map (fun v => match v with VDict dc => cells_of dc | _ => [] end) l),
                 None).
Proof.
  induction l as [|v l IH]; [reflexivity|]. cbn [forallb]. intros H.
  apply andb_prop in H. destruct H as [F H].
  destruct (fits_inv v F) as (dc & -> & D & _).
  cbn [writerows]. rewrite D, (IH H). reflexivity.
Qed.

Lemma row_dict_cells dc : row_dict fieldnames (cells_of dc) = csv_view (VDict dc).
Proof. reflexivity. Qed.

(** Writing records to the csv file and reading the file back. *)
Theorem csv_round_trip l :
  forallb fits l = true ->
  dict_reader (fst (csv_dump (VList l))) = Ok (map csv_view l).
Proof.
  intros F. unfold csv_dump. cbn [py_iter]. rewrite (writerows_fits l F). cbn [fst].
  unfold dict_reader.
  change (csv_row fieldnames +++ rows_text ?rs) with (rows_text (fieldnames :: rs)).
  rewrite csv_reader_rows_text.
  - cbn [obind]. f_equal. induction l as [|v l IH]; [reflexivity|].
    cbn [forallb] in F. apply andb_prop in F. destruct F as [Fv F].
    destruct (fits_inv v Fv) as (dc & -> & _ & _).
    cbn [map filter]. change (is_nil (cells_of dc)) with false. cbn [negb map].
    rewrite row_dict_cells, (IH F). reflexivity.
  - constructor.
    + split; [simpl; lia|]. repeat constructor; unfold field_limit, strlen; simpl; lia.
    + apply Forall_forall. intros cells I. apply in_map_iff in I.
      destruct I as (v & <- & I). rewrite forallb_forall in F.
      destruct (fits_inv v (F v I)) as (dc & -> & _ & RF). exact RF.
Qed.

Local Arguments is_digit : simpl never.
Local Arguments is_space : simpl never.
Local Arguments Ascii.eqb : simpl never.

(** *** Text written by the json encoder: strings *)

Lemma json_escape_cons c s : json_escape (String c s) = esc c +++ json_escape s.
Proof.
  unfold esc. cbn [json_escape].
  repeat match goal with
  | |- context [if ?b then _ else _] => destruct b
  end; reflexivity.
Qed.

Lemma hex_char_val n : 0 <= n < 16 -> hex_val (hex_char n) = Some n.
Proof.
  intros H.
  assert (C : exists k, (k < 16)%nat /\ n = Z.of_nat k) by (exists (Z.to_nat n); lia).
  destruct C as (k & B & ->).
  do 16 (destruct k as [|k]; [reflexivity|]). lia.
Qed.

Lemma code_bound c : 0 <= code c < 256.
Proof. unfold code. pose proof (nat_ascii_bounded c). lia. Qed.

Lemma chr_code c : chr (Z.to_nat (code c)) = c.
Proof. unfold chr, code. rewrite Nat2Z.id. apply ascii_nat_embedding. Qed.

Lemma decode_hex4 c t : decode_uXXXX (hex4 c +++ t) = Ok (code c, t).
Proof.
  unfold hex4, hex2. cbn [append decode_uXXXX].
  pose proof (code_bound c) as B.
  change (hex_val "0") with (Some 0).
  rewrite !hex_char_val.
  - f_equal. f_equal. pose proof (Z.div_mod (code c) 16). lia.
  - apply Z.mod_pos_bound. lia.
  - split; [apply Z.div_pos; lia|apply Z.div_lt_upper_bound; lia].
Qed.

(** One turn of [scanstring] reads the escape of one character. *)
Lemma scanstring_esc c f t acc :
  scanstring (S f) (esc c +++ t) acc = scanstring f t (String c acc).
Proof.
  unfold esc. cbn [json_escape].
  destruct (Ascii.eqb_spec c DQ) as [->|N1]; [reflexivity|].
  destruct (Ascii.eqb_spec c "\") as [->|N2]; [reflexivity|].
  destruct (Ascii.eqb_spec c (chr 8)) as [->|N3]; [reflexivity|].
  destruct (Ascii.eqb_spec c (chr 12)) as [->|N4]; [reflexivity|].
  destruct (Ascii.eqb_spec c LF) as [->|N5]; [reflexivity|].
  destruct (Ascii.eqb_spec c CR) as [->|N6]; [reflexivity|].
  destruct (Ascii.eqb_spec c (chr 9)) as [->|N7]; [reflexivity|].
  destruct ((32 <=? code c) && (code c <=? 126)) eqn:P.
  - apply andb_prop in P. destruct P as [P1 P2]. apply Z.leb_le in P1.
    cbn [append scanstring].
    apply Ascii.eqb_neq in N1, N2. rewrite N1, N2.
    assert (E : (code c <? 32) = false) by (apply Z.ltb_ge; lia). rewrite E. reflexivity.
  - rewrite append_nil_r, append_assoc. cbn [append scanstring].
    change (Ascii.eqb "\" DQ) with false. change (Ascii.eqb "\" "\") with true.
    change (Ascii.eqb "u" "u") with true. cbv iota.
    rewrite decode_hex4. cbn [obind fst snd].
    pose proof (code_bound c) as B.
    assert (E : (code c <? 256) = true) by (apply Z.ltb_lt; lia). rewrite E, chr_code.
    reflexivity.
Qed.

Lemma scanstring_escape s : forall f t acc,
  (String.length s < f)%nat ->
  scanstring f (json_escape s +++ String DQ t) acc
  = Ok (string_rev (string_rev_onto s acc), t).
Proof.
  induction s as [|c s IH]; intros f t acc L.
  - destruct f as [|f]; [simpl in L; lia|]. cbn [json_escape append scanstring].
    rewrite Ascii.eqb_refl. reflexivity.
  - destruct f as [|f]; [simpl in L; lia|]. simpl in L.
    rewrite json_escape_cons, append_assoc, scanstring_esc, IH by lia. reflexivity.
Qed.

(** *** Text written by the json encoder: integers *)

Lemma all_digits_append a b : all_digits (a +++ b) = all_digits a && all_digits b.
Proof. induction a as [|c a IH]; simpl; [reflexivity|]. rewrite IH, andb_assoc. reflexivity. Qed.

Lemma dec_digits_shape fuel : forall n acc,
  0 <= n < 2 ^ Z.of_nat fuel ->
  exists ds, dec_digits fuel n acc = ds +++ acc /\ all_digits ds = true
             /\ (0 < n -> exists c t, ds = String c t /\ c <> "0"%char).
Proof.
  induction fuel as [|f IH]; intros n acc B.
  - exists EmptyString. simpl in B. repeat split. lia.
  - cbn [dec_digits].
    assert (M : 0 <= n mod 10 <= 9) by (pose proof (Z.mod_pos_bound n 10); lia).
    destruct (digit_char_ok _ M) as [D V].
    destruct (n <? 10) eqn:E.
    + apply Z.ltb_lt in E. exists (String (digit_char (n mod 10)) EmptyString).
      split; [reflexivity|]. split; [simpl; rewrite D; reflexivity|].
      intros P. eexists _, _. split; [reflexivity|]. intros C. rewrite C in V.
      rewrite Z.mod_small in V by lia. change (digit_val "0") with 0 in V. lia.
    + apply Z.ltb_ge in E.
      assert (B' : 0 <= n / 10 < 2 ^ Z.of_nat f).
      { rewrite Nat2Z.inj_succ, Z.pow_succ_r in B by lia.
        split; [apply Z.div_pos; lia|apply Z.div_lt_upper_bound; lia]. }
      destruct (IH (n / 10) (String (digit_char (n mod 10)) acc) B') as (ds & -> & A & F).
      exists (ds +++ String (digit_char (n mod 10)) EmptyString).
      split; [rewrite append_assoc; reflexivity|].
      split; [rewrite all_digits_append, A; simpl; rewrite D; reflexivity|].
      intros _. destruct F as (c & t & -> & N).
      * assert (1 <= n / 10) by (apply Z.div_le_lower_bound; lia). lia.
      * eexists _, _. split; [reflexivity|exact N].
Qed.

Lemma str_of_nonneg_shape n :
  0 <= n ->
  all_digits (str_of_nonneg n) = true
  /\ exists c t, str_of_nonneg n = String c t /\ (n = 0 -> t = EmptyString)
                 /\ (0 < n -> c <> "0"%char).
Proof.
  intros H. unfold str_of_nonneg.
  assert (B : 0 <= n < 2 ^ Z.of_nat (S (Z.to_nat (Z.log2 n)))).
  { split; [exact H|]. rewrite Nat2Z.inj_succ, Z2Nat.id by apply Z.log2_nonneg.
    destruct (Z.eq_dec n 0) as [->|N]; [reflexivity|]. apply Z.log2_spec. lia. }
  destruct (dec_digits_shape _ n EmptyString B) as (ds & E & A & F).
  rewrite E, append_nil_r. split; [exact A|].
  destruct (Z.eq_dec n 0) as [->|N].
  - exists "0"%char, EmptyString. split; [|split; [reflexivity|lia]].
    rewrite <- (append_nil_r ds), <- E. reflexivity.
  - destruct F as (c & t & -> & Nc); [lia|]. exists c, t. split; [reflexivity|].
    split; [lia|intros _; exact Nc].
Qed.

Lemma span_digits_append ds rest :
  all_digits ds = true -> starts_digit rest = false ->
  span_digits (ds +++ rest) = (ds, rest).
Proof.
  intros A S. induction ds as [|c ds IH]; simpl in *.
  - destruct rest as [|c t]; [reflexivity|]. simpl in S |- *. rewrite S. reflexivity.
  - apply andb_prop in A. destruct A as [A1 A2]. rewrite A1, (IH A2). reflexivity.
Qed.

Lemma no_space_rev_onto s : forall acc,
  no_space (string_rev_onto s acc) = no_space s && no_space acc.
Proof.
  induction s as [|c s IH]; intros acc; simpl; [reflexivity|].
  rewrite IH. simpl. destruct (is_space c), (no_space s); reflexivity.
Qed.

Lemma lstrip_no_space s : no_space s = true -> lstrip s = s.
Proof.
  destruct s as [|c s]; [reflexivity|]. simpl. intros H. apply andb_prop in H.
  destruct H as [H _]. apply negb_true_iff in H. rewrite H. reflexivity.
Qed.

Lemma strip_no_space s : no_space s = true -> strip s = s.
Proof.
  intros H. unfold strip. rewrite (lstrip_no_space s H), lstrip_no_space.
  - apply string_rev_involutive.
  - unfold string_rev. rewrite no_space_rev_onto, H. reflexivity.
Qed.

Lemma digits_no_space s : all_digits s = true -> no_space s = true.
Proof.
  induction s as [|c s IH]; simpl; [reflexivity|]. intros H. apply andb_prop in H.
  destruct H as [D A]. destruct (digit_inv c D) as (Sp & _). rewrite Sp, (IH A). reflexivity.
Qed.

Lemma py_int_str_of_Z z : py_int (str_of_Z z) = Ok z.
Proof.
  unfold str_of_Z. destruct (z <? 0) eqn:E.
  - apply Z.ltb_lt in E. assert (P : 0 <= - z) by lia.
    destruct (str_of_nonneg_shape _ P) as (A & c & t & S & _).
    unfold py_int. rewrite strip_no_space by (simpl; rewrite (digits_no_space _ A); reflexivity).
    change (Ascii.eqb "-" "-") with true. cbv iota.
    unfold int_unsigned. rewrite S. rewrite S in A. simpl in A. apply andb_prop in A.
    destruct A as [D _]. rewrite D, <- S, (int_digits_str _ P). simpl. f_equal. lia.
  - apply Z.ltb_ge in E.
    destruct (str_of_nonneg_shape _ E) as (A & c & t & S & _).
    unfold py_int. rewrite strip_no_space by (apply digits_no_space, A).
    rewrite S. rewrite S in A. simpl in A. apply andb_prop in A. destruct A as [D _].
    destruct (digit_inv c D) as (_ & Hm & Hp & _). rewrite Hm, Hp.
    unfold int_unsigned. rewrite D, <- S, (int_digits_str _ E). reflexivity.
Qed.

(** *** Scalars *)

Lemma value_ends_inv rest :
  value_ends rest = true ->
  exists c t, rest = String c t /\ (c = ","%char \/ c = LF).
Proof.
  destruct rest as [|c t]; [discriminate|]. simpl. intros H. exists c, t. split; [reflexivity|].
  apply orb_true_iff in H. destruct H as [H|H]; apply Ascii.eqb_eq in H; auto.
Qed.

Lemma value_ends_facts rest :
  value_ends rest = true ->
  starts_digit rest = false /\ float_tail rest = false.
Proof.
  intros H. destruct (value_ends_inv _ H) as (c & t & -> & [->| ->]); split; reflexivity.
Qed.

Lemma number_start_facts c :
  implb (is_digit c || Ascii.eqb c "-")
    (negb (Ascii.eqb c DQ) && negb (Ascii.eqb c "{") && negb (Ascii.eqb c "[")
     && negb (Ascii.eqb "n" c) && negb (Ascii.eqb "t" c) && negb (Ascii.eqb "f" c)
     && negb (is_ws c)) = true.
Proof. revert c. by_enum. Qed.

Lemma scan_once_number c t f :
  is_digit c || Ascii.eqb c "-" = true ->
  scan_once (S f) (String c t) = scan_number (String c t).
Proof.
  intros H. pose proof (number_start_facts c) as F. rewrite H in F. cbn [implb] in F.
  repeat (apply andb_prop in F; destruct F as [F ?]).
  repeat match goal with H : negb _ = true |- _ => apply negb_true_iff in H end.
  cbn [scan_once starts_with]. rw_facts. reflexivity.
Qed.

Lemma match_integer_body sign n rest :
  0 <= n -> starts_digit rest = false ->
  match str_of_nonneg n +++ rest with
  | String c t =>
      if Ascii.eqb c "0"%char then Some (sign +++ "0", t)
      else if is_digit c then
        let r := span_digits t in Some (sign +++ String c (fst r), snd r)
      else None
  | EmptyString => None
  end = Some (sign +++ str_of_nonneg n, rest).
Proof.
  intros P S. destruct (str_of_nonneg_shape n P) as (A & c & t & E & Z0 & NZ).
  rewrite E in A |- *. cbn [all_digits] in A. apply andb_prop in A. destruct A as [D A].
  cbn [append].
  destruct (Ascii.eqb_spec c "0") as [->|N].
  - destruct (Z.eq_dec n 0) as [->|N0]; [|exfalso; apply NZ; [lia|reflexivity]].
    rewrite (Z0 eq_refl). reflexivity.
  - rewrite D, (span_digits_append _ _ A S). reflexivity.
Qed.

Lemma match_integer_str_of_Z z rest :
  starts_digit rest = false ->
  match_integer (str_of_Z z +++ rest) = Some (str_of_Z z, rest).
Proof.
  intros S. unfold str_of_Z. destruct (z <? 0) eqn:E.
  - apply Z.ltb_lt in E. assert (P : 0 <= - z) by lia.
    unfold match_integer. cbn [append starts_with drop].
    change (Ascii.eqb "-" "-") with true. cbn [andb].
    apply (match_integer_body "-" _ _ P S).
  - apply Z.ltb_ge in E.
    destruct (str_of_nonneg_shape z E) as (A & c & t & Sh & _).
    pose proof (match_integer_body EmptyString _ _ E S) as M.
    rewrite Sh in A. cbn [all_digits] in A. apply andb_prop in A. destruct A as [D A].
    destruct (digit_inv c D) as (_ & Hm & _).
    unfold match_integer. rewrite Sh in M |- *. cbn [append starts_with] in M |- *.
    rewrite Ascii.eqb_sym, Hm. cbn [andb]. exact M.
Qed.

Lemma str_of_Z_start z :
  exists c t, str_of_Z z = String c t /\ is_digit c || Ascii.eqb c "-" = true.
Proof.
  unfold str_of_Z. destruct (z <? 0) eqn:E.
  - eexists _, _. split; reflexivity.
  - apply Z.ltb_ge in E. destruct (str_of_nonneg_shape _ E) as (A & c & t & Sh & _).
    exists c, t. split; [exact Sh|]. rewrite Sh in A. cbn [all_digits] in A.
    apply andb_prop in A. destruct A as [D _]. rewrite D. reflexivity.
Qed.

Lemma length_json_escape s : (String.length s <= String.length (json_escape s))%nat.
Proof.
  induction s as [|c s IH]; [simpl; lia|]. cbn [json_escape String.length].
  repeat match goal with
  | |- context [if ?b then _ else _] => destruct b
  end; cbn [append String.length]; try lia.
  unfold hex4, hex2. cbn [append String.length]. lia.
Qed.

Lemma length_append a b : String.length (a +++ b) = (String.length a + String.length b)%nat.
Proof. induction a as [|c a IH]; simpl; [reflexivity|]. rewrite IH. reflexivity. Qed.

(** A scalar is read back from its text, whatever fuel is left. *)
Lemma scan_scalar v lvl f rest :
  scalar v = true -> value_ends rest = true ->
  scan_once (S f) (json_encode lvl v +++ rest) = Ok (v, rest).
Proof.
  intros Sc E. destruct (value_ends_facts _ E) as (SD & FT).
  destruct v as [|[|]|z|s| |]; try discriminate; cbn [json_encode].
  - reflexivity.
  - reflexivity.
  - reflexivity.
  - destruct (str_of_Z_start z) as (c & t & Sh & St).
    pose proof (match_integer_str_of_Z z rest SD) as M. rewrite Sh in M |- *.
    cbn [append] in M |- *. rewrite (scan_once_number _ _ _ St).
    unfold scan_number. rewrite M, FT, <- Sh, py_int_str_of_Z. reflexivity.
  - unfold json_string. cbn [append scan_once]. rewrite Ascii.eqb_refl.
    rewrite append_assoc. cbn [append].
    rewrite scanstring_escape.
    + cbn [obind fst snd]. cbn [string_rev_onto].
      change (string_rev_onto s EmptyString) with (string_rev s).
      rewrite string_rev_involutive. reflexivity.
    + rewrite length_append. pose proof (length_json_escape s). simpl. lia.
Qed.

(** *** Records *)

Lemma skip_ws_plain s : starts_plain s = true -> skip_ws s = s.
Proof.
  destruct s as [|c t]; [discriminate|]. cbn [starts_plain skip_ws]. intros H.
  apply negb_true_iff in H. rewrite H. reflexivity.
Qed.

Lemma starts_plain_append a b : starts_plain a = true -> starts_plain (a +++ b) = true.
Proof. destruct a; [discriminate|trivial]. Qed.

Lemma skip_ws_spaces n s : skip_ws (repeat_string n "    " +++ s) = skip_ws s.
Proof. induction n as [|n IH]; [reflexivity|]. cbn [repeat_string append]. exact IH. Qed.

Lemma skip_ws_indent n s : skip_ws (newline_indent n +++ s) = skip_ws s.
Proof. unfold newline_indent. cbn [append skip_ws]. apply skip_ws_spaces. Qed.

Lemma scalar_starts_plain v lvl :
  scalar v = true -> starts_plain (json_encode lvl v) = true.
Proof.
  destruct v as [|[|]|z|s| |]; try discriminate; intros _; try reflexivity.
  cbn [json_encode]. destruct (str_of_Z_start z) as (c & t & -> & St).
  pose proof (number_start_facts c) as F. rewrite St in F. cbn [implb] in F.
  repeat (apply andb_prop in F; destruct F as [F ?]). assumption.
Qed.

Lemma json_encode_dict level kv dc :
  json_encode level (VDict (kv :: dc))
  = "{" +++ newline_indent (S level) +++ entries_text (S level) (kv :: dc)
    +++ newline_indent level +++ "}".
Proof. reflexivity. Qed.

Lemma entry_text_starts level kv : starts_plain (entry_text level kv) = true.
Proof. destruct kv as [[|k] v]; reflexivity. Qed.

Lemma entries_text_starts level kv dc : starts_plain (entries_text level (kv :: dc)) = true.
Proof.
  unfold entries_text. cbn [map join]. destruct (map (entry_text level) dc).
  - apply entry_text_starts.
  - apply starts_plain_append, entry_text_starts.
Qed.

Lemma value_ends_indent n s : value_ends (newline_indent n +++ s) = true.
Proof. reflexivity. Qed.

Lemma entries_text_cons level kv kv' dc :
  entries_text level (kv :: kv' :: dc)
  = entry_text level kv +++ "," +++ newline_indent level +++ entries_text level (kv' :: dc).
Proof. reflexivity. Qed.

Lemma entries_text_one level kv : entries_text level [kv] = entry_text level kv.
Proof. reflexivity. Qed.

(** One entry, in the loop of [JSONObject]. *)
Lemma object_entry level k v f tail acc :
  scalar v = true -> value_ends tail = true ->
  json_object (S (S f)) (entry_text level (KStr k, v) +++ tail) acc
  = match skip_ws tail with
    | String c t2 =>
        if Ascii.eqb c "}"%char then Ok (acc ++ [(KStr k, v)], t2)
        else if Ascii.eqb c ","%char
             then json_object (S f) (skip_ws t2) (acc ++ [(KStr k, v)])
             else Raise JSONDecodeError
    | EmptyString => Raise JSONDecodeError
    end.
Proof.
  intros Sc E. unfold entry_text, json_key, json_string. cbn [fst snd].
  rewrite !append_assoc. cbn [append]. rewrite !append_assoc. cbn [append].
  cbn [json_object starts_with drop]. rewrite Ascii.eqb_refl. cbn [andb].
  rewrite scanstring_escape.
  - cbn [obind fst snd string_rev_onto].
    change (string_rev_onto k EmptyString) with (string_rev k).
    rewrite string_rev_involutive.
    cbn [skip_ws]. change (is_ws ":") with false. cbv iota.
    cbn [starts_with drop]. change (Ascii.eqb ":" ":") with true. cbn [andb skip_ws].
    change (is_ws " ") with true. cbv iota.
    rewrite skip_ws_plain by (apply starts_plain_append, scalar_starts_plain, Sc).
    rewrite (scan_scalar v level f tail Sc E). reflexivity.
  - cbn [String.length]. rewrite length_append. pose proof (length_json_escape k). lia.
Qed.

Lemma object_loop level dc : forall acc f rest,
  dc <> [] -> forallb entry_ok dc = true -> (List.length dc < f)%nat ->
  json_object f (entries_text (S level) dc +++ newline_indent level +++ String "}" rest) acc
  = Ok (acc ++ dc, rest).
Proof.
  induction dc as [|[k v] dc IH]; intros acc f rest N A L; [contradiction|].
  cbn [forallb] in A. apply andb_prop in A. destruct A as [A1 A2].
  unfold entry_ok in A1. cbn [fst snd] in A1. destruct k as [|k]; [discriminate|].
  destruct f as [|[|f]]; try (simpl in L; lia).
  destruct dc as [|kv dc].
  - rewrite entries_text_one.
    rewrite object_entry by (try assumption; apply value_ends_indent).
    rewrite skip_ws_indent. cbn [skip_ws]. change (is_ws "}") with false. cbv iota.
    rewrite Ascii.eqb_refl. reflexivity.
  - rewrite entries_text_cons, !append_assoc.
    rewrite object_entry by (try assumption; reflexivity).
    cbn [append skip_ws]. change (is_ws ",") with false. cbv iota.
    change (Ascii.eqb "," "}") with false. rewrite Ascii.eqb_refl. cbv iota.
    rewrite skip_ws_indent.
    rewrite skip_ws_plain by (apply starts_plain_append, entries_text_starts).
    rewrite IH; [|discriminate|exact A2|simpl in L |- *; lia].
    rewrite <- app_assoc. reflexivity.
Qed.

Lemma dict_set_fresh dc k v :
  ~ In k (map fst dc) -> dict_set dc k v = dc ++ [(k, v)].
Proof.
  induction dc as [|[k1 v1] dc IH]; intros N; cbn [dict_set app]; [reflexivity|].
  rewrite key_eqb_neq by (intros ->; apply N; left; reflexivity).
  rewrite IH by (intros I; apply N; right; exact I). reflexivity.
Qed.

Lemma dict_update_fresh dc : forall acc,
  NoDup (map fst dc) -> (forall k, In k (map fst dc) -> ~ In k (map fst acc)) ->
  dict_update acc dc = acc ++ dc.
Proof.
  unfold dict_update. induction dc as [|[k v] dc IH]; intros acc D F; cbn [fold_left fst snd].
  - rewrite app_nil_r. reflexivity.
  - cbn [map fst] in D. inversion D as [|? ? N D']. subst.
    rewrite dict_set_fresh by (apply F; left; reflexivity).
    rewrite IH; [rewrite <- app_assoc; reflexivity|exact D'|].
    intros k' I. rewrite map_app, in_app_iff. intros [J|[J|[]]].
    + exact (F k' (or_intror I) J).
    + cbn [fst] in J. subst k'. exact (N I).
Qed.

Lemma dict_of_pairs_id dc : NoDup (map fst dc) -> dict_of_pairs dc = dc.
Proof.
  intros D. unfold dict_of_pairs. rewrite dict_update_fresh; [reflexivity|exact D|].
  intros k _ [].
Qed.

Lemma entries_text_first level kv dc :
  exists t, entries_text level (kv :: dc) = String DQ t.
Proof.
  destruct dc as [|kv' dc].
  - rewrite entries_text_one. destruct kv as [[|k] v]; eexists; reflexivity.
  - rewrite entries_text_cons. destruct kv as [[|k] v]; eexists; reflexivity.
Qed.

Lemma scan_record level v f rest :
  flat v -> (S (width v) < f)%nat ->
  scan_once f (json_encode level v +++ rest) = Ok (v, rest).
Proof.
  intros (dc & -> & A & D) L. cbn [width] in L.
  destruct f as [|f]; [lia|]. destruct dc as [|kv dc].
  - reflexivity.
  - rewrite json_encode_dict, !append_assoc. cbn [append scan_once].
    change (Ascii.eqb "{" DQ) with false. change (Ascii.eqb "{" "{") with true. cbv iota.
    rewrite skip_ws_indent.
    assert (P : starts_plain (entries_text (S level) (kv :: dc) +++ newline_indent level
                              +++ String "}" rest) = true)
      by apply starts_plain_append, entries_text_starts.
    rewrite (skip_ws_plain _ P).
    assert (Q : starts_with "}" (entries_text (S level) (kv :: dc) +++ newline_indent level
                                 +++ String "}" rest) = false).
    { destruct (entries_text_first (S level) kv dc) as (t & ->). reflexivity. }
    rewrite Q, object_loop; [|discriminate|exact A|lia].
    cbn [obind fst snd app]. rewrite (dict_of_pairs_id _ D). reflexivity.
Qed.

(** *** Lists of records *)

Lemma items_text_cons level v v' l :
  items_text level (v :: v' :: l)
  = json_encode level v +++ "," +++ newline_indent level +++ items_text level (v' :: l).
Proof. reflexivity. Qed.

Lemma items_text_one level v : items_text level [v] = json_encode level v.
Proof. reflexivity. Qed.

Lemma json_encode_list level v l :
  json_encode level (VList (v :: l))
  = "[" +++ newline_indent (S level) +++ items_text (S level) (v :: l)
    +++ newline_indent level +++ "]".
Proof. reflexivity. Qed.

Lemma flat_starts level v : flat v -> starts_plain (json_encode level v) = true.
Proof. intros (dc & -> & _). destruct dc; reflexivity. Qed.

Lemma items_text_starts level v l :
  flat v -> starts_plain (items_text level (v :: l)) = true.
Proof.
  intros F. destruct l as [|v' l].
  - rewrite items_text_one. apply flat_starts, F.
  - rewrite items_text_cons. apply starts_plain_append, flat_starts, F.
Qed.

Lemma array_loop level w l : forall acc f rest,
  l <> [] -> Forall flat l -> Forall (fun v => (width v <= w)%nat) l ->
  (List.length l + w + 2 <= f)%nat ->
  json_array f (items_text (S level) l +++ newline_indent level +++ String "]" rest) acc
  = Ok (acc ++ l, rest).
Proof.
  induction l as [|v l IH]; intros acc f rest N F W L; [contradiction|].
  inversion F as [|? ? Fv F']. inversion W as [|? ? Wv W']. subst.
  destruct f as [|f]; [simpl in L; lia|]. simpl in L.
  destruct l as [|v' l].
  - rewrite items_text_one. cbn [json_array].
    rewrite scan_record by (try assumption; lia). cbn [obind fst snd].
    rewrite skip_ws_indent. cbn [skip_ws]. change (is_ws "]") with false. cbv iota.
    rewrite Ascii.eqb_refl. reflexivity.
  - rewrite items_text_cons, !append_assoc. cbn [json_array].
    rewrite scan_record by (try assumption; lia). cbn [obind fst snd].
    cbn [append skip_ws]. change (is_ws ",") with false. cbv iota.
    change (Ascii.eqb "," "]") with false. rewrite Ascii.eqb_refl. cbv iota.
    rewrite skip_ws_indent.
    inversion F' as [|? ? Fv' _]. subst.
    rewrite skip_ws_plain by (apply starts_plain_append, items_text_starts, Fv').
    rewrite IH; [|discriminate|exact F'|exact W'|simpl in L |- *; lia].
    rewrite <- app_assoc. reflexivity.
Qed.

(** *** The fuel the text brings *)

Lemma length_join sep xs :
  (list_sum (map String.length xs) <= String.length (join sep xs))%nat.
Proof.
  induction xs as [|x xs IH]; [simpl; lia|]. destruct xs as [|y xs].
  - simpl. lia.
  - change (join sep (x :: y :: xs)) with (x +++ sep +++ join sep (y :: xs)).
    rewrite !length_append. unfold list_sum in *. cbn [map fold_right] in IH |- *. lia.
Qed.

Lemma length_entries level dc :
  (List.length dc <= String.length (entries_text level dc))%nat.
Proof.
  unfold entries_text. etransitivity; [|apply length_join].
  rewrite map_map. induction dc as [|kv dc IH]; [simpl; lia|].
  unfold list_sum in *. cbn [map fold_right List.length] in IH |- *. unfold entry_text at 1.
  rewrite !length_append. cbn [String.length]. lia.
Qed.

Lemma length_record level v : (width v < String.length (json_encode level v))%nat.
Proof.
  destruct v as [|[|]|z|s|l|dc]; cbn [width]; try (simpl; lia).
  - cbn [json_encode]. destruct (str_of_Z_start z) as (c & t & -> & _). simpl. lia.
  - destruct l; simpl; lia.
  - destruct dc as [|kv dc]; [simpl; lia|]. rewrite json_encode_dict.
    rewrite !length_append. pose proof (length_entries (S level) (kv :: dc)). simpl in *. lia.
Qed.

Lemma length_items level l :
  (List.length l + total l <= String.length (items_text level l))%nat.
Proof.
  unfold items_text, total. etransitivity; [|apply length_join].
  rewrite map_map. induction l as [|v l IH]; [simpl; lia|].
  unfold list_sum in *. cbn [map fold_right List.length] in IH |- *.
  pose proof (length_record level v). lia.
Qed.

Lemma width_total l : Forall (fun v => (width v <= total l)%nat) l.
Proof.
  unfold total. induction l as [|v l IH]; constructor.
  - unfold list_sum. cbn [map fold_right]. lia.
  - eapply Forall_impl; [|exact IH]. unfold list_sum. cbn [map fold_right]. intros. lia.
Qed.

(** [json.loads] gives back the list of records that was dumped. *)
Lemma json_loads_dump l :
  Forall flat l -> json_loads (json_dump (VList l)) = Ok (VList l).
Proof.
  intros F. unfold json_loads, json_dump. destruct l as [|v l]; [reflexivity|].
  rewrite json_encode_list.
  set (text := "[" +++ newline_indent 1 +++ items_text 1 (v :: l) +++ newline_indent 0 +++ "]").
  assert (B : (List.length (v :: l) + total (v :: l) + 2 <= String.length text)%nat).
  { unfold text. rewrite !length_append. pose proof (length_items 1 (v :: l)).
    simpl in *. lia. }
  unfold text in *. cbn [append skip_ws] in B |- *.
  change (is_ws "[") with false. cbv iota. cbn [scan_once].
  change (Ascii.eqb "[" DQ) with false. change (Ascii.eqb "[" "{") with false.
  change (Ascii.eqb "[" "[") with true. cbv iota.
  change (String LF (repeat_string 1 "    " +++ items_text 1 (v :: l) +++ String LF (String "]" EmptyString)))
    with (newline_indent 1 +++ items_text 1 (v :: l) +++ newline_indent 0 +++ String "]" EmptyString)
    in B |- *.
  rewrite skip_ws_indent.
  inversion F as [|? ? Fv F']. subst.
  assert (P : starts_plain (items_text 1 (v :: l) +++ newline_indent 0 +++ String "]" EmptyString)
              = true) by apply starts_plain_append, items_text_starts, Fv.
  rewrite (skip_ws_plain _ P).
  assert (Q : starts_with "]" (items_text 1 (v :: l) +++ newline_indent 0
                               +++ String "]" EmptyString) = false).
  { destruct Fv as (dc & -> & _). destruct l as [|v' l].
    - rewrite items_text_one. destruct dc; reflexivity.
    - rewrite items_text_cons. destruct dc; reflexivity. }
  rewrite Q.
  rewrite (array_loop 0 (total (v :: l))); [reflexivity|discriminate|exact F|apply width_total|].
  lia.
Qed.

(** *** The dumped text holds no carriage return *)

Lemma contains_char_append c a b :
  contains_char c (a +++ b) = contains_char c a || contains_char c b.
Proof.
  induction a as [|x a IH]; cbn [append contains_char]; [reflexivity|].
  rewrite IH, orb_assoc. reflexivity.
Qed.

Lemma cr_free_append a b : cr_free a -> cr_free b -> cr_free (a +++ b).
Proof. unfold cr_free. intros A B. rewrite contains_char_append, A, B. reflexivity. Qed.

Lemma universal_newlines_cr_free s : cr_free s -> universal_newlines s = s.
Proof.
  unfold cr_free. induction s as [|c s IH]; [reflexivity|]. cbn [contains_char universal_newlines].
  intros H. apply orb_false_iff in H. destruct H as [H1 H2]. rewrite H1, (IH H2). reflexivity.
Qed.

Lemma cr_free_esc c : cr_free (esc c).
Proof.
  unfold cr_free.
  assert (E : negb (contains_char CR (esc c)) = true) by (revert c; by_enum).
  apply negb_true_iff in E. exact E.
Qed.

Lemma cr_free_escape s : cr_free (json_escape s).
Proof.
  induction s as [|c s IH]; [reflexivity|]. rewrite json_escape_cons.
  apply cr_free_append; [apply cr_free_esc|exact IH].
Qed.

Lemma cr_free_json_string s : cr_free (json_string s).
Proof.
  unfold json_string. change (String DQ ?t) with (String DQ EmptyString +++ t).
  apply cr_free_append; [reflexivity|]. apply cr_free_append; [apply cr_free_escape|reflexivity].
Qed.

Lemma digit_not_CR c : is_digit c = true -> Ascii.eqb c CR = false.
Proof.
  intros H. assert (E : implb (is_digit c) (negb (Ascii.eqb c CR)) = true) by (revert c H; intros c _; revert c; by_enum).
  rewrite H in E. apply negb_true_iff in E. exact E.
Qed.

Lemma cr_free_digits s : all_digits s = true -> cr_free s.
Proof.
  unfold cr_free. induction s as [|c s IH]; [reflexivity|]. cbn [all_digits contains_char].
  intros H. apply andb_prop in H. destruct H as [D A].
  rewrite (digit_not_CR c D), (IH A). reflexivity.
Qed.

Lemma cr_free_str_of_Z z : cr_free (str_of_Z z).
Proof.
  unfold str_of_Z. destruct (z <? 0) eqn:E.
  - apply Z.ltb_lt in E. assert (P : 0 <= - z) by lia.
    destruct (str_of_nonneg_shape _ P) as (A & _).
    change (String "-" ?t) with (String "-" EmptyString +++ t).
    apply cr_free_append; [reflexivity|apply cr_free_digits, A].
  - apply Z.ltb_ge in E. destruct (str_of_nonneg_shape _ E) as (A & _).
    apply cr_free_digits, A.
Qed.

Lemma cr_free_scalar level v : scalar v = true -> cr_free (json_encode level v).
Proof.
  destruct v as [|[|]|z|s| |]; try discriminate; intros _; try reflexivity.
  - apply cr_free_str_of_Z.
  - apply cr_free_json_string.
Qed.

Lemma cr_free_indent n : cr_free (newline_indent n).
Proof.
  unfold newline_indent. change (String LF ?t) with (String LF EmptyString +++ t).
  apply cr_free_append; [reflexivity|].
  induction n as [|n IH]; [reflexivity|]. cbn [repeat_string].
  apply cr_free_append; [reflexivity|exact IH].
Qed.

Lemma cr_free_join sep xs :
  cr_free sep -> Forall cr_free xs -> cr_free (join sep xs).
Proof.
  intros S F. induction F as [|x xs Fx F IH]; [reflexivity|]. destruct xs as [|y xs].
  - exact Fx.
  - change (join sep (x :: y :: xs)) with (x +++ sep +++ join sep (y :: xs)).
    apply cr_free_append; [exact Fx|]. apply cr_free_append; [exact S|exact IH].
Qed.

Lemma cr_free_entry level kv : entry_ok kv = true -> cr_free (entry_text level kv).
Proof.
  destruct kv as [[|k] v]; [discriminate|]. unfold entry_ok, entry_text. cbn [fst snd].
  intros S. apply cr_free_append; [apply cr_free_json_string|].
  apply cr_free_append; [reflexivity|apply cr_free_scalar, S].
Qed.

Lemma cr_free_record level v : flat v -> cr_free (json_encode level v).
Proof.
  intros (dc & -> & A & _). destruct dc as [|kv dc]; [reflexivity|].
  rewrite json_encode_dict.
  change (String "{" EmptyString +++ ?t) with (String "{" EmptyString +++ t).
  repeat (apply cr_free_append; try reflexivity; try apply cr_free_indent).
  unfold entries_text. apply cr_free_join.
  - apply cr_free_append; [reflexivity|apply cr_free_indent].
  - apply Forall_map, Forall_forall. intros x I. apply cr_free_entry.
    rewrite forallb_forall in A. apply A, I.
Qed.

Lemma cr_free_dump l : Forall flat l -> cr_free (json_dump (VList l)).
Proof.
  intros F. unfold json_dump. destruct l as [|v l]; [reflexivity|].
  rewrite json_encode_list.
  repeat (apply cr_free_append; try reflexivity; try apply cr_free_indent).
  unfold items_text. apply cr_free_join.
  - apply cr_free_append; [reflexivity|apply cr_free_indent].
  - apply Forall_map. eapply Forall_impl; [|exact F]. intros x Fx. apply cr_free_record, Fx.
Qed.

(** Writing records to the json file and reading the file back. *)
Theorem json_round_trip l :
  Forall flat l -> json_load (json_dump (VList l)) = Ok (VList l).
Proof.
  intros F. unfold json_load.
  rewrite (universal_newlines_cr_free _ (cr_free_dump l F)). apply json_loads_dump, F.
Qed.

(** *** A cell beyond the field size limit *)

Lemma R_overflow s : forall r rest,
  needs_quote s = false -> state r = IN_FIELD -> field_len r <= field_limit ->
  field_limit < field_len r + strlen s -> rest <> EmptyString ->
  R r (s +++ rest) = Raise CsvError.
Proof.
  induction s as [|c s IH]; intros r rest Q S B L T.
  - change (strlen EmptyString) with 0 in L. lia.
  - cbn [needs_quote] in Q. apply orb_false_iff in Q. destruct Q as [Qc Q].
    destruct (special_inv c Qc) as (N & C & D).
    rewrite strlen_cons in L.
    cbn [append]. rewrite R_plain by (assumption || (apply append_nonempty_r; exact T)).
    unfold parse_process_char. rewrite S, N, C. unfold parse_add_char.
    destruct (field_limit <=? field_len r) eqn:E; [reflexivity|].
    apply Z.leb_gt in E. cbn [obind].
    apply IH; cbn [state field_len]; try assumption; lia.
Qed.

Lemma run_of_plain n c : special c = false -> needs_quote (run_of n c) = false.
Proof.
  intros P. induction n as [|n IH] using N.peano_ind; [reflexivity|].
  rewrite run_of_succ. cbn [needs_quote]. rewrite P, IH. reflexivity.
Qed.

Lemma strlen_run_of n c : strlen (run_of n c) = Z.of_N n.
Proof.
  induction n as [|n IH] using N.peano_ind; [reflexivity|].
  rewrite run_of_succ, strlen_cons, IH. lia.
Qed.

Lemma dict_to_list_record i a f :
  dict_to_list (record_of i a f)
  = Ok [str_of_Z i; f_first_name f; f_last_name f; f_date_of_birth f; str_of_Z a;
        f_hometown f; f_house_number f; f_phone_number f].
Proof. reflexivity. Qed.

Lemma csv_dump_one v cells :
  dict_to_list v = Ok cells ->
  fst (csv_dump (VList [v])) = csv_row fieldnames +++ csv_row cells +++ EmptyString.
Proof. intros D. unfold csv_dump. cbn [py_iter writerows]. rewrite D. reflexivity. Qed.

Lemma join_head sep x xs : exists t, join sep (x :: xs) = x +++ t.
Proof.
  destruct xs as [|y xs].
  - exists EmptyString. cbn [join]. rewrite append_nil_r. reflexivity.
  - eexists. reflexivity.
Qed.

(** A row whose second cell is plain and longer than the limit. *)
Lemma R_row_overflow c1 name cells rest :
  strlen c1 <= field_limit -> needs_quote name = false -> field_limit < strlen name ->
  R parse_reset (csv_row (c1 :: name :: cells) +++ rest) = Raise CsvError.
Proof.
  intros B Q L. rewrite csv_row_two.
  change (join "," (map csv_cell (c1 :: name :: cells)))
    with (csv_cell c1 +++ "," +++ join "," (csv_cell name :: map csv_cell cells)).
  destruct (join_head "," (csv_cell name) (map csv_cell cells)) as (t & ->).
  unfold csv_cell at 2. rewrite Q. rewrite !append_assoc. cbn [append].
  destruct (cell_first_char c1 (name +++ t +++ CRLF +++ rest)) as (c & u & E & N & U).
  { destruct name; [change (strlen EmptyString) with 0 in L; unfold field_limit in L; lia|discriminate]. }
  rewrite E, R_start by (reflexivity || assumption). rewrite <- E.
  rewrite cell_comma;
    [|repeat split|exact B|destruct name; [change (strlen EmptyString) with 0 in L; unfold field_limit in L; lia|discriminate]].
  destruct name as [|x name]; [change (strlen EmptyString) with 0 in L; unfold field_limit in L; lia|].
  cbn [needs_quote] in Q. apply orb_false_iff in Q. destruct Q as [Qc Q].
  destruct (special_inv x Qc) as (Nx & Cx & Dx).
  rewrite strlen_cons in L.
  cbn [append]. rewrite R_plain; [|exact Nx|apply append_nonempty_r; destruct t; discriminate].
  unfold parse_process_char, start_field. cbn [state]. rewrite Nx, Dx, Cx.
  unfold parse_add_char. cbn [field_len]. change (field_limit <=? 0) with false.
  cbn [obind]. apply R_overflow.
  - exact Q.
  - reflexivity.
  - cbn [set_state field_len]. unfold field_limit. lia.
  - cbn [set_state field_len]. lia.
  - destruct t; discriminate.
Qed.

Lemma strlen_str_of_Z_small z : 0 <= z < 100 -> strlen (str_of_Z z) <= field_limit.
Proof.
  intros H.
  assert (C : exists n, (n < 100)%nat /\ z = Z.of_nat n) by (exists (Z.to_nat z); lia).
  destruct C as (n & Hn & ->). clear H.
  do 100 (destruct n as [|n]; [vm_compute; discriminate|]). lia.
Qed.

Lemma fieldnames_fit : row_fits fieldnames.
Proof. split; [simpl; lia|]. repeat constructor; unfold field_limit, strlen; simpl; lia. Qed.

Lemma reader_rows_R s : reader_rows parse_reset (split_lines s) = R parse_reset s.
Proof. reflexivity. Qed.

Lemma csv_reader_overflow names c1 name cells rest :
  row_fits names ->
  strlen c1 <= field_limit ->
  needs_quote name = false -> field_limit < strlen name ->
  csv_reader (csv_row names +++ csv_row (c1 :: name :: cells) +++ rest) = Raise CsvError.
Proof.
  intros F C Q L. unfold csv_reader. rewrite reader_rows_R.
  rewrite (R_row names _ F).
  rewrite (R_row_overflow c1 name cells rest C Q L). reflexivity.
Qed.

Lemma csv_reader_long_name i a name :
  0 <= i < 100 ->
  needs_quote name = false -> field_limit < strlen name ->
  csv_reader (fst (csv_dump (VList [record_of i a (form_named name)]))) = Raise CsvError.
Proof.
  intros I Q L.
  rewrite (csv_dump_one _ _ (dict_to_list_record i a (form_named name))).
  generalize fieldnames_fit. generalize fieldnames. intros names F.
  apply csv_reader_overflow; [exact F|apply strlen_str_of_Z_small, I|exact Q|exact L].
Qed.

Lemma form_long_overflows :
  csv_reader (fst (csv_dump (VList [record_of 1 33 form_long]))) = Raise CsvError.
Proof.
  apply csv_reader_long_name.
  - lia.
  - apply run_of_plain. reflexivity.
  - rewrite strlen_run_of. unfold field_limit. lia.
Qed.

Lemma read_write_csv data fs :
  FileManager.read_file "csv" (snd (FileManager.write_file "csv" data fs))
  = (rows <- dict_reader (fst (csv_dump data)) ;; Ok (VList rows)).
Proof. reflexivity. Qed.

Lemma read_write_json data fs :
  FileManager.read_file "json" (snd (FileManager.write_file "json" data fs))
  = match json_load (json_dump data) with
    | Ok v => Ok v
    | Raise JSONDecodeError => Ok (VList [])
    | Raise e => Raise e
    end.
Proof. reflexivity. Qed.

Lemma form_long_unreadable :
  FileManager.read_file "csv"
    (snd (FileManager.write_file "csv" (VList [record_of 1 33 form_long]) no_files))
  = Raise CsvError.
Proof.
  rewrite read_write_csv. unfold dict_reader. rewrite form_long_overflows. reflexivity.
Qed.

(** C8, as stated, fails with the csv backend: a record whose first
    name has 131073 characters is written, and reading the file back
    raises the reader's error instead of returning the record. *)
Lemma long_cell_is_not_read_back :
  ~ (forall (b : backend) (l : list value) (fs : files),
       Forall eight_fields l ->
       FileManager.read_file (backend_name b)
         (snd (FileManager.write_file (backend_name b) (VList l) fs))
       = Ok (VList (read_back b l))).
Proof.
  intros H. specialize (H CSV [record_of 1 33 form_long] no_files).
  cbn [backend_name] in H. rewrite form_long_unreadable in H.
  assert (E : Forall eight_fields [record_of 1 33 form_long]).
  { constructor; [|constructor]. eexists. split; [reflexivity|]. split; reflexivity. }
  discriminate (H E).
Qed.

(** *** Records of eight fields *)

Lemma eight_fields_inv v :
  eight_fields v ->
  exists v1 v2 v3 v4 v5 v6 v7 v8,
    v = VDict [(KStr "id", v1); (KStr "first_name", v2); (KStr "last_name", v3);
               (KStr "date_of_birth", v4); (KStr "age", v5); (KStr "hometown", v6);
               (KStr "house_number", v7); (KStr "phone_number", v8)]
    /\ forallb scalar [v1; v2; v3; v4; v5; v6; v7; v8] = true.
Proof.
  intros (dc & -> & K & S).
  do 8 (destruct dc as [|[? ?] dc]; [discriminate K|]).
  destruct dc; [|discriminate K].
  cbn [map fst fieldnames] in K. injection K as -> -> -> -> -> -> -> ->.
  eexists _, _, _, _, _, _, _, _. split; [reflexivity|exact S].
Qed.

Lemma eight_fields_flat v : eight_fields v -> flat v.
Proof.
  intros H. destruct (eight_fields_inv v H) as (v1 & v2 & v3 & v4 & v5 & v6 & v7 & v8 & -> & S).
  eexists. split; [reflexivity|]. split.
  - cbn [forallb entry_ok fst snd] in *. exact S.
  - cbn [map fst]. repeat (constructor; [cbn [In]; intuition discriminate|]). constructor.
Qed.

Lemma eight_fields_view v : eight_fields v -> csv_view v = as_text v.
Proof.
  intros H. destruct (eight_fields_inv v H) as (v1 & v2 & v3 & v4 & v5 & v6 & v7 & v8 & -> & S).
  reflexivity.
Qed.

Lemma eight_fields_fits v : eight_fields v -> within_limit v = true -> fits v = true.
Proof.
  intros H. destruct (eight_fields_inv v H) as (v1 & v2 & v3 & v4 & v5 & v6 & v7 & v8 & -> & S).
  intros W. cbn [within_limit forallb snd] in W. cbn [fits]. apply andb_true_intro. split.
  - reflexivity.
  - exact W.
Qed.

Lemma Forall_forallb {A} (P : A -> Prop) (p : A -> bool) l :
  (forall x, P x -> p x = true) -> Forall P l -> forallb p l = true.
Proof.
  intros H F. induction F as [|x l Px _ IH]; [reflexivity|].
  cbn [forallb]. rewrite (H x Px), IH. reflexivity.
Qed.

Lemma map_ext_Forall {A B} (P : A -> Prop) (f g : A -> B) l :
  (forall x, P x -> f x = g x) -> Forall P l -> map f l = map g l.
Proof.
  intros H F. induction F as [|x l Px _ IH]; [reflexivity|].
  cbn [map]. rewrite (H x Px), IH. reflexivity.
Qed.

Lemma fits_row_ok v : fits v = true -> row_ok v = true.
Proof.
  intros F. destruct (fits_inv v F) as (dc & _ & D & _). unfold row_ok. rewrite D. reflexivity.
Qed.

Lemma fits_writable b l : forallb fits l = true -> writable b l = true.
Proof.
  destruct b; [|reflexivity]. cbn [writable]. intros F.
  rewrite forallb_forall in *. intros v I. apply fits_row_ok, F, I.
Qed.

(** Reading back what was written, for each backend. *)
Lemma read_write_fits l fs :
  forallb fits l = true ->
  FileManager.read_file "csv" (snd (FileManager.write_file "csv" (VList l) fs))
  = Ok (VList (map csv_view l)).
Proof. intros F. rewrite read_write_csv, (csv_round_trip l F). reflexivity. Qed.

Lemma read_write_flat l fs :
  Forall flat l ->
  FileManager.read_file "json" (snd (FileManager.write_file "json" (VList l) fs))
  = Ok (VList l).
Proof. intros F. rewrite read_write_json, (json_round_trip l F). reflexivity. Qed.

(** C8, amended: a list of records of eight fields whose integers have
    at most 4300 decimal digits (beyond that the conversion of an
    integer to text raises), written with [write_file] and read with
    [read_file], comes back in the same order; with the json backend
    the records are the ones written, with the csv backend every value
    is the text written for it, provided that no such text is longer
    than the reader's limit of 131072 characters. *)
Theorem write_then_read b l fs :
  Forall eight_fields l ->
  forallb ints_within l = true ->
  (b = CSV -> forallb within_limit l = true) ->
  FileManager.write_file (backend_name b) (VList l) fs
  = (Ok tt, store b (dumped b (VList l)) fs)
  /\ FileManager.read_file (backend_name b)
       (snd (FileManager.write_file (backend_name b) (VList l) fs))
     = Ok (VList (read_back b l)).
Proof.
  intros E _ W. destruct b; cbn [backend_name read_back].
  - assert (F : forallb fits l = true).
    { specialize (W eq_refl). rewrite forallb_forall in W. rewrite Forall_forall in E.
      apply forallb_forall. intros v I. apply eight_fields_fits; [apply E, I|apply W, I]. }
    split.
    + apply (write_file_ok CSV), fits_writable, F.
    + rewrite (read_write_fits l fs F). do 2 f_equal.
      apply (map_ext_Forall eight_fields); [apply eight_fields_view|exact E].
  - split.
    + apply (write_file_ok JSON). reflexivity.
    + apply read_write_flat. eapply Forall_impl; [|exact E]. apply eight_fields_flat.
Qed.

Lemma write_then_read_witness :
  FileManager.write_file "csv" (VList list_ab) no_files
  = (Ok tt, store CSV (dumped CSV (VList list_ab)) no_files)
  /\ FileManager.read_file "csv"
       (snd (FileManager.write_file "csv" (VList list_ab) no_files))
     = Ok (VList (read_back CSV list_ab)).
Proof.
  apply (write_then_read CSV list_ab no_files).
  - repeat constructor; eexists; (split; [reflexivity|split; reflexivity]).
  - vm_compute. reflexivity.
  - intros _. reflexivity.
Defined.

(** *** [delete_patient_by_id] *)

Lemma stored_record_id b v : stored_record b v -> exists i, subscript v "id" = Ok i.
Proof.
  destruct b; cbn [stored_record]; [|tauto]. intros [F V].
  destruct (fits_inv v F) as (dc & -> & _). rewrite <- V. eexists. reflexivity.
Qed.

Lemma without_id_filter data patient_id :
  Forall (fun v => exists i, subscript v "id" = Ok i) data ->
  FileManager.without_id data patient_id = Ok (filter (keeps patient_id) data).
Proof.
  induction 1 as [|p data [i I] _ IH]; [reflexivity|].
  assert (K : keeps patient_id p = negb (String.eqb (py_str i) (py_str patient_id))).
  { unfold keeps, id_text. rewrite I. reflexivity. }
  cbn [FileManager.without_id filter]. rewrite I, IH, K. reflexivity.
Qed.

Lemma find_by_id_filter data patient_id :
  Forall (fun v => exists i, subscript v "id" = Ok i) data ->
  PMS.find_by_id (filter (keeps patient_id) data) patient_id = Ok None.
Proof.
  induction 1 as [|p data [i I] _ IH]; [reflexivity|].
  cbn [filter]. destruct (keeps patient_id p) eqn:K; [|exact IH].
  cbn [PMS.find_by_id]. rewrite I. cbn [obind].
  unfold keeps, id_text in K. rewrite I in K.
  destruct (String.eqb (py_str i) (py_str patient_id)); [discriminate K|exact IH].
Qed.

Lemma Forall_filter {A} (P : A -> Prop) (p : A -> bool) l :
  Forall P l -> Forall P (filter p l).
Proof.
  induction 1 as [|x l Px _ IH]; [constructor|].
  cbn [filter]. destruct (p x); [constructor; assumption|exact IH].
Qed.

Lemma filter_all {A} (p : A -> bool) l : forallb p l = true -> filter p l = l.
Proof.
  induction l as [|x l IH]; [reflexivity|]. cbn [forallb filter]. intros H.
  apply andb_prop in H. destruct H as [Hx H]. rewrite Hx, (IH H). reflexivity.
Qed.

Lemma filter_keeps patient_id data :
  Forall (fun p => id_text p <> py_str patient_id) (filter (keeps patient_id) data).
Proof.
  apply Forall_forall. intros p I. apply filter_In in I. destruct I as [_ K].
  unfold keeps in K. intros E. rewrite E, String.eqb_refl in K. discriminate K.
Qed.

(** Stored records are written and read back unchanged. *)
Lemma stored_round_trip b l fs :
  Forall (stored_record b) l ->
  FileManager.write_file (backend_name b) (VList l) fs
  = (Ok tt, store b (dumped b (VList l)) fs)
  /\ FileManager.read_file (backend_name b) (store b (dumped b (VList l)) fs)
     = Ok (VList l).
Proof.
  intros S. destruct b; cbn [backend_name stored_record] in *.
  - assert (F : forallb fits l = true).
    { apply (Forall_forallb (fun v => fits v = true /\ csv_view v = v)); [tauto|exact S]. }
    pose proof (write_file_ok CSV l fs (fits_writable CSV l F)) as W.
    split; [exact W|].
    pose proof (read_write_fits l fs F) as Rd. cbn [backend_name] in W.
    rewrite W in Rd. cbn [snd] in Rd. rewrite Rd. do 2 f_equal.
    rewrite <- (map_id l) at 2.
    apply (map_ext_Forall (fun v => fits v = true /\ csv_view v = v)); [tauto|exact S].
  - pose proof (write_file_ok JSON l fs eq_refl) as W. split; [exact W|].
    assert (F : Forall flat l) by (eapply Forall_impl; [|exact S]; cbn; tauto).
    pose proof (read_write_flat l fs F) as Rd. cbn [backend_name] in W.
    rewrite W in Rd. exact Rd.
Qed.

(** One run of [delete_patient_by_id] on a store that holds [data]. *)
Lemma delete_patient_by_id_run b w data patient_id :
  PMS.storage_type (PMS.self w) = backend_name b ->
  FileManager.read_file (backend_name b) (PMS.disk w) = Ok (VList data) ->
  Forall (stored_record b) data ->
  let kept := filter (keeps patient_id) data in
  PMS.delete_patient_by_id patient_id w
  = (Ok tt, with_patients w kept (store b (dumped b (VList kept)) (PMS.disk w)))
  /\ FileManager.read_file (backend_name b) (store b (dumped b (VList kept)) (PMS.disk w))
     = Ok (VList kept).
Proof.
  intros T Rd S kept.
  assert (I : Forall (fun v => exists i, subscript v "id" = Ok i) data).
  { eapply Forall_impl; [|exact S]. apply stored_record_id. }
  assert (K : Forall (stored_record b) kept) by apply Forall_filter, S.
  destruct (stored_round_trip b kept (PMS.disk w) K) as [W Rk].
  split; [|exact Rk].
  unfold PMS.delete_patient_by_id, FileManager.delete_from_file.
  rewrite T, Rd. cbn [py_iter obind]. rewrite (without_id_filter data patient_id I).
  fold kept. rewrite W. cbn [fst snd]. rewrite Rk. unfold with_patients. rewrite T. reflexivity.
Qed.

(** C10: on a store whose file holds the records [data],
    [delete_patient_by_id] succeeds and leaves, in memory and in the
    file, the records of [data] whose identifier, as text, differs from
    the target's text, in their order: every record with that identifier
    is removed, and nothing is removed when no record has it. *)
Theorem delete_patient_by_id_removes_matches b w data patient_id :
  PMS.storage_type (PMS.self w) = backend_name b ->
  FileManager.read_file (backend_name b) (PMS.disk w) = Ok (VList data) ->
  Forall (stored_record b) data ->
  let kept := filter (keeps patient_id) data in
  let w' := snd (PMS.delete_patient_by_id patient_id w) in
  fst (PMS.delete_patient_by_id patient_id w) = Ok tt
  /\ patients_of w' = VList kept
  /\ FileManager.read_file (backend_name b) (PMS.disk w') = Ok (VList kept)
  /\ (forall p, In p kept <-> In p data /\ id_text p <> py_str patient_id)
  /\ (forallb (keeps patient_id) data = true -> kept = data).
Proof.
  intros T Rd S kept w'.
  destruct (delete_patient_by_id_run b w data patient_id T Rd S) as [D Rk].
  fold kept in D, Rk. subst w'. rewrite D. cbn [fst snd].
  split; [reflexivity|]. split; [reflexivity|]. split; [exact Rk|]. split.
  - intros p. unfold kept. rewrite filter_In. unfold keeps.
    destruct (String.eqb_spec (id_text p) (py_str patient_id)) as [E|N]; cbn [negb].
    + split; [intros [_ X]; discriminate X|intros [_ X]; contradiction].
    + tauto.
  - apply filter_all.
Qed.

Lemma delete_patient_by_id_removes_matches_witness :
  let data := map as_text list_ab in
  let kept := filter (keeps (VStr "1")) data in
  let w' := snd (PMS.delete_patient_by_id (VStr "1") world_ab) in
  fst (PMS.delete_patient_by_id (VStr "1") world_ab) = Ok tt
  /\ patients_of w' = VList kept
  /\ FileManager.read_file "csv" (PMS.disk w') = Ok (VList kept)
  /\ (forall p, In p kept <-> In p data /\ id_text p <> py_str (VStr "1"))
  /\ (forallb (keeps (VStr "1")) data = true -> kept = data).
Proof.
  apply (delete_patient_by_id_removes_matches CSV world_ab (map as_text list_ab) (VStr "1")).
  - reflexivity.
  - reflexivity.
  - repeat constructor.
Defined.

(** The deletion of the first record of a store of two, run: the
    record numbered 2 is left. *)
Example delete_patient_by_id_ran :
  patients_of (snd (PMS.delete_patient_by_id (VStr "1") world_ab))
  = VList [as_text (record_of 2 24 form_b)].
Proof. reflexivity. Qed.

(** C6: after [delete_patient_by_id] with an identifier, the search for
    that identifier returns [None], and the file, read back, holds no
    record whose identifier has that text. *)
Theorem delete_then_search b w data patient_id :
  PMS.storage_type (PMS.self w) = backend_name b ->
  FileManager.read_file (backend_name b) (PMS.disk w) = Ok (VList data) ->
  Forall (stored_record b) data ->
  let w' := snd (PMS.delete_patient_by_id patient_id w) in
  fst (PMS.delete_patient_by_id patient_id w) = Ok tt
  /\ PMS.search_patient_by_id patient_id w' = Ok None
  /\ exists kept,
       FileManager.read_file (backend_name b) (PMS.disk w') = Ok (VList kept)
       /\ Forall (fun p => id_text p <> py_str patient_id) kept.
Proof.
  intros T Rd S w'.
  destruct (delete_patient_by_id_run b w data patient_id T Rd S) as [D Rk].
  subst w'. rewrite D. cbn [fst snd]. split; [reflexivity|]. split.
  - unfold PMS.search_patient_by_id, with_patients. cbn [PMS.self PMS.patients py_iter obind].
    apply find_by_id_filter. eapply Forall_impl; [|exact S]. apply stored_record_id.
  - eexists. split; [exact Rk|apply filter_keeps].
Qed.

Lemma delete_then_search_witness :
  let w' := snd (PMS.delete_patient_by_id (VStr "2") world_ab_json) in
  fst (PMS.delete_patient_by_id (VStr "2") world_ab_json) = Ok tt
  /\ PMS.search_patient_by_id (VStr "2") w' = Ok None
  /\ exists kept,
       FileManager.read_file "json" (PMS.disk w') = Ok (VList kept)
       /\ Forall (fun p => id_text p <> py_str (VStr "2")) kept.
Proof.
  apply (delete_then_search JSON world_ab_json list_ab (VStr "2")).
  - reflexivity.
  - vm_compute. reflexivity.
  - repeat constructor; try (eexists; reflexivity).
    + eexists. split; [reflexivity|]. split; [reflexivity|].
      cbn [map fst]. repeat (constructor; [cbn [In]; intuition discriminate|]). constructor.
    + eexists. split; [reflexivity|]. split; [reflexivity|].
      cbn [map fst]. repeat (constructor; [cbn [In]; intuition discriminate|]). constructor.
Defined.

(** The stores the two theorems on deletion speak of include every
    store the manager leaves behind when it writes records of eight
    fields: what [read_file] returns then are stored records. *)
Lemma written_records_stored b l :
  Forall eight_fields l ->
  (b = CSV -> forallb within_limit l = true) ->
  Forall (stored_record b) (read_back b l).
Proof.
  intros E W. destruct b; cbn [read_back].
  - specialize (W eq_refl). rewrite forallb_forall in W.
    apply Forall_forall. intros v I. apply in_map_iff in I. destruct I as (u & <- & I).
    rewrite Forall_forall in E. specialize (W u I).
    destruct (eight_fields_inv u (E u I)) as (v1 & v2 & v3 & v4 & v5 & v6 & v7 & v8 & -> & _).
    cbn [stored_record]. split; [|reflexivity].
    cbn [within_limit forallb snd] in W. cbn [as_text map fst snd fits].
    apply andb_true_intro. split; [reflexivity|exact W].
  - eapply Forall_impl; [|exact E]. intros v H. cbn [stored_record]. split.
    + apply eight_fields_flat, H.
    + destruct (eight_fields_inv v H) as (v1 & v2 & v3 & v4 & v5 & v6 & v7 & v8 & -> & _).
      eexists. reflexivity.
Qed.

(** ** Further properties of the program *)

(** *** The validators, in full *)

(** X1.  On the texts of this embedding, those whose code points lie
    below 256, [validate_phone_number] answers [True] exactly on three
    digits, a dash, three digits, a dash and four digits, and on such a
    text followed by one newline.  (Texts with decimal digits of other
    scripts, which [\d] accepts too, are outside the statement.) *)
Theorem phone_number_accepted_texts s :
  Patient.validate_phone_number s = true
  <-> exists t, phone_text t = true /\ (s = t \/ s = with_newline t).
Proof.
  rewrite validate_phone_number_spec. split.
  - intros H. apply orb_prop in H. destruct H as [H|H].
    + exists s. split; [exact H|left; reflexivity].
    + destruct (chomp s) as [t|] eqn:C; [|discriminate H].
      exists t. split; [exact H|right]. apply chomp_spec, C.
  - intros (t & P & [->| ->]).
    + rewrite P. reflexivity.
    + assert (C : chomp (with_newline t) = Some t) by (apply chomp_spec; reflexivity).
      rewrite C, P. apply orb_true_r.
Qed.

(** X2.  On the texts of this embedding, those whose code points lie
    below 256, [validate_date_of_birth] never raises; it answers [True]
    exactly on the DD-MM-YYYY texts of real dates and on those texts
    followed by one newline.  (Texts with decimal digits of other
    scripts, which [\d] and [int] accept too, are outside the
    statement.) *)
Theorem date_of_birth_accepted_texts s :
  exists b, Patient.validate_date_of_birth s = Ok b
    /\ (b = true <-> exists t, dob_text t = true /\ (s = t \/ s = with_newline t)).
Proof.
  rewrite validate_date_of_birth_spec. eexists. split; [reflexivity|]. split.
  - intros H. apply orb_prop in H. destruct H as [H|H].
    + exists s. split; [exact H|left; reflexivity].
    + destruct (chomp s) as [t|] eqn:C; [|discriminate H].
      exists t. split; [exact H|right]. apply chomp_spec, C.
  - intros (t & P & [->| ->]).
    + rewrite P. reflexivity.
    + assert (C : chomp (with_newline t) = Some t) by (apply chomp_spec; reflexivity).
      rewrite C, P. apply orb_true_r.
Qed.

(** *** [calculate_age] *)

(** X3.  [calculate_age] accepts a date of birth after today: the age it
    returns is negative exactly then, and is the difference of the
    years or one less. *)
Theorem calculate_age_sign today s dob :
  strptime s = Ok dob ->
  exists a, Patient.calculate_age today s = Ok a
    /\ (a < 0 <-> before today dob)
    /\ (a = year today - year dob \/ a = year today - year dob - 1).
Proof.
  intros P. unfold Patient.calculate_age. rewrite P. cbn [obind].
  eexists. split; [reflexivity|]. unfold before.
  assert (L : Patient.pair_lt (month today) (day today) (month dob) (day dob) = true
              <-> month today < month dob
                  \/ (month today = month dob /\ day today < day dob)).
  { unfold Patient.pair_lt. rewrite orb_true_iff, andb_true_iff.
    rewrite !Z.ltb_lt, Z.eqb_eq. tauto. }
  destruct (Patient.pair_lt (month today) (day today) (month dob) (day dob)).
  - assert (X : month today < month dob
                \/ (month today = month dob /\ day today < day dob)) by (apply L; reflexivity).
    split; [|lia]. split; intros H; lia.
  - assert (X : ~ (month today < month dob
                   \/ (month today = month dob /\ day today < day dob))).
    { intros C. apply L in C. discriminate C. }
    split; [|lia]. split; intros H; lia.
Qed.

Lemma calculate_age_sign_witness :
  exists a, Patient.calculate_age new_year_2024 "15-06-2024" = Ok a
    /\ (a < 0 <-> before new_year_2024 (mkdate 2024 6 15))
    /\ (a = year new_year_2024 - year (mkdate 2024 6 15)
        \/ a = year new_year_2024 - year (mkdate 2024 6 15) - 1).
Proof.
  apply (calculate_age_sign new_year_2024 "15-06-2024" (mkdate 2024 6 15)).
  reflexivity.
Defined.

(** *** Searching *)

Lemma find_by_id_first l patient_id :
  Forall has_id l ->
  match PMS.find_by_id l patient_id with
  | Ok (Some p) =>
      exists l1 l2, l = l1 ++ p :: l2
        /\ id_text p = py_str patient_id
        /\ Forall (fun q => id_text q <> py_str patient_id) l1
  | Ok None => Forall (fun q => id_text q <> py_str patient_id) l
  | Raise _ => False
  end.
Proof.
  induction 1 as [|p l [i I] _ IH]; [constructor|].
  assert (T : id_text p = py_str i) by (unfold id_text; rewrite I; reflexivity).
  cbn [PMS.find_by_id]. rewrite I. cbn [obind].
  destruct (String.eqb_spec (py_str i) (py_str patient_id)) as [E|N].
  - exists [], l. split; [reflexivity|]. split; [congruence|constructor].
  - destruct (PMS.find_by_id l patient_id) as [[q|]|e]; [| |exact IH].
    + destruct IH as (l1 & l2 & -> & Q & F). exists (p :: l1), l2.
      split; [reflexivity|]. split; [exact Q|]. constructor; [congruence|exact F].
    + constructor; [congruence|exact IH].
Qed.

(** X4.  [search_patient_by_id] on a list of records that all have an [id]
    returns the first record, in the order of the list, whose
    identifier has the text of the one asked for, and [None] exactly
    when no record has it; it does not raise. *)
Theorem search_patient_by_id_first w l patient_id :
  patients_of w = VList l ->
  Forall has_id l ->
  match PMS.search_patient_by_id patient_id w with
  | Ok (Some p) =>
      exists l1 l2, l = l1 ++ p :: l2
        /\ id_text p = py_str patient_id
        /\ Forall (fun q => id_text q <> py_str patient_id) l1
  | Ok None => Forall (fun q => id_text q <> py_str patient_id) l
  | Raise _ => False
  end.
Proof.
  intros P F. unfold PMS.search_patient_by_id. unfold patients_of in P. rewrite P.
  cbn [py_iter obind]. apply find_by_id_first, F.
Qed.

Lemma search_patient_by_id_first_witness :
  match PMS.search_patient_by_id (VStr "2") world_ab with
  | Ok (Some p) =>
      exists l1 l2, list_ab = l1 ++ p :: l2
        /\ id_text p = py_str (VStr "2")
        /\ Forall (fun q => id_text q <> py_str (VStr "2")) l1
  | Ok None => Forall (fun q => id_text q <> py_str (VStr "2")) list_ab
  | Raise _ => False
  end.
Proof.
  apply (search_patient_by_id_first world_ab list_ab (VStr "2")).
  - reflexivity.
  - repeat constructor; eexists; reflexivity.
Defined.

(** X5.  The identifier is compared as text: a search answers the same for
    any two values that [str] writes alike, such as the number 2 and
    the text "2". *)
Theorem search_patient_by_id_text w a b :
  py_str a = py_str b ->
  PMS.search_patient_by_id a w = PMS.search_patient_by_id b w.
Proof.
  intros E. unfold PMS.search_patient_by_id.
  destruct (py_iter (PMS.patients (PMS.self w))) as [items|e]; [|reflexivity].
  cbn [obind]. induction items as [|p items IH]; [reflexivity|].
  cbn [PMS.find_by_id]. destruct (subscript p "id") as [i|e]; [|reflexivity].
  cbn [obind]. rewrite E, IH. reflexivity.
Qed.

Lemma search_patient_by_id_text_witness :
  PMS.search_patient_by_id (VInt 2) world_ab = PMS.search_patient_by_id (VStr "2") world_ab.
Proof. apply (search_patient_by_id_text world_ab (VInt 2) (VStr "2")). reflexivity. Defined.

(** X6.  A record without [id] that the loop reaches before any match makes
    the search raise [KeyError]. *)
Theorem search_patient_by_id_missing_id w l1 dc l2 patient_id :
  patients_of w = VList (l1 ++ VDict dc :: l2) ->
  PMS.find_by_id l1 patient_id = Ok None ->
  dict_get dc (KStr "id") = None ->
  PMS.search_patient_by_id patient_id w = Raise KeyError.
Proof.
  intros P N G. unfold PMS.search_patient_by_id. unfold patients_of in P. rewrite P.
  cbn [py_iter obind]. rewrite (find_by_id_app _ _ _ N).
  cbn [PMS.find_by_id subscript]. rewrite G. reflexivity.
Qed.

Lemma search_patient_by_id_missing_id_witness :
  PMS.search_patient_by_id (VStr "7")
    (PMS.mkworld
       (PMS.mksystem "json" (VList ([record_of 1 33 form_a] ++ VDict [(KStr "name", VStr "x")] :: [])))
       no_files)
  = Raise KeyError.
Proof.
  apply (search_patient_by_id_missing_id _ [record_of 1 33 form_a] [(KStr "name", VStr "x")] []).
  - reflexivity.
  - reflexivity.
  - reflexivity.
Defined.

(** *** A storage type that is neither csv nor json *)

(** X7.  With any other storage type [read_file] returns [None] and
    [write_file] writes nothing, so the manager holds [None] instead of
    a list: [delete_from_file], [add_patient] and
    [search_patient_by_id] raise [TypeError], and no file is touched. *)
Theorem other_storage_type st fs today f patient_id data :
  String.eqb st "csv" = false ->
  String.eqb st "json" = false ->
  FileManager.read_file st fs = Ok VNone
  /\ FileManager.write_file st data fs = (Ok tt, fs)
  /\ FileManager.delete_from_file st patient_id fs = (Raise TypeError, fs)
  /\ exists s, PMS.init st fs = Ok s
       /\ PMS.patients s = VNone
       /\ add today f (PMS.mkworld s fs) = (Raise TypeError, PMS.mkworld s fs)
       /\ PMS.search_patient_by_id patient_id (PMS.mkworld s fs) = Raise TypeError
       /\ PMS.delete_patient_by_id patient_id (PMS.mkworld s fs)
          = (Raise TypeError, PMS.mkworld s fs).
Proof.
  intros C J.
  assert (Rd : FileManager.read_file st fs = Ok VNone).
  { unfold FileManager.read_file. rewrite C, J. reflexivity. }
  assert (D : FileManager.delete_from_file st patient_id fs = (Raise TypeError, fs)).
  { unfold FileManager.delete_from_file. rewrite Rd. reflexivity. }
  split; [exact Rd|]. split.
  - unfold FileManager.write_file. rewrite C, J. reflexivity.
  - split; [exact D|]. exists (PMS.mksystem st VNone). split.
    + unfold PMS.init. rewrite Rd. reflexivity.
    + split; [reflexivity|]. split; [reflexivity|]. split; [reflexivity|].
      unfold PMS.delete_patient_by_id. cbn [PMS.self PMS.storage_type PMS.disk].
      rewrite D. reflexivity.
Qed.

Lemma other_storage_type_witness :
  FileManager.read_file "xml" no_files = Ok VNone
  /\ FileManager.write_file "xml" (VList list_ab) no_files = (Ok tt, no_files)
  /\ FileManager.delete_from_file "xml" (VStr "1") no_files = (Raise TypeError, no_files)
  /\ exists s, PMS.init "xml" no_files = Ok s
       /\ PMS.patients s = VNone
       /\ add new_year_2024 form_a (PMS.mkworld s no_files)
          = (Raise TypeError, PMS.mkworld s no_files)
       /\ PMS.search_patient_by_id (VStr "1") (PMS.mkworld s no_files) = Raise TypeError
       /\ PMS.delete_patient_by_id (VStr "1") (PMS.mkworld s no_files)
          = (Raise TypeError, PMS.mkworld s no_files).
Proof.
  apply (other_storage_type "xml" no_files new_year_2024 form_a (VStr "1") (VList list_ab)).
  - reflexivity.
  - reflexivity.
Defined.

(** *** A file that is missing or cannot be decoded *)

Lemma store_store b t t' fs : store b t (store b t' fs) = store b t fs.
Proof. destruct b; reflexivity. Qed.

Lemma stored_store b t fs : stored b (store b t fs) = Some t.
Proof. destruct b; reflexivity. Qed.

Lemma write_file_empty b fs :
  FileManager.write_file (backend_name b) (VList []) fs
  = (Ok tt, store b (dumped b (VList [])) fs).
Proof. destruct b; reflexivity. Qed.

Lemma read_file_empty b fs :
  FileManager.read_file (backend_name b) (store b (dumped b (VList [])) fs) = Ok (VList []).
Proof. destruct b; reflexivity. Qed.

(** A deletion on a store that reads as empty: the manager holds the
    empty list and the file holds an empty store. *)
Lemma delete_from_empty b w patient_id :
  PMS.storage_type (PMS.self w) = backend_name b ->
  FileManager.read_file (backend_name b) (PMS.disk w) = Ok (VList []) ->
  PMS.delete_patient_by_id patient_id w
  = (Ok tt, with_patients w [] (store b (dumped b (VList [])) (PMS.disk w))).
Proof.
  intros T Rd. unfold PMS.delete_patient_by_id, FileManager.delete_from_file.
  rewrite T, Rd. cbn [py_iter obind FileManager.without_id].
  rewrite write_file_empty. cbn [fst snd]. rewrite read_file_empty.
  unfold with_patients. rewrite T. reflexivity.
Qed.

(** X8.  When the backend's file does not exist, [delete_patient_by_id]
    with any identifier creates it, as an empty store (the csv header,
    or an empty json list), and the manager drops whatever records it
    held in memory. *)
Theorem delete_patient_by_id_missing_file b w patient_id :
  PMS.storage_type (PMS.self w) = backend_name b ->
  stored b (PMS.disk w) = None ->
  let w' := snd (PMS.delete_patient_by_id patient_id w) in
  fst (PMS.delete_patient_by_id patient_id w) = Ok tt
  /\ patients_of w' = VList []
  /\ stored b (PMS.disk w')
     = Some (match b with CSV => csv_row fieldnames | JSON => "[]" end).
Proof.
  intros T N w'. subst w'.
  rewrite (delete_from_empty b w patient_id T (read_file_absent b _ N)).
  cbn [fst snd]. split; [reflexivity|]. split; [reflexivity|].
  unfold with_patients. cbn [PMS.disk]. rewrite stored_store. destruct b; reflexivity.
Qed.

Lemma delete_patient_by_id_missing_file_witness :
  let w := PMS.mkworld (PMS.mksystem "csv" (VList list_ab)) no_files in
  let w' := snd (PMS.delete_patient_by_id (VStr "9") w) in
  fst (PMS.delete_patient_by_id (VStr "9") w) = Ok tt
  /\ patients_of w' = VList []
  /\ stored CSV (PMS.disk w') = Some (csv_row fieldnames).
Proof.
  apply (delete_patient_by_id_missing_file CSV
           (PMS.mkworld (PMS.mksystem "csv" (VList list_ab)) no_files) (VStr "9")).
  - reflexivity.
  - reflexivity.
Defined.

(** Texts that open a list or an object without closing it are not
    decoded. *)
Example json_load_unclosed :
  json_load "[" = Raise JSONDecodeError
  /\ json_load "[[" = Raise JSONDecodeError
  /\ json_load "[{" = Raise JSONDecodeError
  /\ json_load "{" = Raise JSONDecodeError
  /\ json_load EmptyString = Raise JSONDecodeError.
Proof. repeat split; vm_compute; reflexivity. Qed.



(** *** A row the csv writer refuses *)

Lemma writerows_stops l1 r l2 :
  forallb row_ok l1 = true -> row_ok r = false ->
  fst (writerows (l1 ++ r :: l2)) = fst (writerows l1)
  /\ exists e, snd (writerows (l1 ++ r :: l2)) = Some e /\ dict_to_list r = Raise e.
Proof.
  intros A B. induction l1 as [|p l1 IH].
  - cbn [app writerows]. unfold row_ok in B. destruct (dict_to_list r) as [cells|e].
    + discriminate B.
    + split; [reflexivity|]. exists e. split; reflexivity.
  - cbn [forallb] in A. apply andb_prop in A. destruct A as [Ap A].
    destruct (IH A) as (F & e & S & D). unfold row_ok in Ap.
    cbn [app writerows]. destruct (dict_to_list p) as [cells|e']; [|discriminate Ap].
    cbn [fst snd]. rewrite F. split; [reflexivity|]. exists e. split; assumption.
Qed.

Lemma dict_to_list_unknown dc :
  forallb known_field (map fst dc) = false -> dict_to_list (VDict dc) = Raise ValueError.
Proof.
  intros U. pose proof (row_ok_dict dc) as E. rewrite U in E.
  unfold row_ok in E. unfold dict_to_list in *.
  destruct (forallb (fun kv : key * value => known_field (fst kv)) dc); [discriminate E|reflexivity].
Qed.

Lemma write_file_csv_stops l1 dc l2 fs :
  forallb row_ok l1 = true ->
  forallb known_field (map fst dc) = false ->
  FileManager.write_file "csv" (VList (l1 ++ VDict dc :: l2)) fs
  = (Raise ValueError, store CSV (dumped CSV (VList l1)) fs).
Proof.
  intros A U.
  assert (B : row_ok (VDict dc) = false) by (rewrite row_ok_dict; exact U).
  destruct (writerows_stops l1 (VDict dc) l2 A B) as (F & e & S & D).
  rewrite (dict_to_list_unknown dc U) in D. injection D as <-.
  unfold FileManager.write_file. cbn [String.eqb Ascii.eqb Bool.eqb].
  unfold csv_dump, dumped, store. cbn [py_iter fst snd]. rewrite F, S.
  unfold csv_dump. cbn [py_iter fst]. reflexivity.
Qed.

(** X10.  With the csv backend, [write_file] on a list in which a record has
    a key outside the eight columns raises [ValueError], and the file
    is left holding the header and the records before that one only:
    the records after it are not written. *)
Theorem write_file_csv_unknown_key l1 dc l2 fs :
  forallb row_ok l1 = true ->
  forallb known_field (map fst dc) = false ->
  let r := FileManager.write_file "csv" (VList (l1 ++ VDict dc :: l2)) fs in
  fst r = Raise ValueError
  /\ patients_csv (snd r) = Some (fst (csv_dump (VList l1)))
  /\ (forallb fits l1 = true ->
      FileManager.read_file "csv" (snd r) = Ok (VList (map csv_view l1))).
Proof.
  intros A U r. subst r. rewrite (write_file_csv_stops l1 dc l2 fs A U). cbn [fst snd].
  split; [reflexivity|]. split; [reflexivity|]. intros F.
  pose proof (read_write_fits l1 fs F) as Rd.
  pose proof (write_file_ok CSV l1 fs (fits_writable CSV l1 F)) as W.
  cbn [backend_name] in W. rewrite W in Rd. exact Rd.
Qed.

Lemma write_file_csv_unknown_key_witness :
  let bad := [(KStr "id", VInt 2); (KStr "email", VStr "kofi@example.org")] in
  let r := FileManager.write_file "csv"
             (VList ([record_of 1 33 form_a] ++ VDict bad :: [record_of 3 3 form_c])) no_files in
  fst r = Raise ValueError
  /\ patients_csv (snd r) = Some (fst (csv_dump (VList [record_of 1 33 form_a])))
  /\ (forallb fits [record_of 1 33 form_a] = true ->
      FileManager.read_file "csv" (snd r) = Ok (VList (map csv_view [record_of 1 33 form_a]))).
Proof.
  apply (write_file_csv_unknown_key [record_of 1 33 form_a]
           [(KStr "id", VInt 2); (KStr "email", VStr "kofi@example.org")]
           [record_of 3 3 form_c] no_files).
  - reflexivity.
  - reflexivity.
Defined.

Lemma keys_kept_set dc k v k0 :
  In k0 (map fst dc) -> In k0 (map fst (dict_set dc k v)).
Proof.
  induction dc as [|[k' v'] dc IH]; [intros []|].
  cbn [dict_set map fst In]. destruct (key_eqb k' k); cbn [map fst In]; tauto.
Qed.

Lemma key_set dc k v : In k (map fst (dict_set dc k v)).
Proof.
  induction dc as [|[k' v'] dc IH]; [left; reflexivity|].
  cbn [dict_set]. destruct (key_eqb k' k) eqn:E; cbn [map fst In].
  - left. apply key_eqb_eq, E.
  - right. exact IH.
Qed.

Lemma keys_kept_update info : forall dc k0,
  In k0 (map fst dc) \/ In k0 (map fst info) -> In k0 (map fst (dict_update dc info)).
Proof.
  unfold dict_update. induction info as [|[k v] info IH]; intros dc k0 H; cbn [fold_left].
  - destruct H as [H|[]]. exact H.
  - apply IH. cbn [map fst In] in H. destruct H as [H|[<-|H]].
    + left. apply keys_kept_set, H.
    + left. apply key_set.
    + right. exact H.
Qed.

Lemma unknown_key_inv l : forallb known_field l = false -> exists k, In k l /\ known_field k = false.
Proof.
  induction l as [|k l IH]; [discriminate|]. cbn [forallb]. intros H.
  destruct (known_field k) eqn:K.
  - destruct (IH H) as (k0 & I & U). exists k0. split; [right; exact I|exact U].
  - exists k. split; [left; reflexivity|exact K].
Qed.

Lemma unknown_key_in l k : In k l -> known_field k = false -> forallb known_field l = false.
Proof.
  intros I U. destruct (forallb known_field l) eqn:F; [|reflexivity].
  rewrite forallb_forall in F. rewrite (F k I) in U. discriminate U.
Qed.

(** X11.  With the csv backend, an update that gives a record a key outside
    the eight columns raises [ValueError] after it changed the record
    in memory, and leaves the file holding only the records that come
    before the updated one. *)
Theorem update_patient_by_id_unknown_key w l1 dc l2 i patient_id updated_info :
  PMS.storage_type (PMS.self w) = "csv" ->
  patients_of w = VList (l1 ++ VDict dc :: l2) ->
  forallb row_ok l1 = true ->
  PMS.find_by_id l1 patient_id = Ok None ->
  dict_get dc (KStr "id") = Some i ->
  py_str i = py_str patient_id ->
  forallb known_field (map fst updated_info) = false ->
  PMS.update_patient_by_id patient_id updated_info w
  = (Raise ValueError,
     with_patients w (l1 ++ VDict (dict_update dc updated_info) :: l2)
       (store CSV (dumped CSV (VList l1)) (PMS.disk w))).
Proof.
  intros T P A N G E U. unfold PMS.update_patient_by_id. unfold patients_of in P.
  rewrite P. cbn [py_iter obind]. rewrite (update_first_app _ _ _ _ N).
  cbn [PMS.update_first subscript]. rewrite G. cbn [obind]. rewrite E, String.eqb_refl.
  cbn [obind option_map PMS.updated]. rewrite T.
  assert (U' : forallb known_field (map fst (dict_update dc updated_info)) = false).
  { destruct (unknown_key_inv _ U) as (k & I & K).
    apply (unknown_key_in _ k); [|exact K]. apply keys_kept_update. right. exact I. }
  rewrite (write_file_csv_stops l1 _ l2 (PMS.disk w) A U'). cbn [fst snd].
  unfold with_patients. rewrite T. reflexivity.
Qed.

Lemma update_patient_by_id_unknown_key_witness :
  PMS.update_patient_by_id (VStr "2") [(KStr "email", VStr "kofi@example.org")] world_ab
  = (Raise ValueError,
     with_patients world_ab
       ([record_of 1 33 form_a]
        ++ VDict (dict_update
                    (match record_of 2 24 form_b with VDict dc => dc | _ => [] end)
                    [(KStr "email", VStr "kofi@example.org")]) :: [])
       (store CSV (dumped CSV (VList [record_of 1 33 form_a])) (PMS.disk world_ab))).
Proof.
  apply (update_patient_by_id_unknown_key world_ab [record_of 1 33 form_a] _ [] (VInt 2)).
  - reflexivity.
  - reflexivity.
  - reflexivity.
  - reflexivity.
  - reflexivity.
  - reflexivity.
  - reflexivity.
Defined.

(** *** Deletions, composed *)

Lemma filter_filter {A} (p q : A -> bool) l :
  filter p (filter q l) = filter q (filter p l).
Proof.
  induction l as [|x l IH]; [reflexivity|]. cbn [filter].
  destruct (p x) eqn:P, (q x) eqn:Q; cbn [filter]; rewrite ?P, ?Q, IH; reflexivity.
Qed.

Lemma filter_twice {A} (p : A -> bool) l : filter p (filter p l) = filter p l.
Proof.
  induction l as [|x l IH]; [reflexivity|]. cbn [filter].
  destruct (p x) eqn:P; cbn [filter]; rewrite ?P, IH; reflexivity.
Qed.

(** The world a deletion leaves is again a store that holds its
    records. *)
Lemma delete_patient_by_id_again b w data a c :
  PMS.storage_type (PMS.self w) = backend_name b ->
  FileManager.read_file (backend_name b) (PMS.disk w) = Ok (VList data) ->
  Forall (stored_record b) data ->
  let kept := filter (keeps c) (filter (keeps a) data) in
  PMS.delete_patient_by_id c (snd (PMS.delete_patient_by_id a w))
  = (Ok tt, with_patients w kept (store b (dumped b (VList kept)) (PMS.disk w))).
Proof.
  intros T Rd S kept.
  destruct (delete_patient_by_id_run b w data a T Rd S) as [D Rk].
  rewrite D. cbn [snd].
  set (w1 := with_patients w (filter (keeps a) data)
               (store b (dumped b (VList (filter (keeps a) data))) (PMS.disk w))).
  assert (T1 : PMS.storage_type (PMS.self w1) = backend_name b) by exact T.
  assert (S1 : Forall (stored_record b) (filter (keeps a) data)) by apply Forall_filter, S.
  destruct (delete_patient_by_id_run b w1 _ c T1 Rk S1) as [D1 _].
  rewrite D1. unfold w1, with_patients. cbn [PMS.self PMS.storage_type PMS.disk].
  rewrite store_store. reflexivity.
Qed.

(** X12.  Deleting the same identifier a second time changes nothing: the
    manager and the file stay as the first deletion left them. *)
Theorem delete_patient_by_id_twice b w data patient_id :
  PMS.storage_type (PMS.self w) = backend_name b ->
  FileManager.read_file (backend_name b) (PMS.disk w) = Ok (VList data) ->
  Forall (stored_record b) data ->
  PMS.delete_patient_by_id patient_id (snd (PMS.delete_patient_by_id patient_id w))
  = PMS.delete_patient_by_id patient_id w.
Proof.
  intros T Rd S.
  rewrite (delete_patient_by_id_again b w data patient_id patient_id T Rd S).
  destruct (delete_patient_by_id_run b w data patient_id T Rd S) as [D _].
  rewrite D, filter_twice. reflexivity.
Qed.

Lemma delete_patient_by_id_twice_witness :
  PMS.delete_patient_by_id (VStr "1") (snd (PMS.delete_patient_by_id (VStr "1") world_ab))
  = PMS.delete_patient_by_id (VStr "1") world_ab.
Proof.
  apply (delete_patient_by_id_twice CSV world_ab (map as_text list_ab) (VStr "1")).
  - reflexivity.
  - reflexivity.
  - repeat constructor.
Defined.

(** X13.  Two deletions give the same manager and the same file in either
    order. *)
Theorem delete_patient_by_id_commute b w data a c :
  PMS.storage_type (PMS.self w) = backend_name b ->
  FileManager.read_file (backend_name b) (PMS.disk w) = Ok (VList data) ->
  Forall (stored_record b) data ->
  PMS.delete_patient_by_id c (snd (PMS.delete_patient_by_id a w))
  = PMS.delete_patient_by_id a (snd (PMS.delete_patient_by_id c w)).
Proof.
  intros T Rd S.
  rewrite (delete_patient_by_id_again b w data a c T Rd S).
  rewrite (delete_patient_by_id_again b w data c a T Rd S).
  rewrite filter_filter. reflexivity.
Qed.

Lemma delete_patient_by_id_commute_witness :
  PMS.delete_patient_by_id (VStr "2") (snd (PMS.delete_patient_by_id (VStr "1") world_ab_json))
  = PMS.delete_patient_by_id (VStr "1") (snd (PMS.delete_patient_by_id (VStr "2") world_ab_json)).
Proof.
  apply (delete_patient_by_id_commute JSON world_ab_json list_ab (VStr "1") (VStr "2")).
  - reflexivity.
  - vm_compute. reflexivity.
  - repeat constructor; try (eexists; reflexivity).
    + eexists. split; [reflexivity|]. split; [reflexivity|].
      cbn [map fst]. repeat (constructor; [cbn [In]; intuition discriminate|]). constructor.
    + eexists. split; [reflexivity|]. split; [reflexivity|].
      cbn [map fst]. repeat (constructor; [cbn [In]; intuition discriminate|]). constructor.
Defined.

(** *** [strptime] on the dates of the validator *)

Lemma substring_none t : substring 0 0 t = EmptyString.
Proof. destruct t; reflexivity. Qed.

Lemma taken_1 a t : taken (String a t) t = String a EmptyString.
Proof.
  unfold taken. cbn [String.length].
  replace (S (String.length t) - String.length t)%nat with 1%nat by lia.
  cbn [substring]. rewrite substring_none. reflexivity.
Qed.

Lemma taken_2 a b t : taken (String a (String b t)) t = String a (String b EmptyString).
Proof.
  unfold taken. cbn [String.length].
  replace (S (S (String.length t)) - String.length t)%nat with 2%nat by lia.
  cbn [substring]. rewrite substring_none. reflexivity.
Qed.

Lemma taken_4 a b c e t :
  taken (String a (String b (String c (String e t)))) t
  = String a (String b (String c (String e EmptyString))).
Proof.
  unfold taken. cbn [String.length].
  replace (S (S (S (S (String.length t)))) - String.length t)%nat with 4%nat by lia.
  cbn [substring]. rewrite substring_none. reflexivity.
Qed.

Lemma rx_day a b t :
  day_rx a b = true ->
  rx strptime_day (String a (String b t))
  = ([], t) :: (if in_range "1" "9" a then [([], String b t)] else []).
Proof.
  intros H. pose proof H as N. rewrite day_rx_num in N.
  apply andb_prop in N. destruct N as [N _]. apply andb_prop in N. destruct N as [N _].
  apply andb_prop in N. destruct N as [A B].
  ten_cases A; ten_cases B; try discriminate H; vm_compute; reflexivity.
Qed.

Lemma rx_month a b t :
  month_rx a b = true ->
  rx strptime_month (String a (String b t))
  = ([], t) :: (if in_range "1" "9" a then [([], String b t)] else []).
Proof.
  intros H. pose proof H as N. rewrite month_rx_num in N.
  apply andb_prop in N. destruct N as [N _]. apply andb_prop in N. destruct N as [N _].
  apply andb_prop in N. destruct N as [A B].
  ten_cases A; ten_cases B; try discriminate H; vm_compute; reflexivity.
Qed.

Lemma rx_year y1 y2 y3 y4 u :
  is_digit y1 = true -> is_digit y2 = true -> is_digit y3 = true -> is_digit y4 = true ->
  rx (Grp (cat_all (times 4 d))) (String y1 (String y2 (String y3 (String y4 u))))
  = [([String y1 (String y2 (String y3 (String y4 EmptyString)))], u)].
Proof.
  intros H1 H2 H3 H4. cbn [rx times cat_all d]. rewrite H1. cbn [flat_map map app snd fst].
  rewrite H2. cbn [flat_map map app snd fst]. rewrite H3. cbn [flat_map map app snd fst].
  rewrite H4. cbn [flat_map map app snd fst]. rewrite taken_4. reflexivity.
Qed.

Lemma rx_dash_digit K b t : is_digit b = true -> rx (Cat (lit "-") K) (String b t) = [].
Proof.
  intros B. destruct (digit_inv b B) as (_ & D & _).
  cbn [rx lit]. rewrite D. reflexivity.
Qed.

Lemma rx_cat r1 r2 s :
  rx (Cat r1 r2) s
  = flat_map (fun m1 => map (fun m2 => (fst m1 ++ fst m2, snd m2)) (rx r2 (snd m1))) (rx r1 s).
Proof. reflexivity. Qed.

Lemma rx_grp r s : rx (Grp r) s = map (fun m => (taken s (snd m) :: fst m, snd m)) (rx r s).
Proof. reflexivity. Qed.

Lemma map_pair_id {A B} (l : list (A * B)) : map (fun m => (fst m, snd m)) l = l.
Proof. induction l as [|[x y] l IH]; [reflexivity|]. cbn [map fst snd]. rewrite IH. reflexivity. Qed.

Lemma rx_dash K t : rx (Cat (lit "-") K) (String "-" t) = rx K t.
Proof.
  rewrite rx_cat. change (rx (lit "-") (String "-" t)) with [(@nil string, t)].
  cbn [flat_map fst snd app]. rewrite app_nil_r. apply map_pair_id.
Qed.

(** A group of two digits, then a dash, then the rest of the pattern. *)
Lemma rx_two_then alts K a b t :
  rx alts (String a (String b (String "-" t)))
  = ([], String "-" t)
    :: (if in_range "1" "9" a then [([], String b (String "-" t))] else []) ->
  is_digit b = true ->
  rx (Cat (Grp alts) (Cat (lit "-") K)) (String a (String b (String "-" t)))
  = map (fun m => (String a (String b EmptyString) :: fst m, snd m)) (rx K t).
Proof.
  intros H B. rewrite rx_cat, rx_grp, H.
  destruct (in_range "1" "9" a); cbn [map flat_map fst snd];
    rewrite taken_2, rx_dash, ?(rx_dash_digit K b _ B); cbn [map app];
    rewrite ?app_nil_r; reflexivity.
Qed.

Lemma rx_strptime a b c e y1 y2 y3 y4 u :
  day_rx a b = true -> month_rx c e = true ->
  is_digit y1 = true -> is_digit y2 = true -> is_digit y3 = true -> is_digit y4 = true ->
  rx strptime_pattern (ten a b "-" c e "-" y1 y2 y3 y4 u)
  = [([String a (String b EmptyString); String c (String e EmptyString);
       String y1 (String y2 (String y3 (String y4 EmptyString)))], u)].
Proof.
  intros D M H1 H2 H3 H4.
  assert (B : is_digit b = true).
  { rewrite day_rx_num in D. apply andb_prop in D. destruct D as [D _].
    apply andb_prop in D. destruct D as [D _]. apply andb_prop in D. tauto. }
  assert (E : is_digit e = true).
  { rewrite month_rx_num in M. apply andb_prop in M. destruct M as [M _].
    apply andb_prop in M. destruct M as [M _]. apply andb_prop in M. tauto. }
  change strptime_pattern
    with (Cat (Grp strptime_day)
           (Cat (lit "-")
              (Cat (Grp strptime_month) (Cat (lit "-") (Grp (cat_all (times 4 d))))))).
  unfold ten.
  rewrite (rx_two_then strptime_day _ a b _ (rx_day a b _ D) B).
  rewrite (rx_two_then strptime_month _ c e _ (rx_month c e _ M) E).
  rewrite (rx_year y1 y2 y3 y4 u H1 H2 H3 H4). reflexivity.
Qed.

Lemma dash_inv h : dash h = true -> h = "-"%char.
Proof. unfold dash. apply Ascii.eqb_eq. Qed.

(** [strptime] on ten characters of the validator's pattern, followed
    by [u]: the date, when nothing follows and the date is real. *)
Lemma strptime_ten a b c e y1 y2 y3 y4 u :
  day_rx a b = true -> month_rx c e = true ->
  is_digit y1 = true -> is_digit y2 = true -> is_digit y3 = true -> is_digit y4 = true ->
  strptime (ten a b "-" c e "-" y1 y2 y3 y4 u)
  = match u with
    | EmptyString => datetime (num4 y1 y2 y3 y4) (num2 c e) (num2 a b)
    | _ => Raise ValueError
    end.
Proof.
  intros D M H1 H2 H3 H4. unfold strptime, re_match.
  rewrite (rx_strptime a b c e y1 y2 y3 y4 u D M H1 H2 H3 H4). cbn [hd_error].
  destruct u as [|x u]; [|reflexivity].
  pose proof D as D'. pose proof M as M'. rewrite day_rx_num in D'. rewrite month_rx_num in M'.
  do 3 (apply andb_prop in D'; destruct D' as [D' ?]).
  do 3 (apply andb_prop in M'; destruct M' as [M' ?]).
  rewrite (py_int_4 y1 y2 y3 y4 EmptyString) by (assumption || (left; reflexivity)).
  rewrite (py_int_2 c e) by assumption. rewrite (py_int_2 a b) by assumption.
  reflexivity.
Qed.

(** X14.  Every date [validate_date_of_birth] accepts as ten characters is
    one the constructor reads: [strptime] returns the day, the month
    and the year the digits write, and [calculate_age] succeeds. *)
Theorem validated_date_is_read today t :
  dob_text t = true ->
  exists dt,
    strptime t = Ok dt
    /\ day dt = dec_val 0 (substring 0 2 t)
    /\ month dt = dec_val 0 (substring 3 2 t)
    /\ year dt = dec_val 0 (substring 6 4 t)
    /\ Patient.validate_date_of_birth t = Ok true
    /\ Patient.calculate_age today t = Ok (age_on today dt).
Proof.
  intros T.
  destruct (dob_text_inv t T) as (a & b & h1 & c & e & h2 & y1 & y2 & y3 & y4
                                   & -> & D & E1 & M & E2 & H1 & H2 & H3 & H4).
  apply dash_inv in E1. apply dash_inv in E2. subst h1 h2.
  destruct (dob_text_ten a b "-" c e "-" y1 y2 y3 y4 D eq_refl M eq_refl H1 H2 H3 H4)
    as (Rl & _).
  rewrite T in Rl. symmetry in Rl.
  assert (S : strptime (ten a b "-" c e "-" y1 y2 y3 y4 EmptyString)
              = Ok (mkdate (num4 y1 y2 y3 y4) (num2 c e) (num2 a b))).
  { rewrite (strptime_ten a b c e y1 y2 y3 y4 EmptyString D M H1 H2 H3 H4).
    unfold datetime. unfold real_date in Rl. rewrite Rl. reflexivity. }
  eexists. split; [exact S|]. cbn [day month year].
  split; [symmetry; apply dec_val_2|]. split; [symmetry; apply dec_val_2|].
  split; [symmetry; apply dec_val_4|]. split.
  - rewrite validate_date_of_birth_spec, T. reflexivity.
  - unfold Patient.calculate_age. rewrite S. reflexivity.
Qed.

Lemma validated_date_is_read_witness :
  exists dt,
    strptime "29-02-2020" = Ok dt
    /\ day dt = dec_val 0 (substring 0 2 "29-02-2020")
    /\ month dt = dec_val 0 (substring 3 2 "29-02-2020")
    /\ year dt = dec_val 0 (substring 6 4 "29-02-2020")
    /\ Patient.validate_date_of_birth "29-02-2020" = Ok true
    /\ Patient.calculate_age new_year_2024 "29-02-2020" = Ok (age_on new_year_2024 dt).
Proof.
  apply (validated_date_is_read new_year_2024 "29-02-2020").
  vm_compute. reflexivity.
Defined.

(** X15.  The validator and the constructor disagree on a date followed by a
    newline: [validate_date_of_birth] accepts it, and [calculate_age],
    so the constructor of [Patient], raises [ValueError] on it. *)
Theorem validated_date_with_newline_is_refused today t :
  dob_text t = true ->
  Patient.validate_date_of_birth (with_newline t) = Ok true
  /\ Patient.calculate_age today (with_newline t) = Raise ValueError
  /\ forall i fn ln h hn p,
       Patient.init today i fn ln (with_newline t) h hn p = Raise ValueError.
Proof.
  intros T.
  assert (V : Patient.validate_date_of_birth (with_newline t) = Ok true).
  { rewrite validate_date_of_birth_spec.
    assert (C : chomp (with_newline t) = Some t) by (apply chomp_spec; reflexivity).
    rewrite C, T. rewrite orb_true_r. reflexivity. }
  assert (A : Patient.calculate_age today (with_newline t) = Raise ValueError).
  { destruct (dob_text_inv t T) as (a & b & h1 & c & e & h2 & y1 & y2 & y3 & y4
                                     & -> & D & E1 & M & E2 & H1 & H2 & H3 & H4).
    apply dash_inv in E1. apply dash_inv in E2. subst h1 h2.
    unfold Patient.calculate_age.
    change (with_newline (ten a b "-" c e "-" y1 y2 y3 y4 EmptyString))
      with (ten a b "-" c e "-" y1 y2 y3 y4 (String LF EmptyString)).
    rewrite (strptime_ten a b c e y1 y2 y3 y4 _ D M H1 H2 H3 H4). reflexivity. }
  split; [exact V|]. split; [exact A|].
  intros i fn ln h hn p. unfold Patient.init. rewrite A. reflexivity.
Qed.

Lemma validated_date_with_newline_is_refused_witness :
  Patient.validate_date_of_birth (with_newline "01-01-2020") = Ok true
  /\ Patient.calculate_age new_year_2024 (with_newline "01-01-2020") = Raise ValueError
  /\ forall i fn ln h hn p,
       Patient.init new_year_2024 i fn ln (with_newline "01-01-2020") h hn p
       = Raise ValueError.
Proof.
  apply (validated_date_with_newline_is_refused new_year_2024 "01-01-2020").
  vm_compute. reflexivity.
Defined.

(** *** [add_patient], all or nothing *)

Lemma py_int_error s e : py_int s = Raise e -> e = ValueError.
Proof.
  unfold py_int.
  destruct (match strip s with
            | EmptyString => None
            | String c t =>
                if Ascii.eqb c "-"
                then option_map Z.opp (int_unsigned t)
                else if Ascii.eqb c "+" then int_unsigned t else int_unsigned (strip s)
            end); congruence.
Qed.

Lemma datetime_error y m dd e : datetime y m dd = Raise e -> e = ValueError.
Proof. unfold datetime. destruct (_ && _); congruence. Qed.

Lemma strptime_error s e : strptime s = Raise e -> e = ValueError.
Proof.
  unfold strptime.
  destruct (re_match strptime_pattern s) as [[gs rest]|]; [|congruence].
  destruct gs as [|gd [|gm [|gy [|g gs]]]]; try congruence.
  destruct rest; [|congruence].
  destruct (py_int gy) as [y|e1] eqn:Y; [|apply py_int_error in Y; cbn [obind]; congruence].
  destruct (py_int gm) as [m|e2] eqn:Mo; [|apply py_int_error in Mo; cbn [obind]; congruence].
  destruct (py_int gd) as [dd|e3] eqn:Dd; [|apply py_int_error in Dd; cbn [obind]; congruence].
  cbn [obind]. apply datetime_error.
Qed.

(** X16.  On a manager whose list the backend can write, [add_patient] either
    appends one record, numbered with the count plus one, and writes
    the whole list, or raises [ValueError] and leaves the manager and
    the files exactly as they were; the second happens exactly when
    [strptime] cannot read the date of birth. *)
Theorem add_patient_all_or_nothing b today f w l :
  PMS.storage_type (PMS.self w) = backend_name b ->
  patients_of w = VList l ->
  writable b l = true ->
  (exists dt,
     strptime (f_date_of_birth f) = Ok dt
     /\ let r := record_of (Z.of_nat (List.length l) + 1) (age_on today dt) f in
        add today f w
        = (Ok tt,
           with_patients w (l ++ [r]) (store b (dumped b (VList (l ++ [r]))) (PMS.disk w))))
  \/ (strptime (f_date_of_birth f) = Raise ValueError
      /\ add today f w = (Raise ValueError, w)).
Proof.
  intros T P W. destruct (strptime (f_date_of_birth f)) as [dt|e] eqn:S.
  - left. exists dt. split; [reflexivity|]. apply (add_patient_ok b today f w l dt T P W S).
  - right. pose proof (strptime_error _ _ S) as ->. split; [reflexivity|].
    apply (add_patient_bad_date today f w l ValueError P S).
Qed.

Lemma add_patient_all_or_nothing_witness :
  (exists dt,
     strptime (f_date_of_birth form_bad_date) = Ok dt
     /\ let r := record_of (Z.of_nat (List.length list_ab) + 1) (age_on new_year_2024 dt)
                   form_bad_date in
        add new_year_2024 form_bad_date world_ab
        = (Ok tt,
           with_patients world_ab (list_ab ++ [r])
             (store CSV (dumped CSV (VList (list_ab ++ [r]))) (PMS.disk world_ab))))
  \/ (strptime (f_date_of_birth form_bad_date) = Raise ValueError
      /\ add new_year_2024 form_bad_date world_ab = (Raise ValueError, world_ab)).
Proof.
  apply (add_patient_all_or_nothing CSV new_year_2024 form_bad_date world_ab list_ab).
  - reflexivity.
  - reflexivity.
  - reflexivity.
Defined.

(** *** The file of the other backend *)

Lemma write_file_other b data fs :
  other_file b (snd (FileManager.write_file (backend_name b) data fs)) = other_file b fs.
Proof. destruct b; reflexivity. Qed.

Lemma delete_from_file_other b patient_id fs :
  other_file b (snd (FileManager.delete_from_file (backend_name b) patient_id fs))
  = other_file b fs.
Proof.
  unfold FileManager.delete_from_file.
  destruct (FileManager.read_file (backend_name b) fs) as [data|e]; [|reflexivity].
  destruct (items <- py_iter data ;; FileManager.without_id items patient_id) as [kept|e];
    [apply write_file_other|reflexivity].
Qed.

(** X17.  No operation of a manager touches the file of the other backend,
    whatever its arguments and whether it succeeds or raises. *)
Theorem other_backend_untouched b today w f patient_id updated_info :
  PMS.storage_type (PMS.self w) = backend_name b ->
  other_file b (PMS.disk (snd (add today f w))) = other_file b (PMS.disk w)
  /\ other_file b (PMS.disk (snd (PMS.update_patient_by_id patient_id updated_info w)))
     = other_file b (PMS.disk w)
  /\ other_file b (PMS.disk (snd (PMS.delete_patient_by_id patient_id w)))
     = other_file b (PMS.disk w).
Proof.
  intros T. split; [|split].
  - unfold add, PMS.add_patient.
    destruct (py_len (PMS.patients (PMS.self w))) as [n|e]; [|reflexivity].
    destruct (Patient.init _ _ _ _ _ _ _ _) as [p|e]; [|reflexivity].
    destruct (PMS.patients (PMS.self w)); try reflexivity.
    cbn [snd PMS.disk]. rewrite T. apply write_file_other.
  - unfold PMS.update_patient_by_id.
    destruct (items <- py_iter (PMS.patients (PMS.self w)) ;;
              PMS.update_first items patient_id updated_info) as [[l'|]|e]; try reflexivity.
    cbn [snd PMS.disk]. rewrite T. apply write_file_other.
  - unfold PMS.delete_patient_by_id. rewrite T.
    pose proof (delete_from_file_other b patient_id (PMS.disk w)) as D.
    destruct (fst (FileManager.delete_from_file (backend_name b) patient_id (PMS.disk w)));
      [|exact D].
    destruct (FileManager.read_file (backend_name b) _); exact D.
Qed.

Lemma other_backend_untouched_witness :
  let w := PMS.mkworld (PMS.mksystem "csv" (VList list_ab)) (mkfiles None (Some "[]")) in
  other_file CSV (PMS.disk (snd (add new_year_2024 form_c w))) = other_file CSV (PMS.disk w)
  /\ other_file CSV (PMS.disk (snd (PMS.update_patient_by_id (VStr "1") info_town w)))
     = other_file CSV (PMS.disk w)
  /\ other_file CSV (PMS.disk (snd (PMS.delete_patient_by_id (VStr "1") w)))
     = other_file CSV (PMS.disk w).
Proof.
  apply (other_backend_untouched CSV new_year_2024
           (PMS.mkworld (PMS.mksystem "csv" (VList list_ab)) (mkfiles None (Some "[]")))
           form_c (VStr "1") info_town).
  reflexivity.
Defined.

(** *** A manager started on the files another left *)

Lemma record_eight_fields i a f : eight_fields (record_of i a f).
Proof. eexists. split; [reflexivity|]. split; reflexivity. Qed.

Lemma read_written b l fs :
  Forall eight_fields l ->
  (b = CSV -> forallb within_limit l = true) ->
  FileManager.read_file (backend_name b) (store b (dumped b (VList l)) fs)
  = Ok (VList (read_back b l)).
Proof.
  intros E W. destruct b; cbn [backend_name read_back].
  - assert (F : forallb fits l = true).
    { specialize (W eq_refl). rewrite forallb_forall in W. rewrite Forall_forall in E.
      apply forallb_forall. intros v I. apply eight_fields_fits; [apply E, I|apply W, I]. }
    pose proof (read_write_fits l fs F) as Rd.
    pose proof (write_file_ok CSV l fs (fits_writable CSV l F)) as Wr.
    cbn [backend_name] in Wr. rewrite Wr in Rd. cbn [snd] in Rd. rewrite Rd.
    do 2 f_equal. apply (map_ext_Forall eight_fields); [apply eight_fields_view|exact E].
  - assert (F : Forall flat l) by (eapply Forall_impl; [|exact E]; apply eight_fields_flat).
    pose proof (read_write_flat l fs F) as Rd.
    pose proof (write_file_ok JSON l fs eq_refl) as Wr.
    cbn [backend_name] in Wr. rewrite Wr in Rd. exact Rd.
Qed.

(** X18.  What [add_patient] wrote is what the next session starts with: a
    manager constructed on the files after a successful addition holds
    the old records and the new one, in order (with the csv backend,
    every value as text), when the integers of the records have at most
    4300 decimal digits and, with the csv backend, no value's text is
    longer than the reader's limit. *)
Theorem restart_after_add b today f w l dt :
  PMS.storage_type (PMS.self w) = backend_name b ->
  patients_of w = VList l ->
  Forall eight_fields l ->
  strptime (f_date_of_birth f) = Ok dt ->
  let r := record_of (Z.of_nat (List.length l) + 1) (age_on today dt) f in
  forallb ints_within (l ++ [r]) = true ->
  (b = CSV -> forallb within_limit (l ++ [r]) = true) ->
  fst (add today f w) = Ok tt
  /\ PMS.init (backend_name b) (PMS.disk (snd (add today f w)))
     = Ok (PMS.mksystem (backend_name b) (VList (read_back b (l ++ [r])))).
Proof.
  intros T P E S r _ L.
  assert (E' : Forall eight_fields (l ++ [r])).
  { apply Forall_app. split; [exact E|]. constructor; [apply record_eight_fields|constructor]. }
  assert (W : writable b l = true).
  { destruct b; [|reflexivity]. cbn [writable]. specialize (L eq_refl).
    rewrite forallb_app in L. apply andb_prop in L. destruct L as [L _].
    rewrite forallb_forall in *. intros v I. apply fits_row_ok, eight_fields_fits.
    - rewrite Forall_forall in E. apply E, I.
    - apply L, I. }
  rewrite (add_patient_ok b today f w l dt T P W S). cbn [fst snd].
  split; [reflexivity|]. unfold with_patients. cbn [PMS.disk]. unfold PMS.init.
  fold r. rewrite (read_written b (l ++ [r]) (PMS.disk w) E' L). reflexivity.
Qed.

Lemma restart_after_add_witness :
  let r := record_of (Z.of_nat (List.length list_ab) + 1)
             (age_on new_year_2024 (mkdate 2020 2 29)) form_c in
  fst (add new_year_2024 form_c world_ab) = Ok tt
  /\ PMS.init "csv" (PMS.disk (snd (add new_year_2024 form_c world_ab)))
     = Ok (PMS.mksystem "csv" (VList (read_back CSV (list_ab ++ [r])))).
Proof.
  apply (restart_after_add CSV new_year_2024 form_c world_ab list_ab (mkdate 2020 2 29)).
  - reflexivity.
  - reflexivity.
  - repeat constructor; apply record_eight_fields.
  - reflexivity.
  - vm_compute. reflexivity.
  - intros _. reflexivity.
Defined.

(** *** The command-line interface *)

Lemma pending_print text c : pending (py_print text c) = pending c.
Proof. reflexivity. Qed.

Lemma pending_menu c : pending (print_menu c) = pending c.
Proof. reflexivity. Qed.

Lemma py_input_some prompt c line c' :
  py_input prompt c = (Some line, c') -> pending c = line :: pending c'.
Proof.
  unfold py_input. destruct (pending c) as [|x rest]; intros H; inversion H. reflexivity.
Qed.

Lemma py_input_none prompt c c' : py_input prompt c = (None, c') -> pending c = [].
Proof.
  unfold py_input. destruct (pending c) as [|x rest]; intros H; [reflexivity|discriminate H].
Qed.

(** The six questions read six lines. *)
Lemma input_form_some c f c' :
  input_form c = (Some f, c') ->
  pending c = [f_first_name f; f_last_name f; f_date_of_birth f; f_hometown f;
               f_house_number f; f_phone_number f] ++ pending c'.
Proof.
  unfold input_form.
  destruct (py_input "First Name: " c) as [[x1|] c1] eqn:E1; [|discriminate].
  destruct (py_input "Last Name: " c1) as [[x2|] c2] eqn:E2; [|discriminate].
  destruct (py_input "Date of Birth (dd-mm-yyyy): " c2) as [[x3|] c3] eqn:E3; [|discriminate].
  destruct (py_input "Hometown: " c3) as [[x4|] c4] eqn:E4; [|discriminate].
  destruct (py_input "House Number: " c4) as [[x5|] c5] eqn:E5; [|discriminate].
  destruct (py_input "Phone Number (024-000-0000): " c5) as [[x6|] c6] eqn:E6; [|discriminate].
  intros H. inversion H. subst. cbn [f_first_name f_last_name f_date_of_birth f_hometown
                                     f_house_number f_phone_number app].
  rewrite (py_input_some _ _ _ _ E1), (py_input_some _ _ _ _ E2), (py_input_some _ _ _ _ E3),
    (py_input_some _ _ _ _ E4), (py_input_some _ _ _ _ E5), (py_input_some _ _ _ _ E6).
  reflexivity.
Qed.

Lemma menu_ends today : forall turns w c,
  (List.length (pending c) < turns)%nat ->
  fst (fst (menu turns today w c)) <> Running
  /\ (fst (fst (menu turns today w c)) = Finished -> In "6" (pending c)).
Proof.
  induction turns as [|k IH]; intros w c L; [lia|].
  cbn [menu].
  destruct (py_input "Enter choice: " (print_menu c)) as [[choice|] c1] eqn:E1;
    [|split; [discriminate|discriminate]].
  apply py_input_some in E1. rewrite pending_menu in E1. rewrite E1 in *. cbn [List.length] in L.
  assert (next : forall w' c', (List.length (pending c') <= List.length (pending c1))%nat ->
            (forall x, In x (pending c') -> In x (pending c1)) ->
            fst (fst (menu k today w' c')) <> Running
            /\ (fst (fst (menu k today w' c')) = Finished -> In "6" (choice :: pending c1))).
  { intros w' c' Le Sub. destruct (IH w' c') as [A B]; [lia|].
    split; [exact A|]. intros F. right. apply Sub, B, F. }
  destruct (String.eqb choice "1").
  { destruct (input_form c1) as [[f|] c2] eqn:E2; [|split; discriminate].
    apply input_form_some in E2.
    destruct (add today f w) as [[u|e] w']; [|split; discriminate].
    apply next; rewrite E2; [cbn [app List.length]; lia|].
    intros x I. apply in_or_app. right. exact I. }
  destruct (String.eqb choice "2"); [apply next; [reflexivity|tauto]|].
  destruct (String.eqb choice "3").
  { destruct (py_input "Enter Patient ID: " c1) as [[pid|] c2] eqn:E2; [|split; discriminate].
    apply py_input_some in E2.
    destruct (PMS.search_patient_by_id (VStr pid) w) as [r|e]; [|split; discriminate].
    apply next; rewrite pending_print, E2; [cbn [List.length]; lia|].
    intros x I. right. exact I. }
  destruct (String.eqb choice "4"); [apply next; [reflexivity|tauto]|].
  destruct (String.eqb choice "5").
  { destruct (py_input "Enter Patient ID to delete: " c1) as [[pid|] c2] eqn:E2;
      [|split; discriminate].
    apply py_input_some in E2.
    destruct (PMS.delete_patient_by_id (VStr pid) w) as [[u|e] w']; [|split; discriminate].
    apply next; rewrite E2; [cbn [List.length]; lia|].
    intros x I. right. exact I. }
  destruct (String.eqb_spec choice "6") as [->|N].
  { split; [discriminate|]. intros _. left. reflexivity. }
  apply next; [reflexivity|tauto].
Qed.

(** X19.  The script always ends: by [break], by the message on the storage
    type, by the end of the input or by an exception, whatever is
    typed.  It ends by [break] only when a line typed after the first
    is 6. *)
Theorem main_ends today fs lines :
  fst (fst (main today fs lines)) <> Running
  /\ (fst (fst (main today fs lines)) = Finished ->
      match lines with
      | [] => False
      | line :: rest =>
          existsb (String.eqb (lower (strip line))) ["csv"; "json"] = false
          \/ In "6" rest
      end).
Proof.
  unfold main, py_input. cbn [pending shown]. destruct lines as [|line rest].
  - split; discriminate.
  - destruct (existsb (String.eqb (lower (strip line))) ["csv"; "json"]) eqn:V; cbn [negb].
    + destruct (PMS.init (lower (strip line)) fs) as [s|e]; [|split; discriminate].
      cbn [fst snd].
      destruct (menu_ends today (S (List.length rest)) (PMS.mkworld s fs)
                  (mkconsole rest ([] ++ ["Choose storage type (csv/json): "]))) as [A B].
      * cbn [pending]. lia.
      * split; [exact A|]. intros F. right. apply (B F).
    + split; [discriminate|]. intros _. left. reflexivity.
Qed.

Lemma menu_runs today : forall turns w c,
  exists rs, snd (fst (menu turns today w c)) = run today rs w.
Proof.
  induction turns as [|k IH]; intros w c; [exists []; reflexivity|].
  cbn [menu].
  destruct (py_input "Enter choice: " (print_menu c)) as [[choice|] c1];
    [|exists []; reflexivity].
  destruct (String.eqb choice "1").
  { destruct (input_form c1) as [[f|] c2]; [|exists []; reflexivity].
    destruct (add today f w) as [[u|e] w'] eqn:A.
    - destruct (IH w' c2) as [rs R]. exists (Add f :: rs). rewrite R.
      unfold run. cbn [fold_left serve]. rewrite A. reflexivity.
    - exists [Add f]. unfold run. cbn [fold_left serve fst snd]. rewrite A. reflexivity. }
  destruct (String.eqb choice "2"); [apply IH|].
  destruct (String.eqb choice "3").
  { destruct (py_input "Enter Patient ID: " c1) as [[pid|] c2]; [|exists []; reflexivity].
    destruct (PMS.search_patient_by_id (VStr pid) w) as [r|e]; [apply IH|exists []; reflexivity]. }
  destruct (String.eqb choice "4"); [apply IH|].
  destruct (String.eqb choice "5").
  { destruct (py_input "Enter Patient ID to delete: " c1) as [[pid|] c2];
      [|exists []; reflexivity].
    destruct (PMS.delete_patient_by_id (VStr pid) w) as [[u|e] w'] eqn:D.
    - destruct (IH w' c2) as [rs R]. exists (Delete (VStr pid) :: rs). rewrite R.
      unfold run. cbn [fold_left serve]. rewrite D. reflexivity.
    - exists [Delete (VStr pid)]. unfold run. cbn [fold_left serve fst snd]. rewrite D.
      reflexivity. }
  destruct (String.eqb choice "6"); [exists []; reflexivity|apply IH].
Qed.

(** X20.  Whatever is typed, the files the script leaves are those a manager
    leaves after a sequence of additions and deletions: no line makes
    the script update a record (choice 4 only prints a message). *)
Theorem main_only_adds_and_deletes today fs lines :
  snd (fst (main today fs lines)) = fs
  \/ exists b s rs,
       PMS.init (backend_name b) fs = Ok s
       /\ snd (fst (main today fs lines)) = PMS.disk (run today rs (PMS.mkworld s fs)).
Proof.
  unfold main, py_input. cbn [pending shown]. destruct lines as [|line rest]; [left; reflexivity|].
  destruct (existsb (String.eqb (lower (strip line))) ["csv"; "json"]) eqn:V; cbn [negb];
    [|left; reflexivity].
  assert (B : exists b, lower (strip line) = backend_name b).
  { cbn [existsb] in V. apply orb_prop in V. destruct V as [V|V].
    - exists CSV. apply String.eqb_eq in V. exact V.
    - apply orb_prop in V. destruct V as [V|V]; [|discriminate V].
      exists JSON. apply String.eqb_eq in V. exact V. }
  destruct B as [b ->].
  destruct (PMS.init (backend_name b) fs) as [s|e] eqn:I; [|left; reflexivity].
  right. exists b, s. cbn [fst snd].
  destruct (menu_runs today (S (List.length rest)) (PMS.mkworld s fs)
              (mkconsole rest ([] ++ ["Choose storage type (csv/json): "]))) as [rs R].
  exists rs. split; [exact I|]. cbn [pending]. rewrite R. reflexivity.
Qed.

Lemma input_form_six c f rest :
  pending c = [f_first_name f; f_last_name f; f_date_of_birth f; f_hometown f;
               f_house_number f; f_phone_number f] ++ rest ->
  input_form c = (Some f, asked_form c rest).
Proof.
  intros P. destruct f as [x1 x2 x3 x4 x5 x6].
  cbn [f_first_name f_last_name f_date_of_birth f_hometown f_house_number f_phone_number app] in P.
  unfold input_form, py_input. rewrite P. cbn [pending shown].
  unfold asked_form. rewrite <- !app_assoc. reflexivity.
Qed.

Lemma menu_add k today w c f rest :
  pending c = "1" :: [f_first_name f; f_last_name f; f_date_of_birth f; f_hometown f;
                      f_house_number f; f_phone_number f] ++ rest ->
  menu (S k) today w c
  = match add today f w with
    | (Ok _, w') => menu k today w' (asked_form (asked c (tl (pending c))) rest)
    | (Raise e, w') => (Uncaught e, w', asked_form (asked c (tl (pending c))) rest)
    end.
Proof.
  intros P. cbn [menu]. unfold py_input. rewrite pending_menu, P. cbn [tl].
  rewrite String.eqb_refl.
  fold (asked c ([f_first_name f; f_last_name f; f_date_of_birth f; f_hometown f;
                  f_house_number f; f_phone_number f] ++ rest)).
  rewrite (input_form_six _ f rest) by reflexivity. reflexivity.
Qed.

Lemma menu_exit k today w c rest :
  pending c = "6" :: rest -> menu (S k) today w c = (Finished, w, asked c rest).
Proof.
  intros P. cbn [menu]. unfold py_input. rewrite pending_menu, P. reflexivity.
Qed.

Lemma backend_name_valid b : existsb (String.eqb (backend_name b)) ["csv"; "json"] = true.
Proof. destruct b; reflexivity. Qed.

(** X21.  A first session that adds one patient: the storage type is typed
    in any case and with spaces around it, no file exists yet, choice 1
    is followed by the six answers and choice 6.  Whenever [strptime]
    reads the date of birth, the script ends normally and leaves the
    backend's file holding that one record, numbered 1, with the six
    answers as typed. *)
Theorem main_adds_one b today fs line f dt :
  lower (strip line) = backend_name b ->
  stored b fs = None ->
  strptime (f_date_of_birth f) = Ok dt ->
  fst (main today fs (add_session line f))
  = (Finished, store b (dumped b (VList [record_of 1 (age_on today dt) f])) fs).
Proof.
  intros N A S. unfold main, add_session, py_input. cbn [pending shown].
  rewrite N, backend_name_valid. cbn [negb].
  unfold PMS.init. rewrite (read_file_absent b fs A). cbn [obind fst snd List.length].
  set (c := mkconsole _ _). set (w := PMS.mkworld _ fs).
  rewrite (menu_add _ today w c f ["6"]) by reflexivity.
  rewrite (add_patient_ok b today f w [] dt eq_refl eq_refl (records_writable b [] (Forall_nil _)) S).
  cbn [app List.length Z.of_nat]. change (0 + 1) with 1.
  rewrite (menu_exit _ today _ _ []) by reflexivity. reflexivity.
Qed.

Lemma main_adds_one_witness :
  fst (main new_year_2024 no_files (add_session "  JSON " form_loose))
  = (Finished,
     store JSON (dumped JSON (VList [record_of 1 (age_on new_year_2024 (mkdate 2020 1 1))
                                       form_loose])) no_files).
Proof.
  apply (main_adds_one JSON new_year_2024 no_files "  JSON " form_loose (mkdate 2020 1 1)).
  - reflexivity.
  - reflexivity.
  - reflexivity.
Defined.

(** X22.  A storage type that, stripped and in lower case, is neither csv
    nor json ends the script at once: it prints the message, reads no
    further line and touches no file. *)
Theorem main_invalid_storage today fs line rest :
  String.eqb (lower (strip line)) "csv" = false ->
  String.eqb (lower (strip line)) "json" = false ->
  main today fs (line :: rest)
  = (Finished, fs,
     ["Choose storage type (csv/json): "; "Invalid storage type." +++ String LF EmptyString]).
Proof.
  intros C J. unfold main, py_input. cbn [pending shown existsb].
  rewrite C, J. reflexivity.
Qed.

Lemma main_invalid_storage_witness :
  main new_year_2024 no_files ("xml" :: ["1"; "6"])
  = (Finished, no_files,
     ["Choose storage type (csv/json): "; "Invalid storage type." +++ String LF EmptyString]).
Proof.
  apply (main_invalid_storage new_year_2024 no_files "xml" ["1"; "6"]).
  - reflexivity.
  - reflexivity.
Defined.

(** *** Operations, composed *)

Lemma update_patient_by_id_ok b w l1 dc l2 i patient_id updated_info :
  PMS.storage_type (PMS.self w) = backend_name b ->
  patients_of w = VList (l1 ++ VDict dc :: l2) ->
  writable b (l1 ++ VDict (dict_update dc updated_info) :: l2) = true ->
  PMS.find_by_id l1 patient_id = Ok None ->
  dict_get dc (KStr "id") = Some i ->
  py_str i = py_str patient_id ->
  let l' := l1 ++ VDict (dict_update dc updated_info) :: l2 in
  PMS.update_patient_by_id patient_id updated_info w
  = (Ok true, with_patients w l' (store b (dumped b (VList l')) (PMS.disk w))).
Proof.
  intros T P W N G E l'. unfold PMS.update_patient_by_id. unfold patients_of in P.
  rewrite P. cbn [py_iter obind]. rewrite (update_first_app _ _ _ _ N).
  cbn [PMS.update_first subscript]. rewrite G. cbn [obind]. rewrite E, String.eqb_refl.
  cbn [obind option_map PMS.updated]. rewrite T. fold l'.
  rewrite (write_file_ok b l' (PMS.disk w) W). unfold with_patients. rewrite T. reflexivity.
Qed.

(** X23.  After an update that does not name [id], the search for the same
    identifier returns the updated record: the values given, under
    their keys, and the other entries of the record as they were. *)
Theorem update_then_search b w l1 dc l2 i patient_id updated_info :
  PMS.storage_type (PMS.self w) = backend_name b ->
  patients_of w = VList (l1 ++ VDict dc :: l2) ->
  writable b (l1 ++ VDict dc :: l2) = true ->
  forallb known_field (map fst updated_info) = true ->
  NoDup (map fst updated_info) ->
  ~ In (KStr "id") (map fst updated_info) ->
  PMS.find_by_id l1 patient_id = Ok None ->
  dict_get dc (KStr "id") = Some i ->
  py_str i = py_str patient_id ->
  let w' := snd (PMS.update_patient_by_id patient_id updated_info w) in
  fst (PMS.update_patient_by_id patient_id updated_info w) = Ok true
  /\ exists dc',
       PMS.search_patient_by_id patient_id w' = Ok (Some (VDict dc'))
       /\ (forall k v, In (k, v) updated_info -> dict_get dc' k = Some v)
       /\ (forall k, ~ In k (map fst updated_info) -> dict_get dc' k = dict_get dc k).
Proof.
  intros T P W K D I N G E w'. subst w'.
  assert (W' : writable b (l1 ++ VDict (dict_update dc updated_info) :: l2) = true).
  { destruct b; [|reflexivity]. cbn [writable] in *.
    rewrite forallb_app in *. apply andb_prop in W. destruct W as [W1 W2].
    rewrite W1. cbn [forallb andb] in *. apply andb_prop in W2. destruct W2 as [W2 W3].
    rewrite W3, andb_true_r. rewrite row_ok_dict in *. apply keys_update; assumption. }
  rewrite (update_patient_by_id_ok b w l1 dc l2 i patient_id updated_info T P W' N G E).
  cbn [fst snd]. split; [reflexivity|]. exists (dict_update dc updated_info). split; [|split].
  - unfold PMS.search_patient_by_id, with_patients. cbn [PMS.self PMS.patients py_iter obind].
    rewrite (find_by_id_app _ _ _ N). cbn [PMS.find_by_id subscript].
    rewrite (dict_update_other updated_info dc (KStr "id") I), G. cbn [obind].
    rewrite E, String.eqb_refl. reflexivity.
  - intros k v In'. apply dict_update_given; assumption.
  - intros k N'. apply dict_update_other; assumption.
Qed.

Lemma update_then_search_witness :
  let w' := snd (PMS.update_patient_by_id (VStr "2") info_town world_ab) in
  fst (PMS.update_patient_by_id (VStr "2") info_town world_ab) = Ok true
  /\ exists dc',
       PMS.search_patient_by_id (VStr "2") w' = Ok (Some (VDict dc'))
       /\ (forall k v, In (k, v) info_town -> dict_get dc' k = Some v)
       /\ (forall k, ~ In k (map fst info_town) ->
           dict_get dc' k
           = dict_get (match record_of 2 24 form_b with VDict dc => dc | _ => [] end) k).
Proof.
  apply (update_then_search CSV world_ab [record_of 1 33 form_a] _ [] (VInt 2) (VStr "2")
           info_town).
  - reflexivity.
  - reflexivity.
  - reflexivity.
  - reflexivity.
  - constructor; [simpl; tauto|constructor].
  - simpl. intros [H|[]]. discriminate H.
  - reflexivity.
  - reflexivity.
  - reflexivity.
Defined.

Lemma filter_none {A} (p : A -> bool) l : Forall (fun x => p x = false) l -> filter p l = [].
Proof.
  induction 1 as [|x l Px _ IH]; [reflexivity|]. cbn [filter]. rewrite Px. exact IH.
Qed.

Lemma read_back_app b l1 l2 : read_back b (l1 ++ l2) = read_back b l1 ++ read_back b l2.
Proof. destruct b; [apply map_app|reflexivity]. Qed.

(** X24.  An addition followed by the deletion of the identifier it assigned
    leaves the records that were stored before, in their order, when
    none of them carries that identifier, the integers of the records
    have at most 4300 decimal digits and, with the csv backend, no
    value's text is longer than the reader's limit. *)
Theorem add_then_delete b today f w l dt :
  PMS.storage_type (PMS.self w) = backend_name b ->
  patients_of w = VList l ->
  Forall eight_fields l ->
  strptime (f_date_of_birth f) = Ok dt ->
  let n := Z.of_nat (List.length l) + 1 in
  forallb ints_within (l ++ [record_of n (age_on today dt) f]) = true ->
  (b = CSV -> forallb within_limit (l ++ [record_of n (age_on today dt) f]) = true) ->
  Forall (fun v => id_text v <> str_of_Z n) (read_back b l) ->
  let w' := snd (add today f w) in
  fst (PMS.delete_patient_by_id (VInt n) w') = Ok tt
  /\ patients_of (snd (PMS.delete_patient_by_id (VInt n) w')) = VList (read_back b l)
  /\ FileManager.read_file (backend_name b)
       (PMS.disk (snd (PMS.delete_patient_by_id (VInt n) w')))
     = Ok (VList (read_back b l)).
Proof.
  intros T P E S n _ L U w'. subst w'.
  set (r := record_of n (age_on today dt) f) in *.
  assert (E' : Forall eight_fields (l ++ [r])).
  { apply Forall_app. split; [exact E|]. constructor; [apply record_eight_fields|constructor]. }
  assert (W : writable b l = true).
  { destruct b; [|reflexivity]. cbn [writable]. specialize (L eq_refl).
    rewrite forallb_app in L. apply andb_prop in L. destruct L as [L _].
    rewrite forallb_forall in *. intros v I. apply fits_row_ok, eight_fields_fits.
    - rewrite Forall_forall in E. apply E, I.
    - apply L, I. }
  rewrite (add_patient_ok b today f w l dt T P W S). cbn [snd]. fold n. fold r.
  set (w1 := with_patients w (l ++ [r]) (store b (dumped b (VList (l ++ [r]))) (PMS.disk w))).
  assert (T1 : PMS.storage_type (PMS.self w1) = backend_name b) by exact T.
  assert (R1 : FileManager.read_file (backend_name b) (PMS.disk w1)
               = Ok (VList (read_back b (l ++ [r])))).
  { apply read_written; assumption. }
  assert (S1 : Forall (stored_record b) (read_back b (l ++ [r]))).
  { apply written_records_stored; assumption. }
  destruct (delete_patient_by_id_run b w1 _ (VInt n) T1 R1 S1) as [D Rk].
  assert (K : filter (keeps (VInt n)) (read_back b (l ++ [r])) = read_back b l).
  { rewrite read_back_app, filter_app.
    rewrite (filter_all (keeps (VInt n)) (read_back b l)).
    - assert (X : filter (keeps (VInt n)) (read_back b [r]) = []).
      { apply filter_none. destruct b; repeat constructor; unfold keeps;
          [change (id_text (as_text r)) with (str_of_Z n)
          |change (id_text r) with (str_of_Z n)];
          cbn [py_str py_repr]; rewrite String.eqb_refl; reflexivity. }
      rewrite X. apply app_nil_r.
    - apply forallb_forall. intros v I. rewrite Forall_forall in U. unfold keeps.
      cbn [py_str py_repr]. apply negb_true_iff, String.eqb_neq, U, I. }
  rewrite K in D, Rk. rewrite D. cbn [fst snd]. split; [reflexivity|].
  split; [reflexivity|]. unfold with_patients. cbn [PMS.disk]. exact Rk.
Qed.

Lemma add_then_delete_witness :
  let n := Z.of_nat (List.length list_ab) + 1 in
  let w' := snd (add new_year_2024 form_c world_ab) in
  fst (PMS.delete_patient_by_id (VInt n) w') = Ok tt
  /\ patients_of (snd (PMS.delete_patient_by_id (VInt n) w')) = VList (read_back CSV list_ab)
  /\ FileManager.read_file "csv" (PMS.disk (snd (PMS.delete_patient_by_id (VInt n) w')))
     = Ok (VList (read_back CSV list_ab)).
Proof.
  apply (add_then_delete CSV new_year_2024 form_c world_ab list_ab (mkdate 2020 2 29)).
  - reflexivity.
  - reflexivity.
  - repeat constructor; apply record_eight_fields.
  - reflexivity.
  - vm_compute. reflexivity.
  - intros _. reflexivity.
  - repeat constructor; vm_compute; discriminate.
Defined.

(** *** A json file that holds an object *)

(** X25.  [read_file] returns whatever value the json file holds.  When the
    file holds an object with at least one entry instead of a list, the
    manager starts with that dictionary: an addition raises (on the
    date, or [AttributeError] on [append]), a search and a deletion
    raise [TypeError], and the manager and the files stay as they
    were. *)
Theorem json_object_store today fs text kv dc f patient_id :
  patients_json fs = Some text ->
  json_load text = Ok (VDict (kv :: dc)) ->
  exists s,
    PMS.init "json" fs = Ok s
    /\ PMS.patients s = VDict (kv :: dc)
    /\ (exists e, add today f (PMS.mkworld s fs) = (Raise e, PMS.mkworld s fs))
    /\ PMS.search_patient_by_id patient_id (PMS.mkworld s fs) = Raise TypeError
    /\ PMS.delete_patient_by_id patient_id (PMS.mkworld s fs)
       = (Raise TypeError, PMS.mkworld s fs).
Proof.
  intros P L.
  assert (Rd : FileManager.read_file "json" fs = Ok (VDict (kv :: dc))).
  { unfold FileManager.read_file. cbn [String.eqb Ascii.eqb Bool.eqb]. rewrite P, L. reflexivity. }
  assert (S : forall v : key * value,
             subscript (value_of_key (fst v)) "id" = Raise TypeError).
  { intros [[|k] v]; reflexivity. }
  exists (PMS.mksystem "json" (VDict (kv :: dc))). split; [|split; [|split; [|split]]].
  - unfold PMS.init. rewrite Rd. reflexivity.
  - reflexivity.
  - unfold add, PMS.add_patient. cbn [PMS.self PMS.patients py_len].
    destruct (Patient.init _ _ _ _ _ _ _ _) as [p|e]; eexists; reflexivity.
  - unfold PMS.search_patient_by_id. cbn [PMS.self PMS.patients py_iter obind map PMS.find_by_id].
    rewrite S. reflexivity.
  - unfold PMS.delete_patient_by_id, FileManager.delete_from_file.
    cbn [PMS.self PMS.storage_type PMS.disk]. rewrite Rd.
    cbn [py_iter obind map FileManager.without_id]. rewrite S. reflexivity.
Qed.

Lemma json_object_store_witness :
  let text := json_dump (VDict [(KStr "patients", VInt 0)]) in
  let fs := mkfiles None (Some text) in
  exists s,
    PMS.init "json" fs = Ok s
    /\ PMS.patients s = VDict ((KStr "patients", VInt 0) :: [])
    /\ (exists e, add new_year_2024 form_a (PMS.mkworld s fs) = (Raise e, PMS.mkworld s fs))
    /\ PMS.search_patient_by_id (VStr "1") (PMS.mkworld s fs) = Raise TypeError
    /\ PMS.delete_patient_by_id (VStr "1") (PMS.mkworld s fs)
       = (Raise TypeError, PMS.mkworld s fs).
Proof.
  apply (json_object_store new_year_2024
           (mkfiles None (Some (json_dump (VDict [(KStr "patients", VInt 0)]))))
           (json_dump (VDict [(KStr "patients", VInt 0)]))
           (KStr "patients", VInt 0) [] form_a (VStr "1")).
  - reflexivity.
  - vm_compute. reflexivity.
Defined.

(** *** A csv row with more cells than the header *)

Lemma row_dict_eight row :
  List.length row = 8%nat ->
  row_dict fieldnames row = VDict (combine (map KStr fieldnames) (map VStr row)).
Proof.
  intros L. do 8 (let x := fresh "c" in destruct row as [|x row]; [discriminate L|]).
  destruct row; [reflexivity|discriminate L].
Qed.

Lemma row_dict_id c row :
  subscript (row_dict fieldnames (c :: row)) "id" = Ok (VStr c).
Proof.
  do 8 (let x := fresh "c" in destruct row as [|x row]; [reflexivity|]). reflexivity.
Qed.

Lemma row_dict_surplus row :
  (8 < List.length row)%nat ->
  exists dc, row_dict fieldnames row = VDict dc
             /\ forallb known_field (map fst dc) = false.
Proof.
  intros L. do 9 (let x := fresh "c" in destruct row as [|x row]; [simpl in L; lia|]).
  eexists. split; [reflexivity|]. reflexivity.
Qed.

Lemma eight_cells_fits row : eight_cells row -> fits (row_dict fieldnames row) = true.
Proof.
  intros [L B]. rewrite (row_dict_eight row L).
  do 8 (let x := fresh "c" in destruct row as [|x row]; [discriminate L|]). destruct row; [|discriminate L].
  cbn [fits]. apply andb_true_intro. split; [reflexivity|].
  apply forallb_forall. intros s I. apply Z.leb_le.
  rewrite Forall_forall in B. apply B. exact I.
Qed.

Lemma row_fits_head row : row_fits row -> exists c rest, row = c :: rest.
Proof. intros [L _]. destruct row as [|c rest]; [simpl in L; lia|]. eauto. Qed.

Lemma rows_have_id rows :
  Forall row_fits rows -> Forall has_id (map (row_dict fieldnames) rows).
Proof.
  induction 1 as [|row rows F _ IH]; [constructor|]. cbn [map]. constructor; [|exact IH].
  destruct (row_fits_head row F) as (c & rest & ->). eexists. apply row_dict_id.
Qed.

Lemma nonempty_rows rows :
  Forall row_fits rows -> filter (fun row : list string => negb (is_nil row)) rows = rows.
Proof.
  intros F. apply filter_all. apply forallb_forall. intros row I.
  rewrite Forall_forall in F. destruct (row_fits_head row (F row I)) as (c & rest & ->).
  reflexivity.
Qed.

(** X26.  A csv file, under the header of the eight columns, whose first row
    with more than eight cells comes after rows of eight: a deletion
    that does not remove that row raises [ValueError], the manager
    keeps its list, and the file is left with the rows before that one
    only (without the deleted ones); that row and the rows after it are
    lost. *)
Theorem delete_patient_by_id_surplus_cells w rows1 long rows2 patient_id :
  PMS.storage_type (PMS.self w) = "csv" ->
  patients_csv (PMS.disk w) = Some (rows_text (fieldnames :: rows1 ++ long :: rows2)) ->
  Forall eight_cells rows1 ->
  row_fits long -> (8 < List.length long)%nat ->
  Forall row_fits rows2 ->
  hd EmptyString long <> py_str patient_id ->
  let kept := filter (keeps patient_id) (map (row_dict fieldnames) rows1) in
  PMS.delete_patient_by_id patient_id w
  = (Raise ValueError,
     PMS.mkworld (PMS.self w)
       (mkfiles (Some (fst (csv_dump (VList kept)))) (patients_json (PMS.disk w)))).
Proof.
  intros T P E1 Fl Ll F2 N kept.
  assert (F1 : Forall row_fits rows1).
  { eapply Forall_impl; [|exact E1]. intros row [L B]. split; [lia|exact B]. }
  assert (Fa : Forall row_fits (rows1 ++ long :: rows2)).
  { apply Forall_app. split; [exact F1|]. constructor; assumption. }
  assert (Rd : FileManager.read_file "csv" (PMS.disk w)
               = Ok (VList (map (row_dict fieldnames) (rows1 ++ long :: rows2)))).
  { unfold FileManager.read_file. cbn [String.eqb Ascii.eqb Bool.eqb]. rewrite P.
    unfold dict_reader. rewrite csv_reader_rows_text.
    - cbn [obind]. rewrite (nonempty_rows _ Fa). reflexivity.
    - constructor; [apply fieldnames_fit|exact Fa]. }
  destruct (row_dict_surplus long Ll) as (dc & Dl & U).
  destruct (row_fits_head long Fl) as (c & rest & ->). cbn [hd] in N.
  assert (Kl : keeps patient_id (row_dict fieldnames (c :: rest)) = true).
  { unfold keeps, id_text. rewrite row_dict_id. cbn [py_str].
    apply negb_true_iff, String.eqb_neq, N. }
  unfold PMS.delete_patient_by_id, FileManager.delete_from_file. rewrite T, Rd.
  cbn [py_iter obind]. rewrite (without_id_filter _ _ (rows_have_id _ Fa)).
  rewrite map_app, filter_app. cbn [map filter]. rewrite Kl, Dl. fold kept.
  rewrite (write_file_csv_stops kept dc _ (PMS.disk w)).
  - reflexivity.
  - apply forallb_forall. intros v I. unfold kept in I. apply filter_In in I.
    destruct I as [I _]. apply in_map_iff in I. destruct I as (row & <- & I).
    apply fits_row_ok, eight_cells_fits. rewrite Forall_forall in E1. apply E1, I.
  - exact U.
Qed.

Lemma delete_patient_by_id_surplus_cells_witness :
  let rows1 := [["1"; "Ama"; "Mensah"; "15-06-1990"; "33"; "Accra"; "12"; "024-000-0000"]] in
  let long := ["2"; "Kofi"; "Boateng"; "01-01-2000"; "24"; "Kumasi"; "7"; "024-111-1111"; "x"] in
  let w := PMS.mkworld (PMS.mksystem "csv" (VList []))
             (mkfiles (Some (rows_text (fieldnames :: rows1 ++ long :: []))) None) in
  let kept := filter (keeps (VStr "9")) (map (row_dict fieldnames) rows1) in
  PMS.delete_patient_by_id (VStr "9") w
  = (Raise ValueError,
     PMS.mkworld (PMS.self w)
       (mkfiles (Some (fst (csv_dump (VList kept)))) (patients_json (PMS.disk w)))).
Proof.
  apply (delete_patient_by_id_surplus_cells
           (PMS.mkworld (PMS.mksystem "csv" (VList []))
              (mkfiles (Some (rows_text
                 (fieldnames
                  :: [["1"; "Ama"; "Mensah"; "15-06-1990"; "33"; "Accra"; "12"; "024-000-0000"]]
                  ++ ["2"; "Kofi"; "Boateng"; "01-01-2000"; "24"; "Kumasi"; "7";
                      "024-111-1111"; "x"] :: []))) None))
           [["1"; "Ama"; "Mensah"; "15-06-1990"; "33"; "Accra"; "12"; "024-000-0000"]]
           ["2"; "Kofi"; "Boateng"; "01-01-2000"; "24"; "Kumasi"; "7"; "024-111-1111"; "x"]
           [] (VStr "9")).
  - reflexivity.
  - reflexivity.
  - repeat constructor; vm_compute; discriminate.
  - split; [simpl; lia|repeat constructor; vm_compute; discriminate].
  - simpl. lia.
  - constructor.
  - discriminate.
Defined.

(** *** What additions keep true *)

Lemma aged_record today r : aged today r -> is_record r.
Proof. intros (i & f & dt & -> & _). eexists _, _, _. reflexivity. Qed.

Lemma additions_step b today f w l :
  PMS.storage_type (PMS.self w) = backend_name b ->
  patients_of w = VList l -> Forall (aged today) l -> in_step b l (PMS.disk w) ->
  exists l',
    PMS.storage_type (PMS.self (snd (add today f w))) = backend_name b
    /\ patients_of (snd (add today f w)) = VList l'
    /\ Forall (aged today) l'
    /\ in_step b l' (PMS.disk (snd (add today f w))).
Proof.
  intros T P A I.
  assert (W : writable b l = true).
  { apply records_writable. eapply Forall_impl; [|exact A]. apply aged_record. }
  destruct (strptime (f_date_of_birth f)) as [dt|e] eqn:D.
  - rewrite (add_patient_ok b today f w l dt T P W D). cbn [snd].
    eexists. split; [exact T|]. split; [reflexivity|]. split.
    + apply Forall_app. split; [exact A|]. constructor; [|constructor].
      exists (Z.of_nat (List.length l) + 1), f, dt. split; [reflexivity|exact D].
    + unfold in_step, with_patients. cbn [PMS.disk]. rewrite stored_store.
      destruct l; reflexivity.
  - rewrite (add_patient_bad_date today f w l e P D). cbn [snd].
    exists l. repeat split; assumption.
Qed.

(** X27.  After any sequence of additions on a new store, failed ones
    included, the backend's file holds exactly the list the manager
    holds, as [write_file] writes it, and every record of the list has
    a date of birth that [strptime] reads and the age computed from it
    on the day of the addition. *)
Theorem additions_keep_file_in_step b today fs :
  exists l,
    patients_of (run today (map Add fs) (fresh b)) = VList l
    /\ Forall (aged today) l
    /\ in_step b l (PMS.disk (run today (map Add fs) (fresh b))).
Proof.
  assert (G : forall w l,
             PMS.storage_type (PMS.self w) = backend_name b ->
             patients_of w = VList l -> Forall (aged today) l -> in_step b l (PMS.disk w) ->
             exists l', patients_of (run today (map Add fs) w) = VList l'
                        /\ Forall (aged today) l'
                        /\ in_step b l' (PMS.disk (run today (map Add fs) w))).
  { induction fs as [|f fs IH]; intros w l T P A I.
    - exists l. repeat split; assumption.
    - destruct (additions_step b today f w l T P A I) as (l1 & T1 & P1 & A1 & I1).
      unfold run. cbn [map fold_left serve]. apply (IH _ l1 T1 P1 A1 I1). }
  apply (G (fresh b) []).
  - reflexivity.
  - reflexivity.
  - constructor.
  - destruct b; reflexivity.
Qed.

(** *** The fuel of the json scanner *)

Lemma skip_ws_length s : (String.length (skip_ws s) <= String.length s)%nat.
Proof.
  induction s as [|c t IH]; [reflexivity|]. cbn [skip_ws].
  destruct (is_ws c); cbn [String.length]; lia.
Qed.

Lemma drop_length n s : (String.length (drop n s) <= String.length s)%nat.
Proof.
  revert s. induction n as [|n IH]; intros [|c t]; cbn [drop String.length]; try lia.
  specialize (IH t). lia.
Qed.

Lemma decode_uXXXX_length s r :
  decode_uXXXX s = Ok r -> (String.length (snd r) < String.length s)%nat.
Proof.
  unfold decode_uXXXX. destruct s as [|a [|b [|c [|e t]]]]; try discriminate.
  destruct (hex_val a), (hex_val b), (hex_val c), (hex_val e); try discriminate.
  intros H. inversion H. cbn [snd String.length]. lia.
Qed.

Lemma scanstring_fuel : forall f f' s acc,
  (String.length s < f)%nat -> (String.length s < f')%nat ->
  scanstring f s acc = scanstring f' s acc.
Proof.
  induction f as [|f IH]; intros f' s acc L L'; [lia|].
  destruct f' as [|f']; [lia|]. cbn [scanstring].
  destruct s as [|c t]; [reflexivity|]. cbn [String.length] in L, L'.
  destruct (Ascii.eqb c DQ); [reflexivity|].
  destruct (Ascii.eqb c "\").
  - destruct t as [|e t']; [reflexivity|]. cbn [String.length] in L, L'.
    destruct (Ascii.eqb e "u").
    + destruct (decode_uXXXX t') as [r|x] eqn:D; [|reflexivity]. cbn [obind].
      apply decode_uXXXX_length in D.
      destruct (fst r <? 256); [|reflexivity]. apply IH; lia.
    + destruct (backslash e); [|reflexivity]. apply IH; lia.
  - destruct (code c <? 32); [reflexivity|]. apply IH; lia.
Qed.

Lemma scanstring_length : forall f s acc r,
  scanstring f s acc = Ok r -> (String.length (snd r) < String.length s)%nat.
Proof.
  induction f as [|f IH]; intros s acc r; [discriminate|]. cbn [scanstring].
  destruct s as [|c t]; [discriminate|]. cbn [String.length].
  destruct (Ascii.eqb c DQ); [intros H; injection H as <-; cbn [snd]; lia|].
  destruct (Ascii.eqb c "\").
  - destruct t as [|e t']; [discriminate|]. cbn [String.length].
    destruct (Ascii.eqb e "u").
    + destruct (decode_uXXXX t') as [r0|x] eqn:D; [|discriminate]. cbn [obind].
      apply decode_uXXXX_length in D.
      destruct (fst r0 <? 256); [|discriminate]. intros H. apply IH in H. lia.
    + destruct (backslash e); [|discriminate]. intros H. apply IH in H. lia.
  - destruct (code c <? 32); [discriminate|]. intros H. apply IH in H. lia.
Qed.

Lemma span_digits_length s : (String.length (snd (span_digits s)) <= String.length s)%nat.
Proof.
  induction s as [|c t IH]; [reflexivity|]. cbn [span_digits].
  destruct (is_digit c); cbn [snd String.length]; lia.
Qed.

Lemma scan_number_length s r :
  scan_number s = Ok r -> (String.length (snd r) < String.length s)%nat.
Proof.
  unfold scan_number.
  destruct (match_integer s) as [[text rest]|] eqn:M.
  - assert (L : (String.length rest < String.length s)%nat).
    { unfold match_integer in M.
      assert (D : (String.length (if starts_with "-" s then drop 1 s else s)
                   <= String.length s)%nat).
      { destruct (starts_with "-" s); [apply drop_length|lia]. }
      destruct (if starts_with "-" s then drop 1 s else s) as [|c t]; [discriminate M|].
      cbn [String.length] in D.
      destruct (Ascii.eqb c "0").
      - inversion M. subst. lia.
      - destruct (is_digit c); [|discriminate M]. inversion M. subst.
        pose proof (span_digits_length t). lia. }
    destruct (float_tail rest); [discriminate|].
    destruct (py_int text); [|discriminate]. cbn [obind]. intros H. inversion H. exact L.
  - destruct (_ || _); discriminate.
Qed.

Lemma starts_with_drop p s :
  starts_with (String p EmptyString) s = true ->
  (String.length (drop 1 s) < String.length s)%nat.
Proof. destruct s as [|c t]; [discriminate|]. intros _. cbn [drop String.length]. lia. Qed.

(** What the scanner returns is shorter than what it was given. *)
Lemma scan_length : forall f,
  (forall s r, scan_once f s = Ok r -> (String.length (snd r) < String.length s)%nat)
  /\ (forall s acc r, json_array f s acc = Ok r ->
        (String.length (snd r) < String.length s)%nat)
  /\ (forall s acc r, json_object f s acc = Ok r ->
        (String.length (snd r) < String.length s)%nat).
Proof.
  induction f as [|f (IHs & IHa & IHo)]; [repeat split; intros; discriminate|].
  split; [|split].
  - intros s r. cbn [scan_once]. destruct s as [|c t]; [discriminate|]. cbn [String.length].
    destruct (Ascii.eqb c DQ).
    { destruct (scanstring _ t EmptyString) as [k|x] eqn:K; [|discriminate]. cbn [obind].
      apply scanstring_length in K. intros H. injection H as <-. cbn [snd]. lia. }
    destruct (Ascii.eqb c "{").
    { pose proof (skip_ws_length t) as W.
      destruct (starts_with "}" (skip_ws t)) eqn:E.
      - apply starts_with_drop in E. intros H. injection H as <-. cbn [snd drop] in *. lia.
      - destruct (json_object f (skip_ws t) []) as [k|x] eqn:K; [|discriminate]. cbn [obind].
        apply IHo in K. intros H. injection H as <-. cbn [snd]. lia. }
    destruct (Ascii.eqb c "[").
    { pose proof (skip_ws_length t) as W.
      destruct (starts_with "]" (skip_ws t)) eqn:E.
      - apply starts_with_drop in E. intros H. injection H as <-. cbn [snd drop] in *. lia.
      - destruct (json_array f (skip_ws t) []) as [k|x] eqn:K; [|discriminate]. cbn [obind].
        apply IHa in K. intros H. injection H as <-. cbn [snd]. lia. }
    destruct (starts_with "null" (String c t));
      [intros H; injection H as <-; cbn [snd drop]; destruct t as [|? [|? [|? ?]]];
       cbn [drop String.length]; lia|].
    destruct (starts_with "true" (String c t));
      [intros H; injection H as <-; cbn [snd drop]; destruct t as [|? [|? [|? ?]]];
       cbn [drop String.length]; lia|].
    destruct (starts_with "false" (String c t));
      [intros H; injection H as <-; cbn [snd drop]; destruct t as [|? [|? [|? [|? ?]]]];
       cbn [drop String.length]; lia|].
    intros H. apply scan_number_length in H. cbn [String.length] in H. exact H.
  - intros s acc r. cbn [json_array].
    destruct (scan_once f s) as [k|x] eqn:K; [|discriminate]. cbn [obind].
    apply IHs in K. pose proof (skip_ws_length (snd k)) as W.
    destruct (skip_ws (snd k)) as [|c t]; [discriminate|]. cbn [String.length] in W.
    destruct (Ascii.eqb c "]"); [intros H; injection H as <-; cbn [snd]; lia|].
    destruct (Ascii.eqb c ","); [|discriminate].
    intros H. apply IHa in H. pose proof (skip_ws_length t). lia.
  - intros s acc r. cbn [json_object].
    destruct (starts_with (String DQ EmptyString) s) eqn:Q; [|discriminate].
    apply starts_with_drop in Q.
    destruct (scanstring _ (drop 1 s) EmptyString) as [k|x] eqn:K; [|discriminate].
    cbn [obind]. apply scanstring_length in K. pose proof (skip_ws_length (snd k)) as W1.
    destruct (starts_with ":" (skip_ws (snd k))) eqn:C; [|discriminate].
    apply starts_with_drop in C.
    pose proof (skip_ws_length (drop 1 (skip_ws (snd k)))) as W2.
    destruct (scan_once f _) as [v|x] eqn:V; [|discriminate]. cbn [obind].
    apply IHs in V. pose proof (skip_ws_length (snd v)) as W3.
    destruct (skip_ws (snd v)) as [|c t2]; [discriminate|]. cbn [String.length] in W3.
    destruct (Ascii.eqb c "}"); [intros H; injection H as <-; cbn [snd]; lia|].
    destruct (Ascii.eqb c ","); [|discriminate].
    intros H. apply IHo in H. pose proof (skip_ws_length t2). lia.
Qed.

(** More fuel than twice the length of the text changes nothing. *)
Lemma scan_fuel : forall f,
  (forall f' s, (2 * String.length s < f)%nat -> (2 * String.length s < f')%nat ->
     scan_once f s = scan_once f' s)
  /\ (forall f' s acc,
        (2 * String.length s + 1 < f)%nat -> (2 * String.length s + 1 < f')%nat ->
        json_array f s acc = json_array f' s acc)
  /\ (forall f' s acc,
        (2 * String.length s + 1 < f)%nat -> (2 * String.length s + 1 < f')%nat ->
        json_object f s acc = json_object f' s acc).
Proof.
  induction f as [|f (IHs & IHa & IHo)]; [repeat split; intros; lia|].
  split; [|split].
  - intros [|f'] s L L'; [lia|]. cbn [scan_once].
    destruct s as [|c t]; [reflexivity|]. cbn [String.length] in L, L'.
    destruct (Ascii.eqb c DQ); [reflexivity|].
    pose proof (skip_ws_length t) as W.
    destruct (Ascii.eqb c "{").
    { destruct (starts_with "}" (skip_ws t)); [reflexivity|].
      rewrite (IHo f' (skip_ws t) []) by lia. reflexivity. }
    destruct (Ascii.eqb c "[").
    { destruct (starts_with "]" (skip_ws t)); [reflexivity|].
      rewrite (IHa f' (skip_ws t) []) by lia. reflexivity. }
    reflexivity.
  - intros [|f'] s acc L L'; [lia|]. cbn [json_array].
    rewrite (IHs f' s) by lia.
    destruct (scan_once f' s) as [k|x] eqn:K; [|reflexivity]. cbn [obind].
    apply (proj1 (scan_length f')) in K. pose proof (skip_ws_length (snd k)) as W.
    destruct (skip_ws (snd k)) as [|c t]; [reflexivity|]. cbn [String.length] in W.
    destruct (Ascii.eqb c "]"); [reflexivity|].
    destruct (Ascii.eqb c ","); [|reflexivity].
    pose proof (skip_ws_length t). apply IHa; lia.
  - intros [|f'] s acc L L'; [lia|]. cbn [json_object].
    destruct (starts_with (String DQ EmptyString) s) eqn:Q; [|reflexivity].
    apply starts_with_drop in Q.
    destruct (scanstring _ (drop 1 s) EmptyString) as [k|x] eqn:K; [|reflexivity].
    cbn [obind]. apply scanstring_length in K. pose proof (skip_ws_length (snd k)) as W1.
    destruct (starts_with ":" (skip_ws (snd k))) eqn:C; [|reflexivity].
    apply starts_with_drop in C.
    pose proof (skip_ws_length (drop 1 (skip_ws (snd k)))) as W2.
    rewrite (IHs f' (skip_ws (drop 1 (skip_ws (snd k))))) by lia.
    destruct (scan_once f' _) as [v|x] eqn:V; [|reflexivity]. cbn [obind].
    apply (proj1 (scan_length f')) in V. pose proof (skip_ws_length (snd v)) as W3.
    destruct (skip_ws (snd v)) as [|c t2]; [reflexivity|]. cbn [String.length] in W3.
    destruct (Ascii.eqb c "}"); [reflexivity|].
    destruct (Ascii.eqb c ","); [|reflexivity].
    pose proof (skip_ws_length t2). apply IHo; lia.
Qed.

(** The fuel [json_loads] gives is enough: with any more fuel the
    scanner returns the same, on every text.  So [json_loads] raises
    [NotModelled] only where the text leaves the embedded fragment. *)
Lemma scan_once_fuel text extra :
  scan_once (S (2 * String.length text) + extra) (skip_ws text)
  = scan_once (S (2 * String.length text)) (skip_ws text).
Proof.
  pose proof (skip_ws_length text). apply (proj1 (scan_fuel _)); lia.
Qed.
